(** * passkey-express-react: the relying-party ceremony handlers

    A shallow embedding of [passkey-jwt-app/server/index.js] (the Express
    handlers over Prisma/PostgreSQL), of the table definitions of the SQL
    migration, and of the register-challenge handler of the earlier
    in-memory server, followed by the properties of the ceremony engine.

    Layout:
    - [User], [Authenticator], [DB]: the two tables and their sequences;
    - [Async]: the handlers' effect, a store that persists across a raised
      exception (PostgreSQL auto-commits each statement; there is no
      transaction in the handlers);
    - [Prisma]: the five queries the handlers issue;
    - [WebAuthnServer]: the interface of @simplewebauthn/server, and
      [SimpleWebAuthn], a model of it;
    - [Jwt]: jsonwebtoken's [sign] and [verify];
    - [Server]: the handlers of index.js, on the fields of a body that has
      them;
    - [InMemory]: the handlers of the in-memory server over the [users]
      object;
    - [Postgres], [Endpoint]: the handlers of index.js from the request body
      on, a field of which may be missing, with the rejections of Prisma's
      argument check and of PostgreSQL (NUL byte in a TEXT parameter, primary
      key in use); [reordered]: the order of the rows, which no query of the
      handlers fixes;
    - [Client]: the API layer of the client (api.ts) against the server. *)

From stdpp Require Import base decidable option list strings numbers gmap pretty.
From Stdlib Require Import ZArith Strings.Byte.

#[local] Open Scope string_scope.
#[local] Open Scope N_scope.

(** ** Data model *)

#[global] Instance byte_eq_dec : EqDecision byte := Byte.byte_eq_dec.

(** A row of table "User": [id SERIAL], [username TEXT NOT NULL] under the
    unique index "User_username_key", [currentChallenge TEXT] (nullable). *)
Module User.
Record t := mk {
  id : N;
  username : string;
  currentChallenge : option string
}.

#[global] Instance eq_dec : EqDecision t.
Proof. solve_decision. Defined.
End User.

(** A row of table "Authenticator".  The migration puts a primary key on
    [id] and a foreign key on [userId]; it declares no index on
    [credentialID]. *)
Module Authenticator.
Record t := mk {
  id : N;
  credentialID : string;
  credentialPublicKey : list byte;
  counter : Z;
  transports : list string;
  userId : N
}.

#[global] Instance eq_dec : EqDecision t.
Proof. solve_decision. Defined.
End Authenticator.

(** The database: the rows of both tables and the next value of the two
    SERIAL sequences.  A table is the list of its rows: an insert appends
    and an update keeps the row's place.  PostgreSQL itself promises no
    order; [reordered] relates the databases that differ in it only. *)
Record DB := mkDB {
  users : list User.t;
  authenticators : list Authenticator.t;
  User_id_seq : N;
  Authenticator_id_seq : N
}.

#[global] Instance DB_eq_dec : EqDecision DB.
Proof. solve_decision. Defined.

Definition empty_db : DB := mkDB [] [] 1 1.

(** ** The effect of a handler

    An [async] body reads and writes the database and may raise.  Writes made
    before an exception stay: each Prisma call is its own statement. *)

Inductive Completion (A : Type) : Type :=
| Normal (a : A)
| Throw (error : string).
Arguments Normal {A} a.
Arguments Throw {A} error.

Definition Async (A : Type) : Type := DB → Completion A * DB.

Definition ret {A} (a : A) : Async A := λ db, (Normal a, db).

Definition throw {A} (error : string) : Async A := λ db, (Throw error, db).

Definition bind {A B} (m : Async A) (k : A → Async B) : Async B :=
  λ db, match m db with
        | (Normal a, db') => k a db'
        | (Throw e, db') => (Throw e, db')
        end.

(** [try { body } catch (error) { handler }] *)
Definition try_catch {A} (body : Async A) (handler : string → Async A) : Async A :=
  λ db, match body db with
        | (Normal a, db') => (Normal a, db')
        | (Throw e, db') => handler e db'
        end.

(** The value of an awaited library call that may reject. *)
Definition await {A} (c : Completion A) : Async A := λ db, (c, db).

Declare Scope async_scope.
Delimit Scope async_scope with async.
Notation "'let!' x ':=' m 'in' k" := (bind m (λ x, k))
  (at level 10, x name, m at level 100, k at level 200, only parsing) : async_scope.
Notation "m ';;;' k" := (bind m (λ _, k))
  (at level 100, k at level 200, right associativity, only parsing) : async_scope.
#[local] Open Scope async_scope.

(** ** Prisma queries *)

Module Prisma.

(** The row [where: { username }] selects, if any. *)
Definition find_user (db : DB) (username : string) : option User.t :=
  List.find (λ u, bool_decide (User.username u = username)) (users db).

(** [include: { authenticators: true }]: the rows whose [userId] is the
    user's [id], in the order of the table (the query names no
    [orderBy]). *)
Definition include_authenticators (db : DB) (user : User.t) : list Authenticator.t :=
  List.filter (λ a, bool_decide (Authenticator.userId a = User.id user)) (authenticators db).

(** [prisma.user.findUnique({ where: { username } })], for a [username]
    that is a string PostgreSQL takes as TEXT; [Postgres.user_findUnique]
    adds the rejection of any other. *)
Definition user_findUnique (username : string) : Async (option User.t) :=
  λ db, (Normal (find_user db username), db).

(** [prisma.user.findUnique({ where: { username }, include: { authenticators: true } })] *)
Definition user_findUnique_include (username : string)
  : Async (option (User.t * list Authenticator.t)) :=
  λ db, (Normal ((λ u, (u, include_authenticators db u)) <$> find_user db username), db).

(** [prisma.user.create({ data: { username, currentChallenge } })].  The
    sequence value is drawn before the unique index is checked, so a
    rejected insert still consumes it.  The sequence keeps the primary key
    free; [Postgres.user_create] has the check for a database where it does
    not. *)
Definition user_create (username : string) (currentChallenge : option string) : Async User.t :=
  λ db,
    let row := User.mk (User_id_seq db) username currentChallenge in
    if bool_decide (username ∈ User.username <$> users db)
    then (Throw "Unique constraint failed on the fields: (`username`)",
          mkDB (users db) (authenticators db) (N.succ (User_id_seq db)) (Authenticator_id_seq db))
    else (Normal row,
          mkDB (users db ++ [row]) (authenticators db)
               (N.succ (User_id_seq db)) (Authenticator_id_seq db)).

(** [prisma.authenticator.create({ data: { ... } })]: the foreign key
    "Authenticator_userId_fkey" is the only constraint besides the primary
    key, which the sequence keeps free ([Postgres.authenticator_create] has
    the check). *)
Definition authenticator_create (credentialID : string) (credentialPublicKey : list byte)
    (counter : Z) (transports : list string) (userId : N) : Async Authenticator.t :=
  λ db,
    let row := Authenticator.mk (Authenticator_id_seq db) credentialID credentialPublicKey
                                counter transports userId in
    if bool_decide (userId ∈ User.id <$> users db)
    then (Normal row,
          mkDB (users db) (authenticators db ++ [row])
               (User_id_seq db) (N.succ (Authenticator_id_seq db)))
    else (Throw "Foreign key constraint violated: `Authenticator_userId_fkey`",
          mkDB (users db) (authenticators db) (User_id_seq db) (N.succ (Authenticator_id_seq db))).

Definition set_currentChallenge (id : N) (c : option string) (u : User.t) : User.t :=
  if bool_decide (User.id u = id) then User.mk (User.id u) (User.username u) c else u.

(** [prisma.user.update({ where: { id }, data: { currentChallenge } })] *)
Definition user_update (id : N) (currentChallenge : option string) : Async unit :=
  λ db,
    if bool_decide (id ∈ User.id <$> users db)
    then (Normal (),
          mkDB (set_currentChallenge id currentChallenge <$> users db) (authenticators db)
               (User_id_seq db) (Authenticator_id_seq db))
    else (Throw "Record to update not found.", db).

Definition set_counter (id : N) (c : Z) (a : Authenticator.t) : Authenticator.t :=
  if bool_decide (Authenticator.id a = id)
  then Authenticator.mk (Authenticator.id a) (Authenticator.credentialID a)
         (Authenticator.credentialPublicKey a) c (Authenticator.transports a)
         (Authenticator.userId a)
  else a.

(** [prisma.authenticator.update({ where: { id }, data: { counter } })];
    the row keeps its place in the list. *)
Definition authenticator_update (id : N) (counter : Z) : Async unit :=
  λ db,
    if bool_decide (id ∈ Authenticator.id <$> authenticators db)
    then (Normal (),
          mkDB (users db) (set_counter id counter <$> authenticators db)
               (User_id_seq db) (Authenticator_id_seq db))
    else (Throw "Record to update not found.", db).

End Prisma.

(** ** Process configuration and HTTP responses *)

(** [process.env]: a variable that is not set reads as [undefined]. *)
Record Env := mkEnv {
  RP_NAME : option string;
  RP_ID : option string;
  ORIGIN : option string;
  JWT_SECRET : option string
}.

(** The credential shape of @simplewebauthn/server ([WebAuthnCredential]). *)
Module WebAuthnCredential.
Record t := mk {
  id : string;
  publicKey : list byte;
  counter : Z;
  transports : option (list string)
}.
End WebAuthnCredential.

(** [{ id, type: 'public-key', transports }] *)
Record CredentialDescriptor := mkDescriptor {
  descriptor_id : string;
  descriptor_transports : list string
}.

Record RegistrationOptions := mkRegistrationOptions {
  reg_challenge : string;
  reg_rpName : option string;
  reg_rpID : option string;
  reg_userID : list byte;
  reg_userName : string;
  reg_attestation : string;
  reg_excludeCredentials : list CredentialDescriptor
}.

Record AuthenticationOptions := mkAuthenticationOptions {
  auth_challenge : string;
  auth_allowCredentials : list CredentialDescriptor
}.

(** jsonwebtoken. *)
Module Jwt.

Record Payload := mkPayload {
  username : string;
  iat : Z;
  exp : Z
}.

(** A token is its payload and the key its signature was made with. *)
Record t := mk {
  payload : Payload;
  key : string
}.

(** [ms('1h')] *)
Definition ms_1h : Z := 60 * 60 * 1000.

(** Modelled from the spec: jsonwebtoken's [sign] is not part of the
    repository.  Spec 4.5: "produces a signed, time-bounded (1-hour
    validity recommended) assertion binding the token to the username;
    signing key is process-wide configuration".  [iat] is the clock in
    whole seconds and [exp] is [iat] plus the span in seconds; signing
    without a key raises. *)
Definition sign (username : string) (secretOrPrivateKey : option string)
    (expiresIn : Z) (now : Z) : Completion t :=
  match secretOrPrivateKey with
  | None | Some "" => Throw "secretOrPrivateKey must have a value"
  | Some k =>
      let iat := (now `div` 1000)%Z in
      Normal (mk (mkPayload username iat (iat + expiresIn `div` 1000)%Z) k)
  end.

(** Modelled from the spec: jsonwebtoken's [verify] is not part of the
    repository.  Spec 4.5: "validate(token) -> username | Expired |
    Invalid: signature and expiry check; no revocation list".  The token is
    expired once the clock in whole seconds has reached [exp]. *)
Definition verify (token : t) (secretOrPublicKey : option string) (now : Z)
  : Completion Payload :=
  match secretOrPublicKey with
  | None | Some "" => Throw "secret or public key must be provided"
  | Some k =>
      if bool_decide (key token = k)
      then if bool_decide (exp (payload token) ≤ now `div` 1000)%Z
           then Throw "jwt expired"
           else Normal (payload token)
      else Throw "invalid signature"
  end.

End Jwt.

(** The argument of [res.json]. *)
Inductive Body :=
| JsonError (error : string)
| JsonVerified (verified : bool) (error : option string) (token : option Jwt.t)
| JsonRegistrationOptions (options : RegistrationOptions)
| JsonAuthenticationOptions (options : AuthenticationOptions)
| JsonMessage (message : string)
| StatusText.

Record Response := mkResponse {
  status : N;
  body : Body
}.

(** [res.json(body)] answers with status 200. *)
Definition json (body : Body) : Response := mkResponse 200 body.
(** [res.status(code).json(body)] *)
Definition status_json (code : N) (body : Body) : Response := mkResponse code body.
(** [res.sendStatus(code)] *)
Definition sendStatus (code : N) : Response := mkResponse code StatusText.

(** [BigInt(n)] and [Number(b)] on integers: both keep the value (a counter
    is a 32-bit field of the authenticator data, far below 2^53). *)
Definition BigInt (n : Z) : Z := n.
Definition Number (b : Z) : Z := b.

(** ** @simplewebauthn/server *)

(** What [startRegistration] sends back, reduced to the fields the
    verification reads: the client data (challenge, origin), the
    authenticator data (RP ID, counter, the new credential) and whether the
    attestation statement holds. *)
Module RegistrationResponse.
Record t := mk {
  id : string;
  challenge : string;
  origin : string;
  rpId : string;
  publicKey : list byte;
  counter : N;
  transports : option (list string);
  attestation_valid : bool
}.
End RegistrationResponse.

(** What [startAuthentication] sends back.  [signer] is the public key under
    which the assertion signature verifies, that is, the key pair the
    authenticator signed with. *)
Module AuthenticationResponse.
Record t := mk {
  id : string;
  challenge : string;
  origin : string;
  rpId : string;
  counter : N;
  signer : list byte
}.
End AuthenticationResponse.

Record RegistrationInfo := mkRegistrationInfo {
  credential : WebAuthnCredential.t
}.

Record VerifiedRegistrationResponse := mkVerifiedRegistration {
  reg_verified : bool;
  registrationInfo : option RegistrationInfo
}.

Record AuthenticationInfo := mkAuthenticationInfo {
  newCounter : Z
}.

Record VerifiedAuthenticationResponse := mkVerifiedAuthentication {
  auth_verified : bool;
  authenticationInfo : AuthenticationInfo
}.

(** The two verification entry points the handlers import.  Their arguments
    are the fields of the options object, in the order [response],
    [expectedChallenge], [expectedOrigin], [expectedRPID] (and [credential]);
    either may reject. *)
Class WebAuthnServer := {
  verifyRegistrationResponse :
    RegistrationResponse.t → option string → option string → option string →
    Completion VerifiedRegistrationResponse;
  verifyAuthenticationResponse :
    AuthenticationResponse.t → option string → option string → option string →
    WebAuthnCredential.t → Completion VerifiedAuthenticationResponse
}.

(** [generateRegistrationOptions({...})]; [challenge] is the random value the
    library draws. *)
Definition generateRegistrationOptions (rpName rpID : option string) (userID : list byte)
    (userName : string) (attestationType : string)
    (excludeCredentials : list CredentialDescriptor) (challenge : string)
  : RegistrationOptions :=
  mkRegistrationOptions challenge rpName rpID userID userName attestationType excludeCredentials.

(** [generateAuthenticationOptions({ allowCredentials })] *)
Definition generateAuthenticationOptions (allowCredentials : list CredentialDescriptor)
    (challenge : string) : AuthenticationOptions :=
  mkAuthenticationOptions challenge allowCredentials.

(** The counter rule: the reported counter must exceed the stored one unless
    both are zero. *)
Definition counter_ok (stored reported : Z) : bool :=
  bool_decide (stored < reported)%Z || (bool_decide (stored = 0%Z) && bool_decide (reported = 0%Z)).

Module SimpleWebAuthn.

(** Modelled from the spec: [verifyRegistrationResponse] of
    @simplewebauthn/server is not part of the repository.  Spec 4.3, steps
    2 to 4: origin and RP ID by exact equality, the challenge against the
    expected one, then the attestation.  A check that fails raises, which
    is what the handler's [catch] receives; the attestation result is
    reported through [verified]. *)
Definition verifyRegistrationResponse (response : RegistrationResponse.t)
    (expectedChallenge expectedOrigin expectedRPID : option string)
  : Completion VerifiedRegistrationResponse :=
  if negb (bool_decide (Some (RegistrationResponse.origin response) = expectedOrigin))
  then Throw "Unexpected registration response origin"
  else if negb (bool_decide (Some (RegistrationResponse.rpId response) = expectedRPID))
  then Throw "Unexpected RP ID hash"
  else if negb (bool_decide (Some (RegistrationResponse.challenge response) = expectedChallenge))
  then Throw "Unexpected registration response challenge"
  else if RegistrationResponse.attestation_valid response
  then Normal (mkVerifiedRegistration true
         (Some (mkRegistrationInfo
            (WebAuthnCredential.mk
               (RegistrationResponse.id response)
               (RegistrationResponse.publicKey response)
               (Z.of_N (RegistrationResponse.counter response))
               (RegistrationResponse.transports response)))))
  else Normal (mkVerifiedRegistration false None).

(** Modelled from the spec: [verifyAuthenticationResponse] of
    @simplewebauthn/server is not part of the repository.  Spec 4.4, steps
    3 to 6: the challenge against the expected one, origin and RP ID by
    exact equality, the signature under the stored public key, then the
    counter rule.  A check that fails raises; the signature result is
    reported through [verified]. *)
Definition verifyAuthenticationResponse (response : AuthenticationResponse.t)
    (expectedChallenge expectedOrigin expectedRPID : option string)
    (credential : WebAuthnCredential.t)
  : Completion VerifiedAuthenticationResponse :=
  let counter := Z.of_N (AuthenticationResponse.counter response) in
  if negb (bool_decide (Some (AuthenticationResponse.challenge response) = expectedChallenge))
  then Throw "Unexpected authentication response challenge"
  else if negb (bool_decide (Some (AuthenticationResponse.origin response) = expectedOrigin))
  then Throw "Unexpected authentication response origin"
  else if negb (bool_decide (Some (AuthenticationResponse.rpId response) = expectedRPID))
  then Throw "Unexpected RP ID hash"
  else if negb (bool_decide (AuthenticationResponse.signer response
                             = WebAuthnCredential.publicKey credential))
  then Normal (mkVerifiedAuthentication false (mkAuthenticationInfo counter))
  else if negb (counter_ok (WebAuthnCredential.counter credential) counter)
  then Throw "Response counter value was lower than expected"
  else Normal (mkVerifiedAuthentication true (mkAuthenticationInfo counter)).

Definition lib : WebAuthnServer :=
  Build_WebAuthnServer verifyRegistrationResponse verifyAuthenticationResponse.

End SimpleWebAuthn.

(** ** The handlers of index.js *)

Module Server.
Section Handlers.

Context {lib : WebAuthnServer}.
Variable env : Env.

(** Relying Party Info *)
Definition rpName : option string := RP_NAME env.
Definition rpID : option string := RP_ID env.
Definition origin : option string := ORIGIN env.

Definition username_required : Response :=
  status_json 400 (JsonError "Username is required").
Definition username_taken : Response :=
  status_json 400 (JsonError "Username already taken").
Definition user_not_found : Response :=
  status_json 404 (JsonError "User not found").
Definition not_found_or_no_authenticators : Response :=
  status_json 404 (JsonError "User not found or no authenticators registered").
Definition authenticator_not_recognized : Response :=
  status_json 400 (JsonError "Authenticator not recognized").
Definition verification_failed : Response :=
  status_json 400 (JsonVerified false (Some "Verification failed") None).
Definition internal_server_error : Response :=
  status_json 500 (JsonError "Internal server error").

(** [app.post('/register-challenge', ...)].  [challenge] is the one
    [generateRegistrationOptions] draws; an absent or empty [username] is
    falsy. *)
Definition register_challenge (username : string) (challenge : string) : Async Response :=
  if bool_decide (username = "") then ret username_required
  else
    let! existingUser := Prisma.user_findUnique username in
    match existingUser with
    | Some _ => ret username_taken
    | None =>
        let options :=
          generateRegistrationOptions rpName rpID (String.list_byte_of_string username) username
                                      "none" [] challenge in
        (Prisma.user_create username (Some (reg_challenge options)) ;;;
         ret (json (JsonRegistrationOptions options)))
    end.

(** [app.post('/register-verify', ...)] *)
Definition register_verify (username : string) (response : RegistrationResponse.t)
  : Async Response :=
  let! user := Prisma.user_findUnique username in
  match user with
  | None => ret user_not_found
  | Some user =>
      try_catch
        (let! verification :=
           await (verifyRegistrationResponse response (User.currentChallenge user)
                                             origin rpID) in
         if reg_verified verification then
           match registrationInfo verification with
           | None => throw "Cannot destructure property 'credential' of undefined"
           | Some info =>
               let credential := credential info in
               (Prisma.authenticator_create
                  (WebAuthnCredential.id credential)
                  (WebAuthnCredential.publicKey credential)
                  (BigInt (WebAuthnCredential.counter credential))
                  (default [] (WebAuthnCredential.transports credential))
                  (User.id user) ;;;
                Prisma.user_update (User.id user) None ;;;
                ret (json (JsonVerified true None None)))
           end
         else ret verification_failed)
        (λ error, ret internal_server_error)
  end.

Definition descriptor (auth : Authenticator.t) : CredentialDescriptor :=
  mkDescriptor (Authenticator.credentialID auth) (Authenticator.transports auth).

(** [app.post('/login-challenge', ...)] *)
Definition login_challenge (username : string) (challenge : string) : Async Response :=
  let! user := Prisma.user_findUnique_include username in
  match user with
  | None => ret not_found_or_no_authenticators
  | Some (user, authenticators) =>
      if bool_decide (length authenticators = 0%nat)
      then ret not_found_or_no_authenticators
      else
        let options :=
          generateAuthenticationOptions (descriptor <$> authenticators) challenge in
        (Prisma.user_update (User.id user) (Some (auth_challenge options)) ;;;
         ret (json (JsonAuthenticationOptions options)))
  end.

(** [authenticators.find(auth => auth.credentialID === id)] *)
Definition find_authenticator (id : string) (authenticators : list Authenticator.t)
  : option Authenticator.t :=
  List.find (λ auth, bool_decide (Authenticator.credentialID auth = id)) authenticators.

(** The [credential: { id, publicKey, counter, transports }] argument built
    from the stored row. *)
Definition stored_credential (authenticator : Authenticator.t) : WebAuthnCredential.t :=
  WebAuthnCredential.mk
    (Authenticator.credentialID authenticator)
    (Authenticator.credentialPublicKey authenticator)
    (Number (Authenticator.counter authenticator))
    (Some (Authenticator.transports authenticator)).

(** [app.post('/login-verify', ...)]; [response] is [req.body.response] as
    the client sends it ([Endpoint.login_verify] has the body without one),
    [now] the clock [jwt.sign] reads. *)
Definition login_verify (username : string) (response : AuthenticationResponse.t) (now : Z)
  : Async Response :=
  let! user := Prisma.user_findUnique_include username in
  match user with
  | None => ret user_not_found
  | Some (user, authenticators) =>
      match find_authenticator (AuthenticationResponse.id response) authenticators with
      | None => ret authenticator_not_recognized
      | Some authenticator =>
          try_catch
            (let! verification :=
               await (verifyAuthenticationResponse response (User.currentChallenge user)
                        origin rpID (stored_credential authenticator)) in
             if auth_verified verification then
               (Prisma.authenticator_update (Authenticator.id authenticator)
                  (BigInt (newCounter (authenticationInfo verification))) ;;;
                Prisma.user_update (User.id user) None ;;;
                let! token := await (Jwt.sign (User.username user) (JWT_SECRET env)
                                              Jwt.ms_1h now) in
                ret (json (JsonVerified true None (Some token))))
             else ret verification_failed)
            (λ error, ret internal_server_error)
      end
  end.

(** One space-separated piece of the Authorization header: the compact form
    of a token, or any other word. *)
Inductive Piece :=
| Compact (token : Jwt.t)
| Word (w : string).

(** [verifyToken]: [authorization] is the header split at spaces, absent
    when the header is.  The result is the response sent, or the decoded
    payload handed to [next] as [req.user]. *)
Definition verifyToken (authorization : option (list Piece)) (now : Z)
  : Response + Jwt.Payload :=
  match authorization with
  | None => inl (sendStatus 401)
  | Some pieces =>
      match pieces !! 1%nat with
      | None | Some (Word "") => inl (sendStatus 401)
      | Some (Word _) => inl (sendStatus 403)
      | Some (Compact token) =>
          match Jwt.verify token (JWT_SECRET env) now with
          | Throw err => inl (sendStatus 403)
          | Normal user => inr user
          end
      end
  end.

(** [app.get('/profile', verifyToken, ...)] *)
Definition profile (authorization : option (list Piece)) (now : Z) : Response :=
  match verifyToken authorization now with
  | inl response => response
  | inr user =>
      json (JsonMessage ("Welcome, " +:+ Jwt.username user
                         +:+ "! This is a protected resource."))
  end.

(** A request to one of the four ceremony endpoints, with the values the
    handler draws from its environment (fresh challenge, clock). *)
Inductive Request :=
| RegisterChallenge (username challenge : string)
| RegisterVerify (username : string) (response : RegistrationResponse.t)
| LoginChallenge (username challenge : string)
| LoginVerify (username : string) (response : AuthenticationResponse.t) (now : Z).

Definition handle (r : Request) : Async Response :=
  match r with
  | RegisterChallenge username challenge => register_challenge username challenge
  | RegisterVerify username response => register_verify username response
  | LoginChallenge username challenge => login_challenge username challenge
  | LoginVerify username response now => login_verify username response now
  end.

(** The database after serving the requests one after the other. *)
Fixpoint serve (requests : list Request) (db : DB) : DB :=
  match requests with
  | [] => db
  | r :: rest => serve rest (handle r db).2
  end.

End Handlers.
End Server.

(** ** The in-memory server: [const users = {}] keyed by username *)

Module InMemory.

Record Authenticator := mkAuthenticator {
  credentialID : string;
  credentialPublicKey : list byte;
  counter : Z;
  transports : list string
}.

Record UserEntry := mkUser {
  username : string;
  authenticators : list Authenticator;
  challenge : option string
}.

(** [users] is a plain object: reading [users[k]] also finds what
    [Object.prototype] provides. *)
Definition Object_prototype : list string :=
  ["constructor"; "__proto__"; "hasOwnProperty"; "isPrototypeOf";
   "propertyIsEnumerable"; "toLocaleString"; "toString"; "valueOf";
   "__defineGetter__"; "__defineSetter__"; "__lookupGetter__"; "__lookupSetter__"].

(** The truth value of [users[username]]. *)
Definition truthy (users : gmap string UserEntry) (username : string) : bool :=
  bool_decide (is_Some (users !! username)) || bool_decide (username ∈ Object_prototype).

Definition descriptor (auth : Authenticator) : CredentialDescriptor :=
  mkDescriptor (credentialID auth) (transports auth).

Definition set_challenge (c : option string) (u : UserEntry) : UserEntry :=
  mkUser (username u) (authenticators u) c.

(** [app.post('/register-challenge', ...)] of the in-memory server. *)
Definition register_challenge (env : Env) (username : string) (challenge : string)
    (users : gmap string UserEntry) : Response * gmap string UserEntry :=
  if bool_decide (username = "") then (Server.username_required, users)
  else if truthy users username then (Server.username_taken, users)
  else
    let users := <[username := mkUser username [] None]> users in
    let options :=
      generateRegistrationOptions (RP_NAME env) (RP_ID env)
        (String.list_byte_of_string username) username "none"
        (descriptor <$> from_option authenticators [] (users !! username)) challenge in
    (json (JsonRegistrationOptions options),
     alter (set_challenge (Some (reg_challenge options))) username users).

(** What reading [users[username]] yields: an entry stored under that key, a
    member inherited from [Object.prototype] (a function, or the prototype
    itself for "__proto__"), or [undefined]. *)
Inductive Lookup :=
| Own (user : UserEntry)
| Inherited
| Undefined.

Definition get (users : gmap string UserEntry) (username : string) : Lookup :=
  match users !! username with
  | Some user => Own user
  | None => if bool_decide (username ∈ Object_prototype) then Inherited else Undefined
  end.

(** [authenticators.find(auth => auth.credentialID === id)] *)
Definition find_authenticator (id : string) (authenticators : list Authenticator)
  : option Authenticator :=
  List.find (λ auth, bool_decide (credentialID auth = id)) authenticators.

(** [authenticator.counter = c] for the element [find] returned: the array
    holds that very object, so its first element with this credentialID
    changes. *)
Fixpoint assign_counter (id : string) (c : Z) (authenticators : list Authenticator)
  : list Authenticator :=
  match authenticators with
  | [] => []
  | auth :: rest =>
      if bool_decide (credentialID auth = id)
      then mkAuthenticator (credentialID auth) (credentialPublicKey auth) c (transports auth)
           :: rest
      else auth :: assign_counter id c rest
  end.

Section Handlers.

Context {lib : WebAuthnServer}.
Variable env : Env.

(** [app.post('/register-verify', ...)] of the in-memory server.  An inherited
    member has neither [challenge] nor [authenticators], so pushing onto the
    latter raises inside the [try]. *)
Definition register_verify (username : string) (response : RegistrationResponse.t)
    (users : gmap string UserEntry) : Completion Response * gmap string UserEntry :=
  match get users username with
  | Undefined => (Normal Server.user_not_found, users)
  | Inherited =>
      match verifyRegistrationResponse response None (ORIGIN env) (RP_ID env) with
      | Normal verification =>
          if reg_verified verification
          then (Normal Server.internal_server_error, users)
          else (Normal Server.verification_failed, users)
      | Throw error => (Normal Server.internal_server_error, users)
      end
  | Own user =>
      match verifyRegistrationResponse response (challenge user) (ORIGIN env) (RP_ID env) with
      | Normal verification =>
          if reg_verified verification then
            match registrationInfo verification with
            | None => (Normal Server.internal_server_error, users)
            | Some info =>
                let credential := credential info in
                let auth :=
                  mkAuthenticator (WebAuthnCredential.id credential)
                    (WebAuthnCredential.publicKey credential)
                    (WebAuthnCredential.counter credential)
                    (default [] (WebAuthnCredential.transports credential)) in
                (Normal (json (JsonVerified true None None)),
                 <[username := mkUser (InMemory.username user)
                                 (authenticators user ++ [auth]) None]> users)
            end
          else (Normal Server.verification_failed, users)
      | Throw error => (Normal Server.internal_server_error, users)
      end
  end.

(** [app.post('/login-challenge', ...)] of the in-memory server.  Reading
    [.length] of the missing [authenticators] of an inherited member raises,
    outside any [try]. *)
Definition login_challenge (username : string) (challenge : string)
    (users : gmap string UserEntry) : Completion Response * gmap string UserEntry :=
  match get users username with
  | Undefined => (Normal Server.not_found_or_no_authenticators, users)
  | Inherited => (Throw "Cannot read properties of undefined (reading 'length')", users)
  | Own user =>
      if bool_decide (length (authenticators user) = 0%nat)
      then (Normal Server.not_found_or_no_authenticators, users)
      else
        let options :=
          generateAuthenticationOptions (descriptor <$> authenticators user) challenge in
        (Normal (json (JsonAuthenticationOptions options)),
         <[username := set_challenge (Some (auth_challenge options)) user]> users)
  end.

(** The [credential: { id, publicKey, counter, transports }] argument. *)
Definition stored_credential (authenticator : Authenticator) : WebAuthnCredential.t :=
  WebAuthnCredential.mk (credentialID authenticator) (credentialPublicKey authenticator)
    (counter authenticator) (Some (transports authenticator)).

(** [app.post('/login-verify', ...)] of the in-memory server; [now] is the
    clock [jwt.sign] reads.  The counter and the challenge are written before
    the token is signed. *)
Definition login_verify (username : string) (response : AuthenticationResponse.t) (now : Z)
    (users : gmap string UserEntry) : Completion Response * gmap string UserEntry :=
  match get users username with
  | Undefined => (Normal Server.user_not_found, users)
  | Inherited => (Throw "Cannot read properties of undefined (reading 'find')", users)
  | Own user =>
      match find_authenticator (AuthenticationResponse.id response) (authenticators user) with
      | None => (Normal Server.authenticator_not_recognized, users)
      | Some authenticator =>
          match verifyAuthenticationResponse response (challenge user)
                  (ORIGIN env) (RP_ID env) (stored_credential authenticator) with
          | Normal verification =>
              if auth_verified verification then
                let users' :=
                  <[username :=
                      mkUser (InMemory.username user)
                        (assign_counter (AuthenticationResponse.id response)
                           (newCounter (authenticationInfo verification))
                           (authenticators user))
                        None]> users in
                match Jwt.sign (InMemory.username user) (JWT_SECRET env) Jwt.ms_1h now with
                | Normal token => (Normal (json (JsonVerified true None (Some token))), users')
                | Throw error => (Normal Server.internal_server_error, users')
                end
              else (Normal Server.verification_failed, users)
          | Throw error => (Normal Server.internal_server_error, users)
          end
      end
  end.

(** The in-memory server's answer to a request and the store it leaves. *)
Definition handle (r : Server.Request) (users : gmap string UserEntry)
  : Completion Response * gmap string UserEntry :=
  match r with
  | Server.RegisterChallenge username challenge =>
      let '(response, users') := register_challenge env username challenge users in
      (Normal response, users')
  | Server.RegisterVerify username response => register_verify username response users
  | Server.LoginChallenge username challenge => login_challenge username challenge users
  | Server.LoginVerify username response now => login_verify username response now users
  end.

End Handlers.

End InMemory.

(** ** Vocabulary of the properties *)

(** The database after [prisma.user.create] appended [row]. *)
Definition with_user (row : User.t) (db : DB) : DB :=
  mkDB (users db ++ [row]) (authenticators db)
       (N.succ (User_id_seq db)) (Authenticator_id_seq db).

(** The database after [prisma.authenticator.create] appended [row]. *)
Definition with_authenticator (row : Authenticator.t) (db : DB) : DB :=
  mkDB (users db) (authenticators db ++ [row])
       (User_id_seq db) (N.succ (Authenticator_id_seq db)).

(** The database after [prisma.user.update] set the challenge of user [uid]. *)
Definition with_challenge (uid : N) (c : option string) (db : DB) : DB :=
  mkDB (Prisma.set_currentChallenge uid c <$> users db) (authenticators db)
       (User_id_seq db) (Authenticator_id_seq db).

(** The database after [prisma.authenticator.update] set the counter of
    authenticator [aid]. *)
Definition with_counter (aid : N) (c : Z) (db : DB) : DB :=
  mkDB (users db) (Prisma.set_counter aid c <$> authenticators db)
       (User_id_seq db) (Authenticator_id_seq db).

(** The row [prisma.authenticator.create] inserts for a verified
    registration. *)
Definition new_authenticator (db : DB) (u : User.t) (c : WebAuthnCredential.t)
  : Authenticator.t :=
  Authenticator.mk (Authenticator_id_seq db) (WebAuthnCredential.id c)
    (WebAuthnCredential.publicKey c) (BigInt (WebAuthnCredential.counter c))
    (default [] (WebAuthnCredential.transports c)) (User.id u).

(** The response once both updates are made: the token, or the [catch]
    branch when signing raises. *)
Definition token_response (env : Env) (u : User.t) (now : Z) : Response :=
  match Jwt.sign (User.username u) (JWT_SECRET env) Jwt.ms_1h now with
  | Normal token => json (JsonVerified true None (Some token))
  | Throw _ => Server.internal_server_error
  end.

(** All checks of the authentication verification but the counter rule. *)
Definition assertion_checks (env : Env) (u : User.t) (a : Authenticator.t)
    (response : AuthenticationResponse.t) : Prop :=
  User.currentChallenge u = Some (AuthenticationResponse.challenge response) ∧
  Server.origin env = Some (AuthenticationResponse.origin response) ∧
  Server.rpID env = Some (AuthenticationResponse.rpId response) ∧
  AuthenticationResponse.signer response = Authenticator.credentialPublicKey a.

(** [jwt.sign] has a key to sign with. *)
Definition signing_key_set (env : Env) : Prop :=
  ∃ k, JWT_SECRET env = Some k ∧ k ≠ "".

(** A handler answered with status 200. *)
Definition succeeded (c : Completion Response) : Prop :=
  ∃ r, c = Normal r ∧ status r = 200.

(** The Authenticators of [u] that carry credentialID [id]: the rows among
    which the [find] of login-verify takes the one it meets first. *)
Definition rows_with_credential (db : DB) (u : User.t) (id : string) : list Authenticator.t :=
  List.filter (λ a, bool_decide (Authenticator.credentialID a = id))
              (Prisma.include_authenticators db u).

(** Why a register-verify call fails. *)
Inductive registration_failure (db : DB) (username : string)
    (response : RegistrationResponse.t) : Prop :=
| reg_user_not_found :
    Prisma.find_user db username = None →
    registration_failure db username response
| reg_challenge_mismatch u :
    Prisma.find_user db username = Some u →
    User.currentChallenge u ≠ Some (RegistrationResponse.challenge response) →
    registration_failure db username response
| reg_signature_invalid u :
    Prisma.find_user db username = Some u →
    RegistrationResponse.attestation_valid response = false →
    registration_failure db username response.

(** Why a login-verify call fails. *)
Inductive login_failure (db : DB) (username : string)
    (response : AuthenticationResponse.t) : Prop :=
| login_user_not_found :
    Prisma.find_user db username = None →
    login_failure db username response
| login_unrecognized_credential u :
    Prisma.find_user db username = Some u →
    Server.find_authenticator (AuthenticationResponse.id response)
      (Prisma.include_authenticators db u) = None →
    login_failure db username response
| login_challenge_mismatch u :
    Prisma.find_user db username = Some u →
    User.currentChallenge u ≠ Some (AuthenticationResponse.challenge response) →
    login_failure db username response
| login_signature_invalid u a :
    Prisma.find_user db username = Some u →
    Server.find_authenticator (AuthenticationResponse.id response)
      (Prisma.include_authenticators db u) = Some a →
    AuthenticationResponse.signer response ≠ Authenticator.credentialPublicKey a →
    login_failure db username response
| login_counter_regression u a :
    Prisma.find_user db username = Some u →
    Server.find_authenticator (AuthenticationResponse.id response)
      (Prisma.include_authenticators db u) = Some a →
    counter_ok (Authenticator.counter a)
               (Z.of_N (AuthenticationResponse.counter response)) = false →
    login_failure db username response.

Definition usernames (db : DB) : list string := User.username <$> users db.

(** The rows of table "User" with a given username. *)
Definition rows_of (db : DB) (username : string) : list User.t :=
  List.filter (λ u, bool_decide (User.username u = username)) (users db).

(** The challenges stored for a username, over all its rows. *)
Definition pending_challenges (db : DB) (username : string) : list string :=
  omap User.currentChallenge (rows_of db username).

(** How one request can change the database. *)
Inductive db_step (db : DB) : DB → Prop :=
| step_same : db_step db db
| step_user username c :
    username ≠ "" →
    Prisma.find_user db username = None →
    db_step db (with_user (User.mk (User_id_seq db) username (Some c)) db)
| step_challenge username u c :
    Prisma.find_user db username = Some u →
    db_step db (with_challenge (User.id u) (Some c) db)
| step_registered username u row :
    Prisma.find_user db username = Some u →
    db_step db (with_challenge (User.id u) None (with_authenticator row db))
| step_login username u aid n :
    Prisma.find_user db username = Some u →
    db_step db (with_challenge (User.id u) None (with_counter aid n db)).

(** ** Concrete scenarios *)

Module Scenario.

Definition env : Env :=
  mkEnv (Some "Passkey Demo") (Some "localhost") (Some "http://localhost:5173")
        (Some "jwt-secret").

Definition key1 : list byte := [x04; xa1; x5c].
Definition key2 : list byte := [x04; x7e; x19].

(** A well-formed registration response for credential [id], answering
    challenge [c]. *)
Definition attestation (id : string) (key : list byte) (c : string)
  : RegistrationResponse.t :=
  RegistrationResponse.mk id c "http://localhost:5173" "localhost" key 0
    (Some ["internal"]) true.

(** A well-formed authentication response by credential [id], answering
    challenge [c] and reporting counter [n]. *)
Definition assertion (id : string) (key : list byte) (c : string) (n : N)
  : AuthenticationResponse.t :=
  AuthenticationResponse.mk id c "http://localhost:5173" "localhost" n key.

Definition serve := Server.serve (lib := SimpleWebAuthn.lib) env.
Definition register_verify := Server.register_verify (lib := SimpleWebAuthn.lib) env.
Definition login_verify := Server.login_verify (lib := SimpleWebAuthn.lib) env.

(** "alice" has registered credential "C1"; "bob" has asked for a
    registration challenge. *)
Definition alice_registered : DB :=
  serve [Server.RegisterChallenge "alice" "c-1";
         Server.RegisterVerify "alice" (attestation "C1" key1 "c-1");
         Server.RegisterChallenge "bob" "c-2"] empty_db.

(** Then "alice" has asked for a login challenge. *)
Definition alice_challenged : DB :=
  serve [Server.LoginChallenge "alice" "c-3"] alice_registered.

(** "alice" owns "C1" with stored counter 5 and a pending challenge. *)
Definition alice_counter_5 : DB :=
  mkDB [User.mk 1 "alice" (Some "c-9")]
       [Authenticator.mk 1 "C1" key1 5 ["internal"] 1] 2 2.

(** "alice" has registered "C1" twice, the second time (with the challenge
    of a login-challenge) from an authenticator whose counter stood at 5,
    and has a pending login challenge. *)
Definition alice_registered_twice : DB :=
  serve [Server.RegisterChallenge "alice" "c-1";
         Server.RegisterVerify "alice" (attestation "C1" key1 "c-1");
         Server.LoginChallenge "alice" "c-2";
         Server.RegisterVerify "alice"
           (RegistrationResponse.mk "C1" "c-2" "http://localhost:5173" "localhost" key1 5
              (Some ["internal"]) true);
         Server.LoginChallenge "alice" "c-3"] empty_db.

End Scenario.

(** ** The constraints of the migration, and how a request changes the tables *)

(** The constraints the migration declares: the primary keys "User_pkey" and
    "Authenticator_pkey" (with the sequences ahead of every [id] in use),
    the unique index "User_username_key" and the foreign key
    "Authenticator_userId_fkey". *)
Record schema_constraints (db : DB) : Prop := mk_schema_constraints {
  User_pkey : NoDup (User.id <$> users db);
  User_id_below_seq : ∀ u, u ∈ users db → User.id u < User_id_seq db;
  User_username_key : NoDup (User.username <$> users db);
  Authenticator_pkey : NoDup (Authenticator.id <$> authenticators db);
  Authenticator_id_below_seq :
    ∀ a, a ∈ authenticators db → Authenticator.id a < Authenticator_id_seq db;
  Authenticator_userId_fkey :
    ∀ a, a ∈ authenticators db → Authenticator.userId a ∈ User.id <$> users db
}.

(** What a request naming [username] does to the database, with the rows
    and the library verdict involved. *)
Inductive db_change `{lib : WebAuthnServer} (env : Env) (username : string) (db : DB)
  : DB → Prop :=
| change_none : db_change env username db db
| change_user_created c :
    username ≠ "" →
    Prisma.find_user db username = None →
    db_change env username db (with_user (User.mk (User_id_seq db) username (Some c)) db)
| change_challenge_issued u c :
    Prisma.find_user db username = Some u →
    Prisma.include_authenticators db u ≠ [] →
    db_change env username db (with_challenge (User.id u) (Some c) db)
| change_registered u response v info :
    Prisma.find_user db username = Some u →
    verifyRegistrationResponse response (User.currentChallenge u)
      (Server.origin env) (Server.rpID env) = Normal v →
    reg_verified v = true →
    registrationInfo v = Some info →
    db_change env username db
      (with_challenge (User.id u) None
         (with_authenticator (new_authenticator db u (credential info)) db))
| change_logged_in u a response v :
    Prisma.find_user db username = Some u →
    Server.find_authenticator (AuthenticationResponse.id response)
      (Prisma.include_authenticators db u) = Some a →
    verifyAuthenticationResponse response (User.currentChallenge u)
      (Server.origin env) (Server.rpID env) (Server.stored_credential a) = Normal v →
    auth_verified v = true →
    db_change env username db
      (with_challenge (User.id u) None
         (with_counter (Authenticator.id a) (newCounter (authenticationInfo v)) db)).

(** The username a request names. *)
Definition request_username (r : Server.Request) : string :=
  match r with
  | Server.RegisterChallenge username _ => username
  | Server.RegisterVerify username _ => username
  | Server.LoginChallenge username _ => username
  | Server.LoginVerify username _ _ => username
  end.


(** What stays of an Authenticator row whatever the handlers do: all of it
    but the counter. *)
Definition authenticator_identity (a : Authenticator.t)
  : N * string * list byte * list string * N :=
  (Authenticator.id a, Authenticator.credentialID a, Authenticator.credentialPublicKey a,
   Authenticator.transports a, Authenticator.userId a).

(** ** The database seen as the in-memory store *)

(** An Authenticator row as the object the in-memory server keeps. *)
Definition to_memory (a : Authenticator.t) : InMemory.Authenticator :=
  InMemory.mkAuthenticator (Authenticator.credentialID a) (Authenticator.credentialPublicKey a)
    (Authenticator.counter a) (Authenticator.transports a).

(** A User row with its Authenticators as the entry [users[username]]. *)
Definition entry_of (db : DB) (u : User.t) : InMemory.UserEntry :=
  InMemory.mkUser (User.username u) (to_memory <$> Prisma.include_authenticators db u)
    (User.currentChallenge u).

(** The [users] object holding what the database holds. *)
Definition in_memory_view (db : DB) : gmap string InMemory.UserEntry :=
  list_to_map ((λ u, (User.username u, entry_of db u)) <$> users db).

(** The answers of the in-memory server to a sequence of requests. *)
Fixpoint in_memory_answers `{lib : WebAuthnServer} (env : Env)
    (requests : list Server.Request) (users : gmap string InMemory.UserEntry)
  : list (Completion Response) :=
  match requests with
  | [] => []
  | r :: rest =>
      (InMemory.handle env r users).1
      :: in_memory_answers env rest (InMemory.handle env r users).2
  end.

(** The store the in-memory server is left with. *)
Fixpoint in_memory_serve `{lib : WebAuthnServer} (env : Env)
    (requests : list Server.Request) (users : gmap string InMemory.UserEntry)
  : gmap string InMemory.UserEntry :=
  match requests with
  | [] => users
  | r :: rest => in_memory_serve env rest (InMemory.handle env r users).2
  end.

(** ** Text PostgreSQL takes *)

(** A string PostgreSQL takes as TEXT: one without a NUL byte. *)
Fixpoint storable (s : string) : bool :=
  match s with
  | EmptyString => true
  | String c s => negb (bool_decide (c = Ascii.zero)) && storable s
  end.

(** ** The handlers from the request body on

    [Server] takes the fields of [req.body] as the handler reads them when
    the client has sent them.  Here a field may be missing, and the two
    rejections PostgreSQL adds to the queries are spelled out: a TEXT
    parameter with a NUL byte, and a primary key already in use. *)

Module Postgres.

(** The TEXT parameters of a statement: PostgreSQL rejects the statement,
    before it runs, when one of them holds a NUL byte. *)
Definition text_parameters (values : list string) : Async unit :=
  if forallb storable values then ret ()
  else throw "invalid byte sequence for encoding UTF8: 0x00".

(** The argument [where: { username }]: Prisma rejects the query when
    [username] is [undefined], PostgreSQL when it cannot be TEXT. *)
Definition where_username (username : option string) : Async string :=
  match username with
  | None => throw "Argument `where` needs at least one of `id` or `username` arguments."
  | Some username => (text_parameters [username] ;;; ret username)
  end.

(** [prisma.user.findUnique({ where: { username } })] *)
Definition user_findUnique (username : option string) : Async (option User.t) :=
  let! username := where_username username in
  Prisma.user_findUnique username.

(** [prisma.user.findUnique({ where: { username }, include: { authenticators: true } })] *)
Definition user_findUnique_include (username : option string)
  : Async (option (User.t * list Authenticator.t)) :=
  let! username := where_username username in
  Prisma.user_findUnique_include username.

(** [prisma.user.create({ data: { username, currentChallenge } })], with the
    primary key "User_pkey": the sequence value is drawn, then the row must
    pass both unique indexes.  ([currentChallenge] is the base64url text the
    library drew.) *)
Definition user_create (username : string) (currentChallenge : option string) : Async User.t :=
  text_parameters [username] ;;;
  λ db,
    if bool_decide (User_id_seq db ∈ User.id <$> users db)
    then (Throw "Unique constraint failed on the fields: (`id`)",
          mkDB (users db) (authenticators db) (N.succ (User_id_seq db)) (Authenticator_id_seq db))
    else Prisma.user_create username currentChallenge db.

(** [prisma.authenticator.create({ data: { ... } })], with the primary key
    "Authenticator_pkey". *)
Definition authenticator_create (credentialID : string) (credentialPublicKey : list byte)
    (counter : Z) (transports : list string) (userId : N) : Async Authenticator.t :=
  text_parameters (credentialID :: transports) ;;;
  λ db,
    if bool_decide (Authenticator_id_seq db ∈ Authenticator.id <$> authenticators db)
    then (Throw "Unique constraint failed on the fields: (`id`)",
          mkDB (users db) (authenticators db) (User_id_seq db) (N.succ (Authenticator_id_seq db)))
    else Prisma.authenticator_create credentialID credentialPublicKey counter transports userId db.

End Postgres.

Module Endpoint.
Section Handlers.

Context {lib : WebAuthnServer}.
Variable env : Env.

(** [app.post('/register-challenge', ...)]: [username] is [req.body.username],
    absent when the body has none. *)
Definition register_challenge (username : option string) (challenge : string)
  : Async Response :=
  match username with
  | None | Some "" => ret Server.username_required
  | Some name =>
      let! existingUser := Postgres.user_findUnique username in
      match existingUser with
      | Some _ => ret Server.username_taken
      | None =>
          let options :=
            generateRegistrationOptions (Server.rpName env) (Server.rpID env)
              (String.list_byte_of_string name) name "none" [] challenge in
          (Postgres.user_create name (Some (reg_challenge options)) ;;;
           ret (json (JsonRegistrationOptions options)))
      end
  end.

(** [app.post('/register-verify', ...)]: the library reads the fields of
    [response] first thing, which raises when there is no [response]. *)
Definition register_verify (username : option string)
    (response : option RegistrationResponse.t) : Async Response :=
  let! user := Postgres.user_findUnique username in
  match user with
  | None => ret Server.user_not_found
  | Some user =>
      try_catch
        (let! verification :=
           await (match response with
                  | Some response =>
                      verifyRegistrationResponse response (User.currentChallenge user)
                                                 (Server.origin env) (Server.rpID env)
                  | None => Throw "Cannot destructure property 'id' of 'response'"
                  end) in
         if reg_verified verification then
           match registrationInfo verification with
           | None => throw "Cannot destructure property 'credential' of undefined"
           | Some info =>
               let credential := credential info in
               (Postgres.authenticator_create
                  (WebAuthnCredential.id credential)
                  (WebAuthnCredential.publicKey credential)
                  (BigInt (WebAuthnCredential.counter credential))
                  (default [] (WebAuthnCredential.transports credential))
                  (User.id user) ;;;
                Prisma.user_update (User.id user) None ;;;
                ret (json (JsonVerified true None None)))
           end
         else ret Server.verification_failed)
        (λ error, ret Server.internal_server_error)
  end.

(** [app.post('/login-challenge', ...)] *)
Definition login_challenge (username : option string) (challenge : string)
  : Async Response :=
  let! user := Postgres.user_findUnique_include username in
  match user with
  | None => ret Server.not_found_or_no_authenticators
  | Some (user, authenticators) =>
      if bool_decide (length authenticators = 0%nat)
      then ret Server.not_found_or_no_authenticators
      else
        let options :=
          generateAuthenticationOptions (Server.descriptor <$> authenticators) challenge in
        (Prisma.user_update (User.id user) (Some (auth_challenge options)) ;;;
         ret (json (JsonAuthenticationOptions options)))
  end.

(** [authenticators.find(auth => auth.credentialID === response.id)]: the
    test reads [response.id] at the first element it is called on, which
    raises when there is no [response]; on an empty array it is not
    called. *)
Definition find_authenticator (response : option AuthenticationResponse.t)
    (authenticators : list Authenticator.t) : Completion (option Authenticator.t) :=
  match response with
  | Some response =>
      Normal (Server.find_authenticator (AuthenticationResponse.id response) authenticators)
  | None =>
      match authenticators with
      | [] => Normal None
      | _ :: _ => Throw "Cannot read properties of undefined (reading 'id')"
      end
  end.

(** [app.post('/login-verify', ...)]; [now] is the clock [jwt.sign] reads. *)
Definition login_verify (username : option string)
    (response : option AuthenticationResponse.t) (now : Z) : Async Response :=
  let! user := Postgres.user_findUnique_include username in
  match user with
  | None => ret Server.user_not_found
  | Some (user, authenticators) =>
      let! authenticator := await (find_authenticator response authenticators) in
      match authenticator with
      | None => ret Server.authenticator_not_recognized
      | Some authenticator =>
          try_catch
            (let! verification :=
               await (match response with
                      | Some response =>
                          verifyAuthenticationResponse response (User.currentChallenge user)
                            (Server.origin env) (Server.rpID env)
                            (Server.stored_credential authenticator)
                      | None => Throw "Cannot destructure property 'id' of 'response'"
                      end) in
             if auth_verified verification then
               (Prisma.authenticator_update (Authenticator.id authenticator)
                  (BigInt (newCounter (authenticationInfo verification))) ;;;
                Prisma.user_update (User.id user) None ;;;
                let! token := await (Jwt.sign (User.username user) (JWT_SECRET env)
                                              Jwt.ms_1h now) in
                ret (json (JsonVerified true None (Some token))))
             else ret Server.verification_failed)
            (λ error, ret Server.internal_server_error)
      end
  end.

(** A request to one of the four endpoints as it arrives: the fields of the
    body, each there or not, and the values the handler draws from its
    environment. *)
Inductive Request :=
| RegisterChallenge (username : option string) (challenge : string)
| RegisterVerify (username : option string) (response : option RegistrationResponse.t)
| LoginChallenge (username : option string) (challenge : string)
| LoginVerify (username : option string) (response : option AuthenticationResponse.t)
    (now : Z).

Definition handle (r : Request) : Async Response :=
  match r with
  | RegisterChallenge username challenge => register_challenge username challenge
  | RegisterVerify username response => register_verify username response
  | LoginChallenge username challenge => login_challenge username challenge
  | LoginVerify username response now => login_verify username response now
  end.

(** The answers to the requests, served one after the other, and the
    database they leave. *)
Fixpoint answers (requests : list Request) (db : DB) : list (Completion Response) :=
  match requests with
  | [] => []
  | r :: rest => (handle r db).1 :: answers rest (handle r db).2
  end.

Fixpoint serve (requests : list Request) (db : DB) : DB :=
  match requests with
  | [] => db
  | r :: rest => serve rest (handle r db).2
  end.

End Handlers.

(** A request whose body has all its fields. *)
Definition complete (r : Server.Request) : Request :=
  match r with
  | Server.RegisterChallenge username challenge => RegisterChallenge (Some username) challenge
  | Server.RegisterVerify username response => RegisterVerify (Some username) (Some response)
  | Server.LoginChallenge username challenge => LoginChallenge (Some username) challenge
  | Server.LoginVerify username response now =>
      LoginVerify (Some username) (Some response) now
  end.

End Endpoint.

(** A [username] field the first query of a handler rejects. *)
Definition rejected_by_findUnique (username : option string) : Prop :=
  match username with
  | None => True
  | Some name => storable name = false
  end.

(** The requests a handler does not answer itself: those on which a
    statement before its [try] raises, so that the handler's promise
    rejects with nothing sent. *)
Definition unanswered (r : Endpoint.Request) (db : DB) : Prop :=
  match r with
  | Endpoint.RegisterChallenge username _ =>
      ∃ name, username = Some name ∧ name ≠ "" ∧ storable name = false
  | Endpoint.RegisterVerify username _ | Endpoint.LoginChallenge username _ =>
      rejected_by_findUnique username
  | Endpoint.LoginVerify username response _ =>
      rejected_by_findUnique username ∨
      (response = None ∧
       ∃ name u, username = Some name ∧ Prisma.find_user db name = Some u ∧
                 Prisma.include_authenticators db u ≠ [])
  end.

(** The credential the library reports for the response of a
    register-verify request holds text PostgreSQL takes: its credentialID
    and [transports] go into TEXT columns. *)
Definition storable_registration `{lib : WebAuthnServer} (r : Server.Request) : Prop :=
  match r with
  | Server.RegisterVerify _ response =>
      ∀ expectedChallenge expectedOrigin expectedRPID verification info,
        verifyRegistrationResponse response expectedChallenge expectedOrigin expectedRPID
          = Normal verification →
        registrationInfo verification = Some info →
        forallb storable
          (WebAuthnCredential.id (credential info)
           :: default [] (WebAuthnCredential.transports (credential info))) = true
  | _ => True
  end.

(** ** The order of the rows *)

(** PostgreSQL promises no order for the rows a query returns, and the
    queries of the handlers ask for none (an updated row, for one, is
    written anew and may come after the others): the same rows and
    sequences, the rows stored in another order. *)
Definition reordered (db db1 : DB) : Prop :=
  users db1 ≡ₚ users db ∧ authenticators db1 ≡ₚ authenticators db ∧
  User_id_seq db1 = User_id_seq db ∧ Authenticator_id_seq db1 = Authenticator_id_seq db.

(** The answers the Prisma server may give to a sequence of requests (each
    with all its fields) and the database it may end in, each request served
    from the rows in whatever order they are stored in by then. *)
Inductive served_in_any_order `{lib : WebAuthnServer} (env : Env)
  : list Server.Request → DB → list (Completion Response) → DB → Prop :=
| served_none db db1 :
    reordered db db1 →
    served_in_any_order env [] db [] db1
| served_next r rest db db1 rs db' :
    reordered db db1 →
    served_in_any_order env rest (Endpoint.handle env (Endpoint.complete r) db1).2 rs db' →
    served_in_any_order env (r :: rest) db
      ((Endpoint.handle env (Endpoint.complete r) db1).1 :: rs) db'.

(** Two entries of [users] alike up to the order of their authenticators. *)
Definition same_entry (e1 e2 : InMemory.UserEntry) : Prop :=
  InMemory.username e1 = InMemory.username e2 ∧
  InMemory.challenge e1 = InMemory.challenge e2 ∧
  InMemory.authenticators e1 ≡ₚ InMemory.authenticators e2.

Definition same_store (users1 users2 : gmap string InMemory.UserEntry) : Prop :=
  ∀ k, option_Forall2 same_entry (users1 !! k) (users2 !! k).

(** Two answers alike up to the order of [allowCredentials]. *)
Definition same_answer (a b : Completion Response) : Prop :=
  a = b ∨
  ∃ o1 o2, a = Normal (json (JsonAuthenticationOptions o1)) ∧
           b = Normal (json (JsonAuthenticationOptions o2)) ∧
           auth_challenge o1 = auth_challenge o2 ∧
           auth_allowCredentials o1 ≡ₚ auth_allowCredentials o2.

(** No entry of [users] holds one credentialID twice. *)
Definition credentials_distinct (users : gmap string InMemory.UserEntry) : Prop :=
  map_Forall (λ _ e, NoDup (InMemory.credentialID <$> InMemory.authenticators e)) users.

(** ** The client's API layer (api.ts) *)

(** What axios makes of the server's response: the promise of [api.post] or
    [api.get] resolves with [data] or rejects. *)
Class HttpClient := {
  settle : Response → Completion Body
}.

(** axios with its default [validateStatus]: it resolves on a status from 200
    to 299 and rejects on any other. *)
Definition resolves_on_2xx (http : HttpClient) : Prop :=
  ∀ r, if bool_decide (200 ≤ status r < 300)
       then settle r = Normal (body r)
       else ∃ e, settle r = Throw e.

(** @simplewebauthn/browser: the authenticator's answer to the options it is
    handed (the [data] of the challenge response, passed on [as any]), or a
    rejection. *)
Class Browser := {
  startRegistration : Body → Completion RegistrationResponse.t;
  startAuthentication : Body → Completion AuthenticationResponse.t
}.

Module Client.
Section Api.

Context {lib : WebAuthnServer} {http : HttpClient} {browser : Browser}.
Variable env : Env.

(** [res.verified], [res.error] and [data.message] of a response body; a
    field the body lacks reads as [undefined]. *)
Definition verified (res : Body) : bool :=
  match res with
  | JsonVerified v _ _ => v
  | _ => false
  end.

Definition error (res : Body) : option string :=
  match res with
  | JsonError e => Some e
  | JsonVerified _ e _ => e
  | _ => None
  end.

Definition message (data : Body) : option string :=
  match data with
  | JsonMessage m => Some m
  | _ => None
  end.

(** [throwIfNotVerified] *)
Definition throwIfNotVerified (res : Body) : Completion Body :=
  if negb (verified res)
  then Throw (match error res with
              | None | Some "" => "Verification failed"
              | Some e => e
              end)
  else Normal res.

(** [localStorage.getItem('token')]: [null], or a string, given by its
    space-separated pieces (a string has at least one). *)
Definition StoredToken : Type := option (Server.Piece * list Server.Piece).

(** [getAuthToken] *)
Definition getAuthToken (token : StoredToken)
  : Completion (Server.Piece * list Server.Piece) :=
  match token with
  | None | Some (Server.Word "", []) => Throw "No authentication token found"
  | Some pieces => Normal pieces
  end.

(** A request to one of the server's [post] routes.  A handler that rejects
    sends nothing itself; the client's promise rejects then, too. *)
Definition post (handler : Async Response) : Async Body :=
  λ db, match handler db with
        | (Normal r, db') => (settle r, db')
        | (Throw e, db') => (Throw e, db')
        end.

(** [getProfile]; [token] is what [localStorage] holds, [now] the server's
    clock. *)
Definition getProfile (token : StoredToken) (now : Z) : Completion (option string) :=
  match getAuthToken token with
  | Throw e => Throw e
  | Normal (piece, pieces) =>
      match settle (Server.profile env (Some (Server.Word "Bearer" :: piece :: pieces)) now) with
      | Normal data => Normal (message data)
      | Throw e => Throw e
      end
  end.

(** [registerUser]; [challenge] is the one the server draws. *)
Definition registerUser (username : string) (challenge : string) : Async Body :=
  let! options := post (Server.register_challenge env username challenge) in
  let! attestation := await (startRegistration options) in
  let! data := post (Server.register_verify env username attestation) in
  await (throwIfNotVerified data).

(** [loginUser]; [challenge] is the one the server draws, [now] its clock. *)
Definition loginUser (username : string) (challenge : string) (now : Z) : Async Body :=
  let! options := post (Server.login_challenge username challenge) in
  let! assertion := await (startAuthentication options) in
  let! data := post (Server.login_verify env username assertion now) in
  await (throwIfNotVerified data).

End Api.
End Client.

(** axios as configured in api.ts (default [validateStatus]). *)
Definition axios : HttpClient :=
  Build_HttpClient (λ r,
    if bool_decide (200 ≤ status r < 300)
    then Normal (body r)
    else Throw ("Request failed with status code " +:+ pretty (status r))).

(** An authenticator holding one credential: it answers the challenge of the
    options for the configured origin and RP ID. *)
Definition authenticator_of (id : string) (key : list byte) (counter : N) : Browser :=
  Build_Browser
    (λ options,
       match options with
       | JsonRegistrationOptions o =>
           Normal (RegistrationResponse.mk id (reg_challenge o) "http://localhost:5173"
                     "localhost" key counter None true)
       | _ => Throw "NotAllowedError"
       end)
    (λ options,
       match options with
       | JsonAuthenticationOptions o =>
           Normal (AuthenticationResponse.mk id (auth_challenge o) "http://localhost:5173"
                     "localhost" counter key)
       | _ => Throw "NotAllowedError"
       end).

(** * Properties *)

(** ** Lookups *)

Section Lookups.

Lemma find_fmap {A} (P : A → bool) (f : A → A) (l : list A) :
  (∀ x, P (f x) = P x) → List.find P (f <$> l) = f <$> List.find P l.
Proof.
  intros HP. induction l as [|x l IH]; simpl; [done|].
  rewrite HP. destruct (P x); [done|apply IH].
Qed.

Lemma filter_fmap {A} (P : A → bool) (f : A → A) (l : list A) :
  (∀ x, P (f x) = P x) → List.filter P (f <$> l) = f <$> List.filter P l.
Proof.
  intros HP. induction l as [|x l IH]; simpl; [done|].
  rewrite HP. destruct (P x); [|apply IH].
  change (f x :: List.filter P (f <$> l) = f x :: (f <$> List.filter P l)).
  f_equal. apply IH.
Qed.

Lemma find_user_Some db username u :
  Prisma.find_user db username = Some u → u ∈ users db ∧ User.username u = username.
Proof.
  unfold Prisma.find_user. intros H. apply find_some in H as [Hin Hp].
  split; [by apply list_elem_of_In|]. by apply bool_decide_eq_true in Hp.
Qed.

Lemma find_user_None db username :
  Prisma.find_user db username = None ↔ username ∉ User.username <$> users db.
Proof.
  unfold Prisma.find_user. split.
  - intros H [u [-> Hu]]%list_elem_of_fmap.
    apply list_elem_of_In in Hu.
    pose proof (find_none _ _ H u Hu) as Hf. simpl in Hf.
    by apply bool_decide_eq_false in Hf.
  - intros H. destruct (List.find _ _) as [u|] eqn:E; [|done].
    apply find_some in E as [Hin Hp]. apply bool_decide_eq_true in Hp.
    exfalso. apply H. apply list_elem_of_fmap. exists u. split; [done|].
    by apply list_elem_of_In.
Qed.

Lemma find_user_id_elem db username u :
  Prisma.find_user db username = Some u → User.id u ∈ User.id <$> users db.
Proof.
  intros [Hin _]%find_user_Some. apply list_elem_of_fmap. eauto.
Qed.

Lemma find_authenticator_Some id l a :
  Server.find_authenticator id l = Some a → a ∈ l ∧ Authenticator.credentialID a = id.
Proof.
  unfold Server.find_authenticator. intros H. apply find_some in H as [Hin Hp].
  split; [by apply list_elem_of_In|]. by apply bool_decide_eq_true in Hp.
Qed.

Lemma find_authenticator_None id l :
  Server.find_authenticator id l = None ↔ ∀ a, a ∈ l → Authenticator.credentialID a ≠ id.
Proof.
  unfold Server.find_authenticator. split.
  - intros H a Ha%list_elem_of_In. pose proof (find_none _ _ H a Ha) as Hf.
    simpl in Hf. by apply bool_decide_eq_false in Hf.
  - intros H. destruct (List.find _ _) as [a|] eqn:E; [|done].
    apply find_some in E as [Hin Hp]. apply bool_decide_eq_true in Hp.
    apply list_elem_of_In in Hin. by destruct (H a Hin).
Qed.

Lemma include_authenticators_elem db u a :
  a ∈ Prisma.include_authenticators db u ↔
  a ∈ authenticators db ∧ Authenticator.userId a = User.id u.
Proof.
  unfold Prisma.include_authenticators.
  rewrite !list_elem_of_In, filter_In, bool_decide_eq_true. done.
Qed.

End Lookups.

(** ** What each handler computes, case by case *)

Ltac run_handler :=
  unfold Server.register_challenge, Server.register_verify, Server.login_challenge,
    Server.login_verify, bind, try_catch, await, ret, throw,
    Prisma.user_findUnique, Prisma.user_findUnique_include; simpl.

Section Cases.

Context {lib : WebAuthnServer}.
Variable env : Env.

Lemma user_update_found db username u c :
  Prisma.find_user db username = Some u →
  Prisma.user_update (User.id u) c db = (Normal (), with_challenge (User.id u) c db).
Proof.
  intros H%find_user_id_elem. unfold Prisma.user_update.
  by rewrite bool_decide_eq_true_2.
Qed.

Lemma register_challenge_empty challenge db :
  Server.register_challenge env "" challenge db = (Normal Server.username_required, db).
Proof. done. Qed.

Lemma register_challenge_taken username challenge db u :
  username ≠ "" →
  Prisma.find_user db username = Some u →
  Server.register_challenge env username challenge db = (Normal Server.username_taken, db).
Proof.
  intros Hne Hu. run_handler. rewrite bool_decide_eq_false_2 by done. by rewrite Hu.
Qed.

Lemma register_challenge_new username challenge db :
  username ≠ "" →
  Prisma.find_user db username = None →
  Server.register_challenge env username challenge db =
  (Normal (json (JsonRegistrationOptions
     (generateRegistrationOptions (RP_NAME env) (RP_ID env)
        (String.list_byte_of_string username) username "none" [] challenge))),
   with_user (User.mk (User_id_seq db) username (Some challenge)) db).
Proof.
  intros Hne Hu. run_handler. rewrite bool_decide_eq_false_2 by done. rewrite Hu.
  unfold Prisma.user_create. simpl.
  apply find_user_None in Hu. by rewrite bool_decide_eq_false_2.
Qed.

Lemma register_verify_absent username response db :
  Prisma.find_user db username = None →
  Server.register_verify env username response db = (Normal Server.user_not_found, db).
Proof. intros Hu. run_handler. by rewrite Hu. Qed.

Lemma register_verify_throws username response db u e :
  Prisma.find_user db username = Some u →
  verifyRegistrationResponse response (User.currentChallenge u)
    (Server.origin env) (Server.rpID env) = Throw e →
  Server.register_verify env username response db = (Normal Server.internal_server_error, db).
Proof. intros Hu Hv. run_handler. rewrite Hu. simpl. by rewrite Hv. Qed.

Lemma register_verify_not_verified username response db u v :
  Prisma.find_user db username = Some u →
  verifyRegistrationResponse response (User.currentChallenge u)
    (Server.origin env) (Server.rpID env) = Normal v →
  reg_verified v = false →
  Server.register_verify env username response db = (Normal Server.verification_failed, db).
Proof. intros Hu Hv Hf. run_handler. rewrite Hu. simpl. by rewrite Hv, Hf. Qed.

Lemma register_verify_no_info username response db u v :
  Prisma.find_user db username = Some u →
  verifyRegistrationResponse response (User.currentChallenge u)
    (Server.origin env) (Server.rpID env) = Normal v →
  reg_verified v = true →
  registrationInfo v = None →
  Server.register_verify env username response db = (Normal Server.internal_server_error, db).
Proof. intros Hu Hv Ht Hi. run_handler. rewrite Hu. simpl. by rewrite Hv, Ht, Hi. Qed.

Lemma register_verify_verified username response db u v info :
  Prisma.find_user db username = Some u →
  verifyRegistrationResponse response (User.currentChallenge u)
    (Server.origin env) (Server.rpID env) = Normal v →
  reg_verified v = true →
  registrationInfo v = Some info →
  Server.register_verify env username response db =
  (Normal (json (JsonVerified true None None)),
   with_challenge (User.id u) None
     (with_authenticator (new_authenticator db u (credential info)) db)).
Proof.
  intros Hu Hv Ht Hi. run_handler. rewrite Hu. simpl. rewrite Hv, Ht, Hi.
  pose proof (find_user_id_elem _ _ _ Hu) as Hid.
  unfold Prisma.authenticator_create. rewrite bool_decide_eq_true_2 by done.
  unfold Prisma.user_update. simpl. by rewrite bool_decide_eq_true_2.
Qed.

Lemma login_challenge_absent username challenge db :
  Prisma.find_user db username = None →
  Server.login_challenge username challenge db
  = (Normal Server.not_found_or_no_authenticators, db).
Proof. intros Hu. run_handler. by rewrite Hu. Qed.

Lemma login_challenge_no_authenticators username challenge db u :
  Prisma.find_user db username = Some u →
  Prisma.include_authenticators db u = [] →
  Server.login_challenge username challenge db
  = (Normal Server.not_found_or_no_authenticators, db).
Proof. intros Hu Ha. run_handler. rewrite Hu. simpl. by rewrite Ha. Qed.

Lemma login_challenge_issued username challenge db u :
  Prisma.find_user db username = Some u →
  Prisma.include_authenticators db u ≠ [] →
  Server.login_challenge username challenge db =
  (Normal (json (JsonAuthenticationOptions
     (generateAuthenticationOptions
        (Server.descriptor <$> Prisma.include_authenticators db u) challenge))),
   with_challenge (User.id u) (Some challenge) db).
Proof.
  intros Hu Ha. run_handler. rewrite Hu. simpl.
  rewrite bool_decide_eq_false_2
    by (by destruct (Prisma.include_authenticators db u)).
  by rewrite (user_update_found _ _ _ _ Hu).
Qed.

Lemma login_verify_absent username response now db :
  Prisma.find_user db username = None →
  Server.login_verify env username response now db = (Normal Server.user_not_found, db).
Proof. intros Hu. run_handler. by rewrite Hu. Qed.

Lemma login_verify_unrecognized username response now db u :
  Prisma.find_user db username = Some u →
  Server.find_authenticator (AuthenticationResponse.id response)
    (Prisma.include_authenticators db u) = None →
  Server.login_verify env username response now db
  = (Normal Server.authenticator_not_recognized, db).
Proof. intros Hu Ha. run_handler. rewrite Hu. simpl. by rewrite Ha. Qed.

Lemma login_verify_throws username response now db u a e :
  Prisma.find_user db username = Some u →
  Server.find_authenticator (AuthenticationResponse.id response)
    (Prisma.include_authenticators db u) = Some a →
  verifyAuthenticationResponse response (User.currentChallenge u)
    (Server.origin env) (Server.rpID env) (Server.stored_credential a) = Throw e →
  Server.login_verify env username response now db
  = (Normal Server.internal_server_error, db).
Proof. intros Hu Ha Hv. run_handler. rewrite Hu. simpl. by rewrite Ha, Hv. Qed.

Lemma login_verify_not_verified username response now db u a v :
  Prisma.find_user db username = Some u →
  Server.find_authenticator (AuthenticationResponse.id response)
    (Prisma.include_authenticators db u) = Some a →
  verifyAuthenticationResponse response (User.currentChallenge u)
    (Server.origin env) (Server.rpID env) (Server.stored_credential a) = Normal v →
  auth_verified v = false →
  Server.login_verify env username response now db
  = (Normal Server.verification_failed, db).
Proof. intros Hu Ha Hv Hf. run_handler. rewrite Hu. simpl. by rewrite Ha, Hv, Hf. Qed.

Lemma login_verify_verified username response now db u a v :
  Prisma.find_user db username = Some u →
  Server.find_authenticator (AuthenticationResponse.id response)
    (Prisma.include_authenticators db u) = Some a →
  verifyAuthenticationResponse response (User.currentChallenge u)
    (Server.origin env) (Server.rpID env) (Server.stored_credential a) = Normal v →
  auth_verified v = true →
  Server.login_verify env username response now db =
  (Normal (token_response env u now),
   with_challenge (User.id u) None
     (with_counter (Authenticator.id a) (newCounter (authenticationInfo v)) db)).
Proof.
  intros Hu Ha Hv Ht. run_handler. rewrite Hu. simpl. rewrite Ha, Hv, Ht.
  apply find_authenticator_Some in Ha as [Ha _].
  apply include_authenticators_elem in Ha as [Ha _].
  unfold Prisma.authenticator_update.
  rewrite bool_decide_eq_true_2 by (apply list_elem_of_fmap; eauto).
  unfold Prisma.user_update. simpl.
  rewrite bool_decide_eq_true_2 by (by eapply find_user_id_elem).
  unfold token_response, BigInt.
  by destruct (Jwt.sign _ _ _ _).
Qed.

End Cases.

(** ** The model of @simplewebauthn/server, case by case *)

Section Model.

#[local] Existing Instance SimpleWebAuthn.lib.

Lemma verifyAuthenticationResponse_verified env u a response :
  assertion_checks env u a response →
  counter_ok (Authenticator.counter a) (Z.of_N (AuthenticationResponse.counter response)) = true →
  verifyAuthenticationResponse response (User.currentChallenge u)
    (Server.origin env) (Server.rpID env) (Server.stored_credential a)
  = Normal (mkVerifiedAuthentication true
      (mkAuthenticationInfo (Z.of_N (AuthenticationResponse.counter response)))).
Proof.
  intros (Hc & Ho & Hr & Hs) Hk. simpl. unfold SimpleWebAuthn.verifyAuthenticationResponse.
  rewrite Hc, Ho, Hr, Hs. rewrite !bool_decide_eq_true_2 by done. simpl.
  unfold Number. by rewrite Hk.
Qed.

Lemma verifyAuthenticationResponse_challenge env u a response :
  User.currentChallenge u ≠ Some (AuthenticationResponse.challenge response) →
  verifyAuthenticationResponse response (User.currentChallenge u)
    (Server.origin env) (Server.rpID env) (Server.stored_credential a)
  = Throw "Unexpected authentication response challenge".
Proof.
  intros Hc. simpl. unfold SimpleWebAuthn.verifyAuthenticationResponse.
  by rewrite bool_decide_eq_false_2.
Qed.

(** Whatever the response, a regressed counter or a signature under another
    key keeps the library from reporting [verified]. *)
Lemma verifyAuthenticationResponse_rejects env u a response :
  counter_ok (Authenticator.counter a) (Z.of_N (AuthenticationResponse.counter response)) = false
  ∨ AuthenticationResponse.signer response ≠ Authenticator.credentialPublicKey a
  ∨ ¬ assertion_checks env u a response →
  (∃ e, verifyAuthenticationResponse response (User.currentChallenge u)
          (Server.origin env) (Server.rpID env) (Server.stored_credential a) = Throw e)
  ∨ (∃ v, verifyAuthenticationResponse response (User.currentChallenge u)
          (Server.origin env) (Server.rpID env) (Server.stored_credential a) = Normal v
        ∧ auth_verified v = false).
Proof.
  intros H. simpl. unfold SimpleWebAuthn.verifyAuthenticationResponse.
  repeat case_bool_decide; simpl; eauto.
  unfold Number. simpl.
  destruct (counter_ok _ _) eqn:Hk; simpl; eauto.
  exfalso. destruct H as [H|[H|H]]; [done|done|].
  apply H. by repeat split.
Qed.


Lemma verifyRegistrationResponse_rejects env u response :
  User.currentChallenge u ≠ Some (RegistrationResponse.challenge response)
  ∨ RegistrationResponse.attestation_valid response = false →
  (∃ e, verifyRegistrationResponse response (User.currentChallenge u)
          (Server.origin env) (Server.rpID env) = Throw e)
  ∨ (verifyRegistrationResponse response (User.currentChallenge u)
          (Server.origin env) (Server.rpID env)
     = Normal (mkVerifiedRegistration false None)).
Proof.
  intros H. simpl. unfold SimpleWebAuthn.verifyRegistrationResponse.
  repeat case_bool_decide; simpl; eauto.
  destruct (RegistrationResponse.attestation_valid response); eauto.
  destruct H as [H|H]; [|done]. by destruct H.
Qed.

End Model.

(** ** Registration commits whatever verifies *)




(** ** Failures leave the database as it was *)

Section Frame.

Context {lib : WebAuthnServer}.
Variable env : Env.

(** Whatever the library does, register-verify changes the database only
    when the library reports [verified] with a [registrationInfo]. *)
Lemma register_verify_frame username response db :
  (∀ u v, Prisma.find_user db username = Some u →
          verifyRegistrationResponse response (User.currentChallenge u)
            (Server.origin env) (Server.rpID env) = Normal v →
          reg_verified v = false ∨ registrationInfo v = None) →
  ∃ r, Server.register_verify env username response db = (Normal r, db) ∧ status r ≠ 200.
Proof.
  intros H. destruct (Prisma.find_user db username) as [u|] eqn:Hu.
  - destruct (verifyRegistrationResponse response (User.currentChallenge u)
                (Server.origin env) (Server.rpID env)) as [v|e] eqn:Hv.
    + destruct (reg_verified v) eqn:Ht.
      * destruct (H u v eq_refl Hv) as [?|Hi]; [congruence|].
        eexists. split; [by eapply register_verify_no_info|done].
      * eexists. split; [by eapply register_verify_not_verified|done].
    + eexists. split; [by eapply register_verify_throws|done].
  - eexists. split; [by apply register_verify_absent|done].
Qed.

(** Whatever the library does, login-verify changes the database only when
    the library reports [verified]. *)
Lemma login_verify_frame username response now db :
  (∀ u a v, Prisma.find_user db username = Some u →
            Server.find_authenticator (AuthenticationResponse.id response)
              (Prisma.include_authenticators db u) = Some a →
            verifyAuthenticationResponse response (User.currentChallenge u)
              (Server.origin env) (Server.rpID env) (Server.stored_credential a)
              = Normal v →
            auth_verified v = false) →
  ∃ r, Server.login_verify env username response now db = (Normal r, db) ∧ status r ≠ 200.
Proof.
  intros H. destruct (Prisma.find_user db username) as [u|] eqn:Hu.
  - destruct (Server.find_authenticator (AuthenticationResponse.id response)
                (Prisma.include_authenticators db u)) as [a|] eqn:Ha.
    + destruct (verifyAuthenticationResponse response (User.currentChallenge u)
                  (Server.origin env) (Server.rpID env) (Server.stored_credential a))
        as [v|e] eqn:Hv.
      * eexists. split; [eapply login_verify_not_verified; eauto|done].
      * eexists. split; [by eapply login_verify_throws|done].
    + eexists. split; [by eapply login_verify_unrecognized|done].
  - eexists. split; [by apply login_verify_absent|done].
Qed.

End Frame.

(** C3: a register-verify or login-verify call that fails because the user is
    not found, the credential is not recognized, the challenge does not
    match, the signature is invalid or the counter regressed answers with a
    failure and leaves the database exactly as it was: no challenge cleared,
    no Authenticator inserted, no counter written. *)
Theorem failed_verification_changes_nothing env db username :
  (∀ response,
     registration_failure db username response →
     ∃ r, Server.register_verify (lib := SimpleWebAuthn.lib) env username response db
          = (Normal r, db) ∧ status r ≠ 200) ∧
  (∀ response now,
     login_failure db username response →
     ∃ r, Server.login_verify (lib := SimpleWebAuthn.lib) env username response now db
          = (Normal r, db) ∧ status r ≠ 200).
Proof.
  split.
  - intros response Hf. apply register_verify_frame. intros u v Hu Hv.
    assert (User.currentChallenge u ≠ Some (RegistrationResponse.challenge response)
            ∨ RegistrationResponse.attestation_valid response = false) as Hc.
    { destruct Hf as [Hn|u' Hu' ?|u' Hu' ?]; [congruence| |].
      - left. congruence.
      - by right. }
    destruct (verifyRegistrationResponse_rejects env u response Hc) as [[e He]|He].
    + simpl in *. congruence.
    + left. simpl in *. rewrite Hv in He. by injection He as ->.
  - intros response now Hf. apply login_verify_frame. intros u a v Hu Ha Hv.
    assert (counter_ok (Authenticator.counter a)
              (Z.of_N (AuthenticationResponse.counter response)) = false
            ∨ AuthenticationResponse.signer response ≠ Authenticator.credentialPublicKey a
            ∨ ¬ assertion_checks env u a response) as Hc.
    { destruct Hf as [Hn|u' Hu' Ha'|u' Hu' Hc|u' a' Hu' Ha' Hs|u' a' Hu' Ha' Hk].
      - congruence.
      - congruence.
      - right. right. intros [Hch _]. congruence.
      - right. left. congruence.
      - left. congruence. }
    destruct (verifyAuthenticationResponse_rejects env u a response Hc)
      as [[e He]|(v' & He & Hf')].
    + simpl in *. congruence.
    + simpl in *. congruence.
Qed.

Lemma failed_verification_changes_nothing_witness :
  (registration_failure Scenario.alice_registered "bob"
     (Scenario.attestation "C2" Scenario.key2 "stale") ∧
   ∃ r, Scenario.register_verify "bob" (Scenario.attestation "C2" Scenario.key2 "stale")
          Scenario.alice_registered = (Normal r, Scenario.alice_registered) ∧ status r ≠ 200) ∧
  (login_failure Scenario.alice_counter_5 "alice"
     (Scenario.assertion "C1" Scenario.key1 "c-9" 3) ∧
   ∃ r, Scenario.login_verify "alice" (Scenario.assertion "C1" Scenario.key1 "c-9" 3) 0
          Scenario.alice_counter_5 = (Normal r, Scenario.alice_counter_5) ∧ status r ≠ 200).
Proof.
  assert (registration_failure Scenario.alice_registered "bob"
            (Scenario.attestation "C2" Scenario.key2 "stale")) as Hr.
  { apply (reg_challenge_mismatch _ _ _ (User.mk 2 "bob" (Some "c-2"))); [reflexivity|].
    simpl. discriminate. }
  assert (login_failure Scenario.alice_counter_5 "alice"
            (Scenario.assertion "C1" Scenario.key1 "c-9" 3)) as Hl.
  { apply (login_counter_regression _ _ _ (User.mk 1 "alice" (Some "c-9"))
             (Authenticator.mk 1 "C1" Scenario.key1 5 ["internal"] 1)); reflexivity. }
  split; (split; [assumption|]).
  - exact (proj1 (failed_verification_changes_nothing Scenario.env
                    Scenario.alice_registered "bob") _ Hr).
  - exact (proj2 (failed_verification_changes_nothing Scenario.env
                    Scenario.alice_counter_5 "alice") _ 0%Z Hl).
Defined.

(** ** Lookup failures of the login ceremony *)

(** C5: when the user exists and none of the user's own Authenticators
    carries the credentialID the response declares, login-verify answers 400
    "Authenticator not recognized" and the database is unchanged.  Rows of
    other users are never consulted, so a credentialID stored under another
    user is rejected the same way. *)
Theorem login_verify_rejects_unowned_credential `{lib : WebAuthnServer} env db username
    response now user :
  Prisma.find_user db username = Some user →
  (∀ a, a ∈ authenticators db →
        Authenticator.userId a = User.id user →
        Authenticator.credentialID a ≠ AuthenticationResponse.id response) →
  Server.login_verify env username response now db
  = (Normal Server.authenticator_not_recognized, db).
Proof.
  intros Hu Hown. eapply login_verify_unrecognized; [done|].
  apply find_authenticator_None. intros a [Ha Hid]%include_authenticators_elem.
  by apply Hown.
Qed.

Lemma login_verify_rejects_unowned_credential_witness :
  "C1" ∈ Authenticator.credentialID <$> authenticators Scenario.alice_registered ∧
  Prisma.find_user Scenario.alice_registered "bob" = Some (User.mk 2 "bob" (Some "c-2")) ∧
  Scenario.login_verify "bob" (Scenario.assertion "C1" Scenario.key1 "c-2" 1) 0
    Scenario.alice_registered
  = (Normal Server.authenticator_not_recognized, Scenario.alice_registered).
Proof.
  split; [by vm_compute; left|]. split; [reflexivity|].
  apply (login_verify_rejects_unowned_credential (lib := SimpleWebAuthn.lib) Scenario.env
           Scenario.alice_registered "bob" _ 0%Z (User.mk 2 "bob" (Some "c-2")));
    [reflexivity|].
  intros a Ha Hid. vm_compute in Ha.
  apply list_elem_of_In in Ha. destruct Ha as [<-|[]]. vm_compute in Hid. discriminate.
Defined.

(** C8 (as the code has it): login-challenge gives one and the same 404
    answer when the user is not found and when the user has no
    Authenticator; login-verify answers 404 "User not found" when the user is
    absent, and 400 "Authenticator not recognized" when the user's credential
    set is empty.  None of them changes the database. *)
Theorem login_lookup_failures `{lib : WebAuthnServer} env db username :
  (∀ challenge,
     Prisma.find_user db username = None
     ∨ (∃ u, Prisma.find_user db username = Some u ∧ Prisma.include_authenticators db u = []) →
     Server.login_challenge username challenge db
     = (Normal Server.not_found_or_no_authenticators, db)) ∧
  (∀ response now,
     Prisma.find_user db username = None →
     Server.login_verify env username response now db = (Normal Server.user_not_found, db)) ∧
  (∀ response now u,
     Prisma.find_user db username = Some u →
     Prisma.include_authenticators db u = [] →
     Server.login_verify env username response now db
     = (Normal Server.authenticator_not_recognized, db)).
Proof.
  repeat split.
  - intros challenge [Hn|(u & Hu & He)].
    + by apply login_challenge_absent.
    + by eapply login_challenge_no_authenticators.
  - intros. by apply login_verify_absent.
  - intros response now u Hu He. eapply login_verify_unrecognized; [done|].
    by rewrite He.
Qed.

Lemma login_lookup_failures_witness :
  Server.login_challenge "carol" "c" Scenario.alice_registered
    = (Normal Server.not_found_or_no_authenticators, Scenario.alice_registered) ∧
  Server.login_challenge "bob" "c" Scenario.alice_registered
    = (Normal Server.not_found_or_no_authenticators, Scenario.alice_registered) ∧
  Scenario.login_verify "carol" (Scenario.assertion "C1" Scenario.key1 "c" 1) 0
    Scenario.alice_registered
    = (Normal Server.user_not_found, Scenario.alice_registered) ∧
  Scenario.login_verify "bob" (Scenario.assertion "C1" Scenario.key1 "c" 1) 0
    Scenario.alice_registered
    = (Normal Server.authenticator_not_recognized, Scenario.alice_registered).
Proof.
  pose proof (login_lookup_failures (lib := SimpleWebAuthn.lib) Scenario.env
                Scenario.alice_registered "carol") as (Hc1 & Hc2 & _).
  pose proof (login_lookup_failures (lib := SimpleWebAuthn.lib) Scenario.env
                Scenario.alice_registered "bob") as (Hb1 & _ & Hb3).
  split; [|split; [|split]].
  - apply Hc1. left. reflexivity.
  - apply Hb1. right. exists (User.mk 2 "bob" (Some "c-2")). split; reflexivity.
  - apply Hc2. reflexivity.
  - apply (Hb3 _ _ (User.mk 2 "bob" (Some "c-2"))); reflexivity.
Defined.

(** C8 (as stated) fails: login-challenge answers an unknown user and a user
    without credentials identically, and login-verify answers a user without
    credentials exactly as it answers a user who owns other credentials;
    there is no result of its own for an empty credential set. *)
Lemma login_failure_causes_are_merged :
  Prisma.find_user Scenario.alice_registered "carol" = None ∧
  (∃ bob, Prisma.find_user Scenario.alice_registered "bob" = Some bob ∧
          Prisma.include_authenticators Scenario.alice_registered bob = []) ∧
  (∃ alice, Prisma.find_user Scenario.alice_registered "alice" = Some alice ∧
            Prisma.include_authenticators Scenario.alice_registered alice ≠ []) ∧
  (Server.login_challenge "carol" "c" Scenario.alice_registered).1
    = (Server.login_challenge "bob" "c" Scenario.alice_registered).1 ∧
  (Scenario.login_verify "bob" (Scenario.assertion "C7" Scenario.key2 "c" 1) 0
     Scenario.alice_registered).1
    = Normal Server.authenticator_not_recognized ∧
  (Scenario.login_verify "alice" (Scenario.assertion "C7" Scenario.key2 "c" 1) 0
     Scenario.alice_registered).1
    = Normal Server.authenticator_not_recognized.
Proof.
  split; [reflexivity|]. split; [by eexists|]. split; [by eexists|].
  by vm_compute.
Qed.

(** ** One pending challenge per user *)

Section Steps.

Context {lib : WebAuthnServer}.
Variable env : Env.

Lemma register_challenge_step username challenge db :
  db_step db (Server.register_challenge env username challenge db).2.
Proof.
  destruct (decide (username = "")) as [->|Hne]; [constructor|].
  destruct (Prisma.find_user db username) as [u|] eqn:Hu.
  - erewrite register_challenge_taken by done. constructor.
  - rewrite register_challenge_new by done. by constructor.
Qed.

Lemma register_verify_step username response db :
  db_step db (Server.register_verify env username response db).2.
Proof.
  destruct (Prisma.find_user db username) as [u|] eqn:Hu;
    [|rewrite register_verify_absent by done; constructor].
  destruct (verifyRegistrationResponse response (User.currentChallenge u)
              (Server.origin env) (Server.rpID env)) as [v|e] eqn:Hv;
    [|erewrite register_verify_throws by done; constructor].
  destruct (reg_verified v) eqn:Ht;
    [|erewrite register_verify_not_verified by done; constructor].
  destruct (registrationInfo v) as [info|] eqn:Hi;
    [|erewrite register_verify_no_info by done; constructor].
  erewrite register_verify_verified by done. by econstructor.
Qed.

Lemma login_challenge_step username challenge db :
  db_step db (Server.login_challenge username challenge db).2.
Proof.
  destruct (Prisma.find_user db username) as [u|] eqn:Hu;
    [|rewrite login_challenge_absent by done; constructor].
  destruct (Prisma.include_authenticators db u) as [|a l] eqn:Ha;
    [erewrite login_challenge_no_authenticators by done; constructor|].
  erewrite login_challenge_issued; [|done|by rewrite Ha]. by econstructor.
Qed.

Lemma login_verify_step username response now db :
  db_step db (Server.login_verify env username response now db).2.
Proof.
  destruct (Prisma.find_user db username) as [u|] eqn:Hu;
    [|rewrite login_verify_absent by done; constructor].
  destruct (Server.find_authenticator (AuthenticationResponse.id response)
              (Prisma.include_authenticators db u)) as [a|] eqn:Ha;
    [|erewrite login_verify_unrecognized by done; constructor].
  destruct (verifyAuthenticationResponse response (User.currentChallenge u)
              (Server.origin env) (Server.rpID env) (Server.stored_credential a))
    as [v|e] eqn:Hv;
    [|erewrite login_verify_throws by done; constructor].
  destruct (auth_verified v) eqn:Ht;
    [|erewrite login_verify_not_verified by done; constructor].
  erewrite login_verify_verified by done. by econstructor.
Qed.

Lemma handle_step r db : db_step db (Server.handle env r db).2.
Proof.
  destruct r; simpl.
  - apply register_challenge_step.
  - apply register_verify_step.
  - apply login_challenge_step.
  - apply login_verify_step.
Qed.

End Steps.

Lemma set_currentChallenge_username id c u :
  User.username (Prisma.set_currentChallenge id c u) = User.username u.
Proof. unfold Prisma.set_currentChallenge. by case_bool_decide. Qed.

Lemma usernames_with_challenge id c db :
  usernames (with_challenge id c db) = usernames db.
Proof.
  unfold usernames. simpl. rewrite <- list_fmap_compose.
  apply list_fmap_ext. intros ? u _. apply set_currentChallenge_username.
Qed.

Lemma db_step_usernames db db' :
  db_step db db' →
  (usernames db' = usernames db)
  ∨ ∃ username, (username ∉ usernames db) ∧ usernames db' = (usernames db ++ [username])%list.
Proof.
  intros [|username c Hne Hu|username u c Hu|username u row Hu|username u aid n Hu].
  - by left.
  - right. exists username. split; [by apply find_user_None|].
    unfold usernames. simpl. by rewrite fmap_app.
  - left. apply usernames_with_challenge.
  - left. by rewrite usernames_with_challenge.
  - left. by rewrite usernames_with_challenge.
Qed.

Lemma db_step_NoDup db db' :
  db_step db db' → NoDup (usernames db) → NoDup (usernames db').
Proof.
  intros [->|(username & Hn & ->)]%db_step_usernames Hnd; [done|].
  apply NoDup_app. split; [done|]. split; [|apply NoDup_singleton].
  intros x Hx ->%list_elem_of_singleton. done.
Qed.

Lemma serve_NoDup `{lib : WebAuthnServer} env requests db :
  NoDup (usernames db) → NoDup (usernames (Server.serve env requests db)).
Proof.
  revert db. induction requests as [|r requests IH]; intros db Hnd; simpl; [done|].
  apply IH. eapply db_step_NoDup; [apply handle_step|done].
Qed.

Lemma rows_of_NoDup db username :
  NoDup (usernames db) →
  rows_of db username = match Prisma.find_user db username with
                        | Some u => [u]
                        | None => []
                        end.
Proof.
  unfold usernames, rows_of, Prisma.find_user. induction (users db) as [|x l IH]; [done|].
  rewrite fmap_cons. intros [Hx Hl]%NoDup_cons. simpl. case_bool_decide as Hn.
  - f_equal. apply IH in Hl. subst username.
    destruct (List.find _ l) as [u|] eqn:Hf; [|done].
    apply find_some in Hf as [Hin Hp]. apply bool_decide_eq_true in Hp.
    exfalso. apply Hx. apply list_elem_of_fmap. exists u.
    split; [done|by apply list_elem_of_In].
  - by apply IH.
Qed.

Lemma rows_of_with_challenge id c db username :
  rows_of (with_challenge id c db) username
  = Prisma.set_currentChallenge id c <$> rows_of db username.
Proof.
  unfold rows_of. simpl. apply filter_fmap. intros u.
  by rewrite set_currentChallenge_username.
Qed.

Lemma find_user_with_challenge id c db username :
  Prisma.find_user (with_challenge id c db) username
  = Prisma.set_currentChallenge id c <$> Prisma.find_user db username.
Proof.
  unfold Prisma.find_user. simpl. apply find_fmap. intros u.
  by rewrite set_currentChallenge_username.
Qed.

(** C6: across any sequence of requests a username has at most one stored
    challenge, and a request that issues a challenge (a register-challenge or
    login-challenge answered with 200) leaves exactly the new challenge
    stored for that username, whatever was pending before. *)
Theorem one_pending_challenge `{lib : WebAuthnServer} env requests username :
  let db := Server.serve env requests empty_db in
  (length (pending_challenges db username) ≤ 1)%nat ∧
  (∀ challenge,
     succeeded (Server.register_challenge env username challenge db).1 →
     pending_challenges (Server.register_challenge env username challenge db).2 username
     = [challenge]) ∧
  (∀ challenge,
     succeeded (Server.login_challenge username challenge db).1 →
     pending_challenges (Server.login_challenge username challenge db).2 username
     = [challenge]).
Proof.
  intros db.
  assert (NoDup (usernames db)) as Hnd by (apply serve_NoDup; constructor).
  pose proof (rows_of_NoDup db username Hnd) as Hrows.
  split; [|split].
  - unfold pending_challenges. rewrite Hrows.
    destruct (Prisma.find_user db username) as [u|]; simpl; [|lia].
    destruct (User.currentChallenge u); simpl; lia.
  - intros challenge (r & Hr & Hs).
    destruct (decide (username = "")) as [->|Hne].
    { rewrite register_challenge_empty in Hr. simpl in Hr. by injection Hr as <-. }
    destruct (Prisma.find_user db username) as [u|] eqn:Hu.
    { erewrite register_challenge_taken in Hr by done. simpl in Hr. by injection Hr as <-. }
    rewrite register_challenge_new by done. simpl.
    unfold pending_challenges, rows_of in *. simpl.
    rewrite List.filter_app, Hrows. simpl. by rewrite bool_decide_eq_true_2.
  - intros challenge (r & Hr & Hs).
    destruct (Prisma.find_user db username) as [u|] eqn:Hu;
      [|rewrite login_challenge_absent in Hr by done; simpl in Hr; by injection Hr as <-].
    destruct (Prisma.include_authenticators db u) as [|a l] eqn:Ha;
      [erewrite login_challenge_no_authenticators in Hr by done; simpl in Hr;
       by injection Hr as <-|].
    erewrite login_challenge_issued; [|done|by rewrite Ha]. simpl.
    unfold pending_challenges. rewrite rows_of_with_challenge, Hrows. simpl.
    unfold Prisma.set_currentChallenge. by rewrite bool_decide_eq_true_2.
Qed.

Lemma one_pending_challenge_witness :
  let db := Server.serve (lib := SimpleWebAuthn.lib) Scenario.env
              [Server.RegisterChallenge "alice" "c-1";
               Server.RegisterVerify "alice" (Scenario.attestation "C1" Scenario.key1 "c-1");
               Server.LoginChallenge "alice" "c-3"] empty_db in
  pending_challenges db "alice" = ["c-3"] ∧
  succeeded (Server.login_challenge "alice" "c-4" db).1 ∧
  pending_challenges (Server.login_challenge "alice" "c-4" db).2 "alice" = ["c-4"].
Proof.
  intros db.
  assert (succeeded (Server.login_challenge "alice" "c-4" db).1) as Hok by (by eexists).
  split; [reflexivity|]. split; [exact Hok|].
  exact (proj2 (proj2 (one_pending_challenge (lib := SimpleWebAuthn.lib) Scenario.env
           [Server.RegisterChallenge "alice" "c-1";
            Server.RegisterVerify "alice" (Scenario.attestation "C1" Scenario.key1 "c-1");
            Server.LoginChallenge "alice" "c-3"] "alice")) "c-4" Hok).
Defined.

(** ** Repeated register-challenge *)

Lemma find_user_with_user row db username :
  Prisma.find_user (with_user row db) username
  = match Prisma.find_user db username with
    | Some u => Some u
    | None => if bool_decide (User.username row = username) then Some row else None
    end.
Proof.
  unfold Prisma.find_user. simpl. induction (users db) as [|x l IH]; simpl; [done|].
  by destruct (bool_decide (User.username x = username)).
Qed.

Section RegisterTwice.

Variable env : Env.

Lemma register_challenge_again username c1 c2 db :
  let db1 := (Server.register_challenge env username c1 db).2 in
  Server.register_challenge env username c2 db1 =
  (Normal (if bool_decide (username = "")
           then Server.username_required else Server.username_taken), db1).
Proof.
  intros db1. subst db1. case_bool_decide as Hne; [by subst|].
  destruct (Prisma.find_user db username) as [u|] eqn:Hu.
  - erewrite (register_challenge_taken env username c1) by done. simpl.
    by eapply register_challenge_taken.
  - rewrite (register_challenge_new env username c1) by done. simpl.
    eapply register_challenge_taken; [done|].
    rewrite find_user_with_user, Hu. simpl. by rewrite bool_decide_eq_true_2.
Qed.

Lemma register_challenge_length username c db :
  (length (users (Server.register_challenge env username c db).2)
   ≤ S (length (users db)))%nat.
Proof.
  destruct (decide (username = "")) as [->|Hne]; [simpl; lia|].
  destruct (Prisma.find_user db username) as [u|] eqn:Hu.
  - erewrite register_challenge_taken by done. simpl. lia.
  - rewrite register_challenge_new by done. simpl. rewrite length_app. simpl. lia.
Qed.

Lemma register_challenge_other username other c db :
  other ≠ username →
  Prisma.find_user (Server.register_challenge env other c db).2 username
  = Prisma.find_user db username.
Proof.
  intros Hne. destruct (decide (other = "")) as [->|Hne']; [done|].
  destruct (Prisma.find_user db other) as [u|] eqn:Hu.
  - by erewrite register_challenge_taken by done.
  - rewrite register_challenge_new by done. simpl.
    rewrite find_user_with_user. simpl. rewrite bool_decide_eq_false_2 by done.
    by destruct (Prisma.find_user db username).
Qed.

(** The answer to a register-challenge depends on the database only through
    the lookup of its own username. *)
Lemma register_challenge_answer username c db db' :
  Prisma.find_user db' username = Prisma.find_user db username →
  (Server.register_challenge env username c db').1
  = (Server.register_challenge env username c db).1.
Proof.
  intros Hf. destruct (decide (username = "")) as [->|Hne]; [done|].
  destruct (Prisma.find_user db username) as [u|] eqn:Hu.
  - by rewrite (register_challenge_taken env username c db' u),
               (register_challenge_taken env username c db u).
  - by rewrite !register_challenge_new.
Qed.

End RegisterTwice.

Section InMemoryRegister.

Variable env : Env.

Lemma in_memory_register_challenge_new username c (users : gmap string InMemory.UserEntry) :
  username ≠ "" →
  InMemory.truthy users username = false →
  InMemory.register_challenge env username c users =
  (json (JsonRegistrationOptions
     (generateRegistrationOptions (RP_NAME env) (RP_ID env)
        (String.list_byte_of_string username) username "none" [] c)),
   <[username := InMemory.mkUser username [] (Some c)]> users).
Proof.
  intros Hne Ht. unfold InMemory.register_challenge.
  rewrite bool_decide_eq_false_2 by done. rewrite Ht.
  rewrite lookup_insert_eq. simpl. f_equal.
  apply map_eq. intros k. destruct (decide (k = username)) as [->|Hk].
  - by rewrite lookup_alter_eq, !lookup_insert_eq.
  - by rewrite lookup_alter_ne, !lookup_insert_ne.
Qed.

Lemma in_memory_register_challenge_rejected username c (users : gmap string InMemory.UserEntry) :
  username = "" ∨ InMemory.truthy users username = true →
  (InMemory.register_challenge env username c users).2 = users.
Proof.
  intros H. unfold InMemory.register_challenge. case_bool_decide; [done|].
  destruct H as [?|Ht]; [done|by rewrite Ht].
Qed.

Lemma in_memory_register_challenge_again username c1 c2
    (users : gmap string InMemory.UserEntry) :
  let users1 := (InMemory.register_challenge env username c1 users).2 in
  (InMemory.register_challenge env username c2 users1).2 = users1.
Proof.
  intros users1. apply in_memory_register_challenge_rejected.
  destruct (decide (username = "")) as [->|Hne]; [by left|right].
  subst users1. destruct (InMemory.truthy users username) eqn:Ht.
  - by rewrite in_memory_register_challenge_rejected by by right.
  - rewrite in_memory_register_challenge_new by done. simpl.
    unfold InMemory.truthy. rewrite lookup_insert_eq.
    by rewrite bool_decide_eq_true_2.
Qed.

Lemma in_memory_register_challenge_size username c (users : gmap string InMemory.UserEntry) :
  (size (InMemory.register_challenge env username c users).2 ≤ S (size users))%nat.
Proof.
  destruct (decide (username = "")) as [->|Hne];
    [rewrite in_memory_register_challenge_rejected by (by left); lia|].
  destruct (InMemory.truthy users username) eqn:Ht;
    [rewrite in_memory_register_challenge_rejected by (by right); lia|].
  rewrite in_memory_register_challenge_new by done. simpl.
  rewrite map_size_insert. destruct (users !! username); simpl; lia.
Qed.

Lemma in_memory_register_challenge_other username other c
    (users : gmap string InMemory.UserEntry) :
  other ≠ username →
  (InMemory.register_challenge env other c users).2 !! username = users !! username.
Proof.
  intros Hne. destruct (decide (other = "")) as [->|Hne'];
    [by rewrite in_memory_register_challenge_rejected by (by left)|].
  destruct (InMemory.truthy users other) eqn:Ht;
    [by rewrite in_memory_register_challenge_rejected by (by right)|].
  rewrite in_memory_register_challenge_new by done. simpl.
  by rewrite lookup_insert_ne.
Qed.

Lemma in_memory_register_challenge_answer username c
    (users users' : gmap string InMemory.UserEntry) :
  is_Some (users' !! username) ↔ is_Some (users !! username) →
  (InMemory.register_challenge env username c users').1
  = (InMemory.register_challenge env username c users).1.
Proof.
  intros Hf. assert (InMemory.truthy users' username = InMemory.truthy users username) as Ht.
  { unfold InMemory.truthy. f_equal. by apply bool_decide_ext. }
  destruct (decide (username = "")) as [->|Hne]; [done|].
  destruct (InMemory.truthy users username) eqn:Hu.
  - unfold InMemory.register_challenge. rewrite Ht, Hu. by case_bool_decide.
  - by rewrite !in_memory_register_challenge_new.
Qed.

End InMemoryRegister.

(** C7: a second register-challenge for a username that has just been
    through register-challenge leaves the state exactly as the first call
    left it, so the two calls add at most one user; a register-challenge for
    another username neither touches that user nor is answered differently
    because of it.  This holds for the Prisma server and for the in-memory
    server. *)
Theorem register_challenge_idempotent env username other c1 c2 c :
  other ≠ username →
  (∀ db,
     let db1 := (Server.register_challenge env username c1 db).2 in
     let db2 := (Server.register_challenge env username c2 db1).2 in
     db2 = db1 ∧
     (length (users db2) ≤ S (length (users db)))%nat ∧
     Prisma.find_user (Server.register_challenge env other c db2).2 username
       = Prisma.find_user db2 username ∧
     (Server.register_challenge env other c db2).1
       = (Server.register_challenge env other c db).1) ∧
  (∀ users : gmap string InMemory.UserEntry,
     let users1 := (InMemory.register_challenge env username c1 users).2 in
     let users2 := (InMemory.register_challenge env username c2 users1).2 in
     users2 = users1 ∧
     (size users2 ≤ S (size users))%nat ∧
     (InMemory.register_challenge env other c users2).2 !! username = users2 !! username ∧
     (InMemory.register_challenge env other c users2).1
       = (InMemory.register_challenge env other c users).1).
Proof.
  intros Hne. split.
  - intros db db1 db2.
    assert (db2 = db1) as Heq.
    { subst db2 db1. by rewrite register_challenge_again. }
    rewrite Heq. split; [done|]. split; [apply register_challenge_length|].
    split; [by apply register_challenge_other|].
    apply register_challenge_answer. subst db1.
    by apply register_challenge_other.
  - intros users users1 users2.
    assert (users2 = users1) as Heq by apply in_memory_register_challenge_again.
    rewrite Heq. split; [done|]. split; [apply in_memory_register_challenge_size|].
    split; [by apply in_memory_register_challenge_other|].
    apply in_memory_register_challenge_answer. subst users1.
    by rewrite in_memory_register_challenge_other.
Qed.

Lemma register_challenge_idempotent_witness :
  "bob" ≠ "alice" ∧
  (let db1 := (Server.register_challenge Scenario.env "alice" "c-1" empty_db).2 in
   let db2 := (Server.register_challenge Scenario.env "alice" "c-2" db1).2 in
   db2 = db1 ∧
   (length (users db2) ≤ S (length (users empty_db)))%nat ∧
   Prisma.find_user (Server.register_challenge Scenario.env "bob" "c-3" db2).2 "alice"
     = Prisma.find_user db2 "alice" ∧
   (Server.register_challenge Scenario.env "bob" "c-3" db2).1
     = (Server.register_challenge Scenario.env "bob" "c-3" empty_db).1) ∧
  (let users1 := (InMemory.register_challenge Scenario.env "alice" "c-1" ∅).2 in
   let users2 := (InMemory.register_challenge Scenario.env "alice" "c-2" users1).2 in
   users2 = users1 ∧
   (size users2 ≤ S (size (∅ : gmap string InMemory.UserEntry)))%nat ∧
   (InMemory.register_challenge Scenario.env "bob" "c-3" users2).2 !! "alice"
     = users2 !! "alice" ∧
   (InMemory.register_challenge Scenario.env "bob" "c-3" users2).1
     = (InMemory.register_challenge Scenario.env "bob" "c-3" ∅).1).
Proof.
  assert ("bob" ≠ "alice") as Hne by discriminate.
  pose proof (register_challenge_idempotent Scenario.env "alice" "bob" "c-1" "c-2" "c-3" Hne)
    as [Hdb Hmem].
  split; [exact Hne|]. split; [exact (Hdb empty_db)|exact (Hmem ∅)].
Defined.

(** ** The counter rule *)

Lemma set_counter_userId aid n a :
  Authenticator.userId (Prisma.set_counter aid n a) = Authenticator.userId a.
Proof. unfold Prisma.set_counter. by case_bool_decide. Qed.

Lemma set_counter_credentialID aid n a :
  Authenticator.credentialID (Prisma.set_counter aid n a) = Authenticator.credentialID a.
Proof. unfold Prisma.set_counter. by case_bool_decide. Qed.

Lemma include_authenticators_with_challenge id c db u :
  Prisma.include_authenticators (with_challenge id c db) u = Prisma.include_authenticators db u.
Proof. done. Qed.

Lemma include_authenticators_with_counter aid n db u :
  Prisma.include_authenticators (with_counter aid n db) u
  = Prisma.set_counter aid n <$> Prisma.include_authenticators db u.
Proof.
  unfold Prisma.include_authenticators. simpl. apply filter_fmap.
  intros a. by rewrite set_counter_userId.
Qed.

Lemma find_authenticator_set_counter id aid n l :
  Server.find_authenticator id (Prisma.set_counter aid n <$> l)
  = Prisma.set_counter aid n <$> Server.find_authenticator id l.
Proof.
  unfold Server.find_authenticator. apply find_fmap.
  intros a. by rewrite set_counter_credentialID.
Qed.

(** The credential the user presented, as stored after a verified login. *)
Lemma find_authenticator_after_login id aid n c db u a :
  Server.find_authenticator id (Prisma.include_authenticators db u) = Some a →
  Server.find_authenticator id
    (Prisma.include_authenticators (with_challenge (User.id u) c (with_counter aid n db)) u)
  = Some (Prisma.set_counter aid n a).
Proof.
  intros Ha. rewrite include_authenticators_with_challenge,
    include_authenticators_with_counter, find_authenticator_set_counter. by rewrite Ha.
Qed.

(** [find] returns the first row that passes the test. *)
Lemma find_filter_singleton {A} (P : A → bool) (l : list A) a :
  List.filter P l = [a] → List.find P l = Some a.
Proof.
  induction l as [|x l IH]; simpl; [done|].
  destruct (P x); [by intros [= ->]|exact IH].
Qed.

Lemma rows_with_credential_after_login id aid n c db u :
  rows_with_credential (with_challenge (User.id u) c (with_counter aid n db)) u id
  = Prisma.set_counter aid n <$> rows_with_credential db u id.
Proof.
  unfold rows_with_credential.
  rewrite include_authenticators_with_challenge, include_authenticators_with_counter.
  apply filter_fmap. intros a. by rewrite set_counter_credentialID.
Qed.

Lemma List_filter_Permutation {A} (P : A → bool) (l l' : list A) :
  l ≡ₚ l' → List.filter P l ≡ₚ List.filter P l'.
Proof.
  induction 1 as [|x l l' _ IH|x y l|l l' l'' _ IH1 _ IH2]; simpl.
  - done.
  - destruct (P x); [by constructor|done].
  - destruct (P x), (P y); try done. apply perm_swap.
  - by etrans.
Qed.

(** Holding a credential in one row does not depend on the order in which
    the rows are stored. *)
Lemma rows_with_credential_reordered db db1 u id a :
  reordered db db1 →
  rows_with_credential db u id = [a] →
  rows_with_credential db1 u id = [a].
Proof.
  intros (_ & Ha & _ & _) Hrows. apply Permutation_singleton_r. rewrite <- Hrows.
  unfold rows_with_credential, Prisma.include_authenticators.
  by do 2 apply List_filter_Permutation.
Qed.

(** C2 (as the code has it): for a user who owns the presented credential
    once -- one Authenticator of theirs carries its credentialID, so that
    "the stored counter" is one number whichever row the lookup meets first:
    if the reported counter exceeds the stored one, or both are 0, and the
    other checks hold, login-verify writes the reported counter over the
    stored one; if not, the call fails with one of the two general failure
    answers (400 "Verification failed" or 500 "Internal server error"; the
    server has no answer of its own for a regressed counter) and the
    database, the stored counter with it, is unchanged. *)
Theorem counter_rule_enforced env db username response now u a :
  Prisma.find_user db username = Some u →
  rows_with_credential db u (AuthenticationResponse.id response) = [a] →
  let stored := Authenticator.counter a in
  let reported := Z.of_N (AuthenticationResponse.counter response) in
  let result := Server.login_verify (lib := SimpleWebAuthn.lib) env username response now db in
  (counter_ok stored reported = true →
   assertion_checks env u a response →
   result = (Normal (token_response env u now),
             with_challenge (User.id u) None (with_counter (Authenticator.id a) reported db)) ∧
   Authenticator.counter
     <$> rows_with_credential result.2 u (AuthenticationResponse.id response)
   = [reported]) ∧
  (counter_ok stored reported = false →
   result.2 = db ∧
   (result.1 = Normal Server.verification_failed
    ∨ result.1 = Normal Server.internal_server_error)).
Proof.
  intros Hu Hrows stored reported result.
  pose proof (find_filter_singleton _ _ _ Hrows) as Ha.
  change (Server.find_authenticator (AuthenticationResponse.id response)
            (Prisma.include_authenticators db u) = Some a) in Ha.
  split.
  - intros Hk Hc.
    assert (result = (Normal (token_response env u now),
              with_challenge (User.id u) None
                (with_counter (Authenticator.id a) reported db))) as Hr.
    { subst result.
      by erewrite login_verify_verified
        by eauto using verifyAuthenticationResponse_verified. }
    split; [done|]. rewrite Hr. simpl.
    rewrite rows_with_credential_after_login, Hrows. simpl.
    unfold Prisma.set_counter. by rewrite bool_decide_eq_true_2.
  - intros Hk. subst result.
    destruct (verifyAuthenticationResponse_rejects env u a response (or_introl Hk))
      as [[e He]|(v & He & Hf)].
    + erewrite login_verify_throws by done. eauto.
    + erewrite login_verify_not_verified by done. eauto.
Qed.

Lemma counter_rule_enforced_witness :
  (counter_ok 5 6 = true ∧
   Authenticator.counter
     <$> rows_with_credential
           (Scenario.login_verify "alice" (Scenario.assertion "C1" Scenario.key1 "c-9" 6) 0
              Scenario.alice_counter_5).2
           (User.mk 1 "alice" (Some "c-9")) "C1" = [6%Z]) ∧
  (counter_ok 5 3 = false ∧
   (Scenario.login_verify "alice" (Scenario.assertion "C1" Scenario.key1 "c-9" 3) 0
      Scenario.alice_counter_5).2 = Scenario.alice_counter_5).
Proof.
  split; (split; [reflexivity|]).
  - refine (proj2 (proj1 (counter_rule_enforced Scenario.env Scenario.alice_counter_5 "alice"
             (Scenario.assertion "C1" Scenario.key1 "c-9" 6) 0%Z
             (User.mk 1 "alice" (Some "c-9"))
             (Authenticator.mk 1 "C1" Scenario.key1 5 ["internal"] 1)
             eq_refl eq_refl) eq_refl _)).
    by repeat split.
  - exact (proj1 (proj2 (counter_rule_enforced Scenario.env Scenario.alice_counter_5 "alice"
             (Scenario.assertion "C1" Scenario.key1 "c-9" 3) 0%Z
             (User.mk 1 "alice" (Some "c-9"))
             (Authenticator.mk 1 "C1" Scenario.key1 5 ["internal"] 1)
             eq_refl eq_refl) eq_refl)).
Defined.

(** C2 (as stated) fails twice over.  With stored counter 5 and reported
    counter 3 the answer is the 500 "Internal server error" of the [catch]
    branch, the very answer given to a response whose counter is fine but
    whose origin is wrong; nothing in it names a cloned credential.  And
    "the stored counter" need not be one number: when "alice" holds "C1" in
    two rows, with counters 0 and 5, a login reporting 3 is measured against
    the row [find] meets first.  Met in one order the rows make it succeed,
    although 3 is below the 5 stored for the same credential; met in the
    other order the same rows make it fail. *)
Lemma counter_regression_is_not_classified :
  (counter_ok 5 3 = false ∧
   Scenario.login_verify "alice" (Scenario.assertion "C1" Scenario.key1 "c-9" 3) 0
     Scenario.alice_counter_5
   = (Normal Server.internal_server_error, Scenario.alice_counter_5) ∧
   counter_ok 5 6 = true ∧
   Scenario.login_verify "alice"
     (AuthenticationResponse.mk "C1" "c-9" "http://evil.example" "localhost" 6 Scenario.key1) 0
     Scenario.alice_counter_5
   = (Normal Server.internal_server_error, Scenario.alice_counter_5)) ∧
  (let alice := User.mk 1 "alice" (Some "c-3") in
   let row1 := Authenticator.mk 1 "C1" Scenario.key1 0 ["internal"] 1 in
   let row2 := Authenticator.mk 2 "C1" Scenario.key1 5 ["internal"] 1 in
   let other_order := mkDB [alice] [row2; row1] 2 3 in
   let login := Scenario.login_verify "alice"
                  (Scenario.assertion "C1" Scenario.key1 "c-3" 3) 0 in
   Scenario.alice_registered_twice = mkDB [alice] [row1; row2] 2 3 ∧
   reordered Scenario.alice_registered_twice other_order ∧
   (login Scenario.alice_registered_twice).1 = Normal (token_response Scenario.env alice 0) ∧
   status (token_response Scenario.env alice 0) = 200 ∧
   row2 ∈ authenticators (login Scenario.alice_registered_twice).2 ∧
   login other_order = (Normal Server.internal_server_error, other_order)).
Proof.
  split; [by vm_compute|].
  split; [by vm_compute|]. split.
  { repeat split; try done. apply perm_swap. }
  split; [by vm_compute|]. split; [by vm_compute|]. split; [|by vm_compute].
  apply (bool_decide_unpack _). by vm_compute.
Qed.

(** ** A missing challenge *)

(** C10: when the user exists and owns the presented credential but has no
    pending challenge, login-verify does not succeed: it answers 500
    "Internal server error" (the [catch] branch, not the 400 "Verification
    failed" answer) and the database is unchanged. *)
Theorem login_verify_without_challenge env db username response now u a :
  Prisma.find_user db username = Some u →
  Server.find_authenticator (AuthenticationResponse.id response)
    (Prisma.include_authenticators db u) = Some a →
  User.currentChallenge u = None →
  Server.login_verify (lib := SimpleWebAuthn.lib) env username response now db
    = (Normal Server.internal_server_error, db) ∧
  status Server.internal_server_error = 500 ∧
  Server.internal_server_error ≠ Server.verification_failed.
Proof.
  intros Hu Ha Hc. split; [|done].
  eapply login_verify_throws; [done..|].
  apply verifyAuthenticationResponse_challenge. by rewrite Hc.
Qed.

Lemma login_verify_without_challenge_witness :
  Prisma.find_user Scenario.alice_registered "alice" = Some (User.mk 1 "alice" None) ∧
  Scenario.login_verify "alice" (Scenario.assertion "C1" Scenario.key1 "c-1" 1) 0
    Scenario.alice_registered
  = (Normal Server.internal_server_error, Scenario.alice_registered).
Proof.
  split; [reflexivity|].
  exact (proj1 (login_verify_without_challenge Scenario.env Scenario.alice_registered "alice"
           (Scenario.assertion "C1" Scenario.key1 "c-1" 1) 0%Z (User.mk 1 "alice" None)
           (Authenticator.mk 1 "C1" Scenario.key1 0 ["internal"] 1)
           eq_refl eq_refl eq_refl)).
Defined.

(** ** A challenge is used once *)

Lemma token_response_succeeded env u now :
  signing_key_set env → succeeded (Normal (token_response env u now)).
Proof.
  intros (k & Hk & Hne). unfold token_response, Jwt.sign. rewrite Hk.
  destruct k; [done|]. by eexists.
Qed.

(** C4 (as the code has it): after login-challenge stored [challenge] for a
    user, a login-verify whose response carries that challenge (and is valid
    otherwise) succeeds and clears the stored challenge; presenting the same
    response again fails, with the 500 "Internal server error" answer, and
    changes nothing; and a login-verify whose response carries another
    challenge fails and leaves the stored challenge in place. *)
Theorem challenge_single_use env db username challenge response now now' u a :
  Prisma.find_user db username = Some u →
  Server.find_authenticator (AuthenticationResponse.id response)
    (Prisma.include_authenticators db u) = Some a →
  AuthenticationResponse.challenge response = challenge →
  Server.origin env = Some (AuthenticationResponse.origin response) →
  Server.rpID env = Some (AuthenticationResponse.rpId response) →
  AuthenticationResponse.signer response = Authenticator.credentialPublicKey a →
  counter_ok (Authenticator.counter a)
             (Z.of_N (AuthenticationResponse.counter response)) = true →
  signing_key_set env →
  let issue := Server.login_challenge username challenge db in
  let first := Server.login_verify (lib := SimpleWebAuthn.lib) env username response now
                 issue.2 in
  let second := Server.login_verify (lib := SimpleWebAuthn.lib) env username response now'
                  first.2 in
  succeeded issue.1 ∧
  User.currentChallenge <$> Prisma.find_user issue.2 username = Some (Some challenge) ∧
  succeeded first.1 ∧
  User.currentChallenge <$> Prisma.find_user first.2 username = Some None ∧
  second = (Normal Server.internal_server_error, first.2) ∧
  (∀ response' t,
     AuthenticationResponse.challenge response' ≠ challenge →
     ∃ r, Server.login_verify (lib := SimpleWebAuthn.lib) env username response' t issue.2
          = (Normal r, issue.2) ∧ status r ≠ 200).
Proof.
  intros Hu Ha Hch Ho Hr Hs Hk Hjwt issue first second.
  set (u1 := Prisma.set_currentChallenge (User.id u) (Some challenge) u).
  assert (u1 = User.mk (User.id u) (User.username u) (Some challenge)) as Hu1.
  { unfold u1, Prisma.set_currentChallenge. by rewrite bool_decide_eq_true_2. }
  assert (Prisma.include_authenticators db u ≠ []) as Hne.
  { apply find_authenticator_Some in Ha as [Hin _]. intros E. rewrite E in Hin.
    by apply not_elem_of_nil in Hin. }
  assert (issue = (Normal (json (JsonAuthenticationOptions
            (generateAuthenticationOptions
               (Server.descriptor <$> Prisma.include_authenticators db u) challenge))),
            with_challenge (User.id u) (Some challenge) db)) as Hissue
    by (by apply login_challenge_issued).
  set (db1 := with_challenge (User.id u) (Some challenge) db) in *.
  assert (Prisma.find_user db1 username = Some u1) as Hfind1.
  { unfold db1. by rewrite find_user_with_challenge, Hu. }
  assert (Prisma.include_authenticators db1 u1 = Prisma.include_authenticators db u) as Hinc1.
  { by rewrite Hu1. }
  assert (first = (Normal (token_response env u1 now),
            with_challenge (User.id u1) None
              (with_counter (Authenticator.id a)
                 (Z.of_N (AuthenticationResponse.counter response)) db1))) as Hfirst.
  { subst first. rewrite Hissue. simpl.
    assert (assertion_checks env u1 a response) as Hchecks.
    { rewrite Hu1. unfold assertion_checks. simpl. by rewrite Hch. }
    rewrite <- Hinc1 in Ha.
    exact (login_verify_verified env username response now db1 u1 a _ Hfind1 Ha
             (verifyAuthenticationResponse_verified env u1 a response Hchecks Hk) eq_refl). }
  set (db2 := with_challenge (User.id u1) None
                (with_counter (Authenticator.id a)
                   (Z.of_N (AuthenticationResponse.counter response)) db1)) in *.
  remember (Prisma.set_currentChallenge (User.id u1) None u1) as u2 eqn:Hu2.
  assert (Prisma.find_user db2 username = Some u2) as Hfind2.
  { unfold db2. rewrite find_user_with_challenge.
    change (Prisma.find_user (with_counter _ _ db1) username)
      with (Prisma.find_user db1 username). by rewrite Hfind1, Hu2. }
  assert (User.currentChallenge u2 = None) as Hnone.
  { rewrite Hu2. unfold Prisma.set_currentChallenge. by rewrite bool_decide_eq_true_2. }
  assert (User.id u2 = User.id u) as Hid2.
  { rewrite Hu2, Hu1. unfold Prisma.set_currentChallenge. by rewrite bool_decide_eq_true_2. }
  split; [rewrite Hissue; by eexists|].
  split; [rewrite Hissue; cbn [snd]; by rewrite Hfind1, Hu1|].
  split; [rewrite Hfirst; by apply token_response_succeeded|].
  split; [rewrite Hfirst; cbn [snd]; rewrite Hfind2; cbn; by rewrite Hnone|].
  split.
  - subst second. rewrite Hfirst. cbn [snd].
    eapply login_verify_throws; [done| |].
    + unfold db2.
      rewrite include_authenticators_with_challenge, include_authenticators_with_counter,
        find_authenticator_set_counter.
      replace (Prisma.include_authenticators db1 u2)
        with (Prisma.include_authenticators db u)
        by (unfold Prisma.include_authenticators; by rewrite Hid2).
      by rewrite Ha.
    + apply verifyAuthenticationResponse_challenge. by rewrite Hnone.
  - intros response' t Hneq. rewrite Hissue. cbn [snd].
    apply login_verify_frame. intros u' a' v Hu' Ha' Hv.
    rewrite Hfind1 in Hu'. injection Hu' as <-.
    rewrite verifyAuthenticationResponse_challenge in Hv; [done|].
    rewrite Hu1. simpl. congruence.
Qed.

Lemma challenge_single_use_witness :
  let issue := Server.login_challenge "alice" "c-3" Scenario.alice_registered in
  let first := Scenario.login_verify "alice" (Scenario.assertion "C1" Scenario.key1 "c-3" 1)
                 1000 issue.2 in
  let second := Scenario.login_verify "alice" (Scenario.assertion "C1" Scenario.key1 "c-3" 1)
                  2000 first.2 in
  signing_key_set Scenario.env ∧
  succeeded issue.1 ∧
  User.currentChallenge <$> Prisma.find_user issue.2 "alice" = Some (Some "c-3") ∧
  succeeded first.1 ∧
  User.currentChallenge <$> Prisma.find_user first.2 "alice" = Some None ∧
  second = (Normal Server.internal_server_error, first.2).
Proof.
  assert (signing_key_set Scenario.env) as Hkey by (by exists "jwt-secret").
  pose proof (challenge_single_use Scenario.env Scenario.alice_registered "alice" "c-3"
                (Scenario.assertion "C1" Scenario.key1 "c-3" 1) 1000%Z 2000%Z
                (User.mk 1 "alice" None)
                (Authenticator.mk 1 "C1" Scenario.key1 0 ["internal"] 1)
                eq_refl eq_refl eq_refl eq_refl eq_refl eq_refl eq_refl Hkey)
    as (H1 & H2 & H3 & H4 & H5 & _).
  intros issue first second. split; [exact Hkey|]. split; [exact H1|].
  split; [exact H2|]. split; [exact H3|]. split; [exact H4|exact H5].
Defined.

(** C4 (as stated) fails: "alice" logs in with counters 0 and 0; replaying
    the same response is answered 500 "Internal server error", the answer
    also given to a response that carries the live challenge but a foreign
    origin.  No answer says that the challenge did not match. *)
Lemma replayed_challenge_is_not_classified :
  let issue := Server.login_challenge "alice" "c-3" Scenario.alice_registered in
  let first := Scenario.login_verify "alice" (Scenario.assertion "C1" Scenario.key1 "c-3" 0)
                 1000 issue.2 in
  succeeded first.1 ∧
  Scenario.login_verify "alice" (Scenario.assertion "C1" Scenario.key1 "c-3" 0) 2000 first.2
    = (Normal Server.internal_server_error, first.2) ∧
  Scenario.login_verify "alice"
    (AuthenticationResponse.mk "C1" "c-3" "http://evil.example" "localhost" 0 Scenario.key1)
    1000 issue.2
    = (Normal Server.internal_server_error, issue.2).
Proof.
  split; [by eexists|]. by vm_compute.
Qed.

(** ** Session tokens *)

Lemma login_verify_succeeded_inv `{lib : WebAuthnServer} env username response now db r :
  (Server.login_verify env username response now db).1 = Normal r →
  status r = 200 →
  ∃ u, Prisma.find_user db username = Some u ∧ r = token_response env u now.
Proof.
  intros Hr Hs.
  destruct (Prisma.find_user db username) as [u|] eqn:Hu;
    [|rewrite login_verify_absent in Hr by done; simpl in Hr; by injection Hr as <-].
  destruct (Server.find_authenticator (AuthenticationResponse.id response)
              (Prisma.include_authenticators db u)) as [a|] eqn:Ha;
    [|erewrite login_verify_unrecognized in Hr by done; simpl in Hr; by injection Hr as <-].
  destruct (verifyAuthenticationResponse response (User.currentChallenge u)
              (Server.origin env) (Server.rpID env) (Server.stored_credential a))
    as [v|e] eqn:Hv;
    [|erewrite login_verify_throws in Hr by done; simpl in Hr; by injection Hr as <-].
  destruct (auth_verified v) eqn:Ht;
    [|erewrite login_verify_not_verified in Hr by done; simpl in Hr; by injection Hr as <-].
  erewrite login_verify_verified in Hr by done. simpl in Hr. injection Hr as <-.
  by exists u.
Qed.

Lemma sign_Normal username secret expiresIn now token :
  Jwt.sign username secret expiresIn now = Normal token →
  secret = Some (Jwt.key token) ∧ Jwt.key token ≠ "" ∧
  Jwt.payload token
  = Jwt.mkPayload username (now `div` 1000)%Z (now `div` 1000 + expiresIn `div` 1000)%Z.
Proof.
  unfold Jwt.sign. destruct secret as [k|]; [|done]. destruct k as [|c k]; [done|].
  by intros [= <-].
Qed.

(** C9: the token a successful login-verify hands out names the
    authenticated username and expires one hour after issuance: presented as
    a Bearer token 59 minutes later it is accepted and /profile greets that
    username; 61 minutes later it is rejected with 403. *)
Theorem session_token_valid_for_one_hour `{lib : WebAuthnServer} env db username response
    now token :
  (Server.login_verify env username response now db).1
    = Normal (json (JsonVerified true None (Some token))) →
  let bearer := Some [Server.Word "Bearer"; Server.Compact token] in
  Jwt.username (Jwt.payload token) = username ∧
  Jwt.exp (Jwt.payload token) = (Jwt.iat (Jwt.payload token) + 3600)%Z ∧
  Server.verifyToken env bearer (now + 59 * 60 * 1000) = inr (Jwt.payload token) ∧
  Server.profile env bearer (now + 59 * 60 * 1000)
    = json (JsonMessage ("Welcome, " +:+ username +:+ "! This is a protected resource.")) ∧
  Server.verifyToken env bearer (now + 61 * 60 * 1000) = inl (sendStatus 403).
Proof.
  intros Hr bearer.
  apply login_verify_succeeded_inv in Hr as (u & Hu & Ht); [|done].
  apply find_user_Some in Hu as [_ Hname].
  unfold token_response in Ht.
  destruct (Jwt.sign (User.username u) (JWT_SECRET env) Jwt.ms_1h now) as [t|e] eqn:Hsign;
    [|done].
  injection Ht as <-.
  apply sign_Normal in Hsign as (Hsecret & Hkey & Hpayload).
  assert (Server.verifyToken env bearer (now + 59 * 60 * 1000) = inr (Jwt.payload token)) as H59.
  { unfold Server.verifyToken, bearer, Jwt.verify. simpl. rewrite Hsecret.
    destruct (Jwt.key token) as [|c k] eqn:Ek; [done|].
    rewrite bool_decide_eq_true_2 by done. rewrite Hpayload. simpl.
    replace (now + 59 * 60 * 1000)%Z with (now + 3540 * 1000)%Z by lia.
    rewrite Z.div_add by lia.
    rewrite bool_decide_eq_false_2; [done|]. change (Jwt.ms_1h `div` 1000)%Z with 3600%Z. lia. }
  split; [by rewrite Hpayload|]. split; [by rewrite Hpayload|]. split; [exact H59|].
  split.
  - unfold Server.profile. rewrite H59. by rewrite Hpayload, Hname.
  - unfold Server.verifyToken, bearer, Jwt.verify. simpl. rewrite Hsecret.
    destruct (Jwt.key token) as [|c k] eqn:Ek; [done|].
    rewrite bool_decide_eq_true_2 by done. rewrite Hpayload. simpl.
    replace (now + 61 * 60 * 1000)%Z with (now + 3660 * 1000)%Z by lia.
    rewrite Z.div_add by lia.
    rewrite bool_decide_eq_true_2; [done|]. change (Jwt.ms_1h `div` 1000)%Z with 3600%Z. lia.
Qed.

Lemma session_token_valid_for_one_hour_witness :
  let token := Jwt.mk (Jwt.mkPayload "alice" 1700000000 1700003600) "jwt-secret" in
  let bearer := Some [Server.Word "Bearer"; Server.Compact token] in
  (Scenario.login_verify "alice" (Scenario.assertion "C1" Scenario.key1 "c-3" 1)
     1700000000123 Scenario.alice_challenged).1
    = Normal (json (JsonVerified true None (Some token))) ∧
  Server.verifyToken Scenario.env bearer (1700000000123 + 59 * 60 * 1000)
    = inr (Jwt.payload token) ∧
  Server.verifyToken Scenario.env bearer (1700000000123 + 61 * 60 * 1000)
    = inl (sendStatus 403).
Proof.
  intros token bearer.
  assert ((Scenario.login_verify "alice" (Scenario.assertion "C1" Scenario.key1 "c-3" 1)
             1700000000123 Scenario.alice_challenged).1
          = Normal (json (JsonVerified true None (Some token)))) as Hlogin
    by (by vm_compute).
  pose proof (session_token_valid_for_one_hour (lib := SimpleWebAuthn.lib) Scenario.env
                Scenario.alice_challenged "alice" _ 1700000000123%Z token Hlogin)
    as (_ & _ & H59 & _ & H61).
  split; [exact Hlogin|]. split; [exact H59|exact H61].
Defined.


(** A login that verifies but cannot be signed ([JWT_SECRET] not set) is
    answered 500 after both updates were made: this fault, which is none of
    the ceremony's failures, keeps its writes. *)
Lemma unsigned_login_keeps_its_writes :
  let env := mkEnv (Some "Passkey Demo") (Some "localhost") (Some "http://localhost:5173")
                   None in
  let result := Server.login_verify (lib := SimpleWebAuthn.lib) env "alice"
                  (Scenario.assertion "C1" Scenario.key1 "c-3" 1) 0
                  Scenario.alice_challenged in
  result.1 = Normal Server.internal_server_error ∧
  Authenticator.counter <$> authenticators Scenario.alice_challenged = [0%Z] ∧
  Authenticator.counter <$> authenticators result.2 = [1%Z] ∧
  User.currentChallenge <$> Prisma.find_user Scenario.alice_challenged "alice"
    = Some (Some "c-3") ∧
  User.currentChallenge <$> Prisma.find_user result.2 "alice" = Some None.
Proof. by vm_compute. Qed.

(** * Further properties of the handlers *)

(** ** Every request is answered *)

Section Changes.

Context {lib : WebAuthnServer}.
Variable env : Env.

Lemma register_challenge_change username challenge db :
  ∃ r, Server.register_challenge env username challenge db
       = (Normal r, (Server.register_challenge env username challenge db).2)
     ∧ (status r = 200 ∨ status r = 400)
     ∧ db_change env username db (Server.register_challenge env username challenge db).2.
Proof.
  destruct (decide (username = "")) as [->|Hne].
  { eexists. split; [done|]. split; [by right|constructor]. }
  destruct (Prisma.find_user db username) as [u|] eqn:Hu.
  - erewrite register_challenge_taken by done.
    eexists. split; [done|]. split; [by right|constructor].
  - rewrite register_challenge_new by done.
    eexists. split; [done|]. split; [by left|by constructor].
Qed.

Lemma register_verify_change username response db :
  ∃ r, Server.register_verify env username response db
       = (Normal r, (Server.register_verify env username response db).2)
     ∧ status r ∈ [200; 400; 404; 500]
     ∧ db_change env username db (Server.register_verify env username response db).2.
Proof.
  destruct (Prisma.find_user db username) as [u|] eqn:Hu;
    [|rewrite register_verify_absent by done; eexists; split; [done|];
      split; [set_solver|constructor]].
  destruct (verifyRegistrationResponse response (User.currentChallenge u)
              (Server.origin env) (Server.rpID env)) as [v|e] eqn:Hv;
    [|erewrite register_verify_throws by done; eexists; split; [done|];
      split; [set_solver|constructor]].
  destruct (reg_verified v) eqn:Ht;
    [|erewrite register_verify_not_verified by done; eexists; split; [done|];
      split; [set_solver|constructor]].
  destruct (registrationInfo v) as [info|] eqn:Hi;
    [|erewrite register_verify_no_info by done; eexists; split; [done|];
      split; [set_solver|constructor]].
  erewrite register_verify_verified by done.
  eexists. split; [done|]. split; [set_solver|simpl; by eapply change_registered].
Qed.

Lemma login_challenge_change username challenge db :
  ∃ r, Server.login_challenge username challenge db
       = (Normal r, (Server.login_challenge username challenge db).2)
     ∧ (status r = 200 ∨ status r = 404)
     ∧ db_change env username db (Server.login_challenge username challenge db).2.
Proof.
  destruct (Prisma.find_user db username) as [u|] eqn:Hu;
    [|rewrite login_challenge_absent by done; eexists; split; [done|];
      split; [by right|constructor]].
  destruct (Prisma.include_authenticators db u) as [|a l] eqn:Ha;
    [erewrite login_challenge_no_authenticators by done; eexists; split; [done|];
     split; [by right|constructor]|].
  erewrite login_challenge_issued; [|done|by rewrite Ha].
  eexists. split; [done|]. split; [by left|].
  constructor; [done|by rewrite Ha].
Qed.

Lemma login_verify_change username response now db :
  ∃ r, Server.login_verify env username response now db
       = (Normal r, (Server.login_verify env username response now db).2)
     ∧ status r ∈ [200; 400; 404; 500]
     ∧ db_change env username db (Server.login_verify env username response now db).2.
Proof.
  destruct (Prisma.find_user db username) as [u|] eqn:Hu;
    [|rewrite login_verify_absent by done; eexists; split; [done|];
      split; [set_solver|constructor]].
  destruct (Server.find_authenticator (AuthenticationResponse.id response)
              (Prisma.include_authenticators db u)) as [a|] eqn:Ha;
    [|erewrite login_verify_unrecognized by done; eexists; split; [done|];
      split; [set_solver|constructor]].
  destruct (verifyAuthenticationResponse response (User.currentChallenge u)
              (Server.origin env) (Server.rpID env) (Server.stored_credential a))
    as [v|e] eqn:Hv;
    [|erewrite login_verify_throws by done; eexists; split; [done|];
      split; [set_solver|constructor]].
  destruct (auth_verified v) eqn:Ht;
    [|erewrite login_verify_not_verified by done; eexists; split; [done|];
      split; [set_solver|constructor]].
  erewrite login_verify_verified by done.
  eexists. split; [done|]. split; [|simpl; by eapply change_logged_in].
  unfold token_response. destruct (Jwt.sign _ _ _ _); set_solver.
Qed.

Lemma handle_change r db :
  db_change env (request_username r) db (Server.handle env r db).2.
Proof.
  destruct r as [username c|username response|username c|username response now]; simpl.
  - by destruct (register_challenge_change username c db) as (? & _ & _ & ?).
  - by destruct (register_verify_change username response db) as (? & _ & _ & ?).
  - by destruct (login_challenge_change username c db) as (? & _ & _ & ?).
  - by destruct (login_verify_change username response now db) as (? & _ & _ & ?).
Qed.

End Changes.

(** ** The migration's constraints hold in every reachable database *)

Lemma NoDup_fmap_eq {A B} (f : A → B) (l : list A) x y :
  NoDup (f <$> l) → x ∈ l → y ∈ l → f x = f y → x = y.
Proof.
  induction l as [|z l IH]; [by intros _ ?%not_elem_of_nil|].
  rewrite fmap_cons. intros [Hz Hl]%NoDup_cons Hx Hy Hf.
  apply elem_of_cons in Hx as [->|Hx]; apply elem_of_cons in Hy as [->|Hy].
  - done.
  - exfalso. apply Hz. rewrite Hf. by apply list_elem_of_fmap_2.
  - exfalso. apply Hz. rewrite <- Hf. by apply list_elem_of_fmap_2.
  - by apply IH.
Qed.

Lemma set_currentChallenge_id id c u :
  User.id (Prisma.set_currentChallenge id c u) = User.id u.
Proof. unfold Prisma.set_currentChallenge. by case_bool_decide. Qed.

Lemma set_counter_id aid n a :
  Authenticator.id (Prisma.set_counter aid n a) = Authenticator.id a.
Proof. unfold Prisma.set_counter. by case_bool_decide. Qed.

Lemma fmap_set_currentChallenge_id id c (l : list User.t) :
  User.id <$> (Prisma.set_currentChallenge id c <$> l) = User.id <$> l.
Proof.
  rewrite <- list_fmap_compose. apply list_fmap_ext.
  intros ? u _. apply set_currentChallenge_id.
Qed.

Lemma fmap_set_currentChallenge_username id c (l : list User.t) :
  User.username <$> (Prisma.set_currentChallenge id c <$> l) = User.username <$> l.
Proof.
  rewrite <- list_fmap_compose. apply list_fmap_ext.
  intros ? u _. apply set_currentChallenge_username.
Qed.

Lemma fmap_set_counter_id aid n (l : list Authenticator.t) :
  Authenticator.id <$> (Prisma.set_counter aid n <$> l) = Authenticator.id <$> l.
Proof.
  rewrite <- list_fmap_compose. apply list_fmap_ext.
  intros ? a _. apply set_counter_id.
Qed.

Lemma schema_constraints_empty : schema_constraints empty_db.
Proof.
  split; simpl; try apply NoDup_nil_2; by intros ? ?%not_elem_of_nil.
Qed.

Lemma schema_constraints_with_user db username c :
  Prisma.find_user db username = None →
  schema_constraints db →
  schema_constraints (with_user (User.mk (User_id_seq db) username c) db).
Proof.
  intros Hu%find_user_None [Hpk Hseq Hname Hapk Haseq Hfk].
  split; simpl.
  - rewrite fmap_app. apply NoDup_app. split; [done|]. split; [|apply NoDup_singleton].
    intros i [u [-> Hin]]%list_elem_of_fmap Heq%list_elem_of_singleton.
    specialize (Hseq u Hin). simpl in Heq. lia.
  - intros u [Hin| ->%list_elem_of_singleton]%elem_of_app.
    + specialize (Hseq u Hin). lia.
    + simpl. lia.
  - rewrite fmap_app. apply NoDup_app. split; [done|]. split; [|apply NoDup_singleton].
    by intros x Hx ->%list_elem_of_singleton.
  - done.
  - done.
  - intros a Ha. rewrite fmap_app. apply elem_of_app. left. by apply Hfk.
Qed.

Lemma schema_constraints_with_challenge db id c :
  schema_constraints db → schema_constraints (with_challenge id c db).
Proof.
  intros [Hpk Hseq Hname Hapk Haseq Hfk]. split; simpl.
  - by rewrite fmap_set_currentChallenge_id.
  - intros u' [u [-> Hin]]%list_elem_of_fmap. rewrite set_currentChallenge_id.
    by apply Hseq.
  - by rewrite fmap_set_currentChallenge_username.
  - done.
  - done.
  - intros a Ha. rewrite fmap_set_currentChallenge_id. by apply Hfk.
Qed.

Lemma schema_constraints_with_counter db aid n :
  schema_constraints db → schema_constraints (with_counter aid n db).
Proof.
  intros [Hpk Hseq Hname Hapk Haseq Hfk]. split; simpl; try done.
  - by rewrite fmap_set_counter_id.
  - intros a' [a [-> Hin]]%list_elem_of_fmap. rewrite set_counter_id. by apply Haseq.
  - intros a' [a [-> Hin]]%list_elem_of_fmap. rewrite set_counter_userId. by apply Hfk.
Qed.

Lemma schema_constraints_with_authenticator db username u credential :
  Prisma.find_user db username = Some u →
  schema_constraints db →
  schema_constraints (with_authenticator (new_authenticator db u credential) db).
Proof.
  intros Hu%find_user_id_elem [Hpk Hseq Hname Hapk Haseq Hfk]. split; simpl; try done.
  - rewrite fmap_app. apply NoDup_app. split; [done|]. split; [|apply NoDup_singleton].
    intros i [a [-> Hin]]%list_elem_of_fmap Heq%list_elem_of_singleton.
    specialize (Haseq a Hin). simpl in Heq. lia.
  - intros a [Hin| ->%list_elem_of_singleton]%elem_of_app.
    + specialize (Haseq a Hin). lia.
    + simpl. lia.
  - intros a [Hin| ->%list_elem_of_singleton]%elem_of_app; [by apply Hfk|done].
Qed.

Lemma db_change_schema_constraints `{lib : WebAuthnServer} env username db db' :
  db_change env username db db' → schema_constraints db → schema_constraints db'.
Proof.
  intros [|c Hne Hu|u c Hu Ha|u response v info Hu Hv Ht Hi|u a response v Hu Ha Hv Ht] Hs.
  - done.
  - by apply schema_constraints_with_user.
  - by apply schema_constraints_with_challenge.
  - apply schema_constraints_with_challenge.
    by eapply schema_constraints_with_authenticator.
  - by apply schema_constraints_with_challenge, schema_constraints_with_counter.
Qed.

Lemma serve_schema_constraints `{lib : WebAuthnServer} env requests db :
  schema_constraints db → schema_constraints (Server.serve env requests db).
Proof.
  revert db. induction requests as [|r requests IH]; intros db Hs; simpl; [done|].
  apply IH. eapply db_change_schema_constraints; [apply handle_change|done].
Qed.

(** X2: starting from the empty database, after any sequence of requests and
    whatever the WebAuthn library does, the tables satisfy every constraint
    of the migration: ids are unique and below their sequence, usernames are
    unique, and every Authenticator belongs to an existing User. *)
Theorem reachable_database_satisfies_schema `{lib : WebAuthnServer} env requests :
  schema_constraints (Server.serve env requests empty_db).
Proof. apply serve_schema_constraints, schema_constraints_empty. Qed.

(** ** A request touches only the user it names *)

Lemma find_user_elem db username u :
  Prisma.find_user db username = Some u → u ∈ users db.
Proof. by intros [? _]%find_user_Some. Qed.

Lemma include_authenticators_with_authenticator row db v :
  Prisma.include_authenticators (with_authenticator row db) v
  = (Prisma.include_authenticators db v
     ++ if bool_decide (Authenticator.userId row = User.id v) then [row] else [])%list.
Proof.
  unfold Prisma.include_authenticators. simpl. rewrite List.filter_app. simpl.
  by case_bool_decide.
Qed.

(** With unique ids, two users found under different names have different
    ids. *)
Lemma find_user_ids_differ db username other u v :
  schema_constraints db →
  Prisma.find_user db username = Some u →
  Prisma.find_user db other = Some v →
  other ≠ username →
  User.id v ≠ User.id u.
Proof.
  intros Hs [Hu Hnu]%find_user_Some [Hv Hnv]%find_user_Some Hne Hid.
  apply Hne. rewrite <- Hnu, <- Hnv. f_equal.
  eapply NoDup_fmap_eq; [apply (User_pkey _ Hs)|done..].
Qed.

Lemma set_currentChallenge_other id c v :
  User.id v ≠ id → Prisma.set_currentChallenge id c v = v.
Proof. intros Hne. unfold Prisma.set_currentChallenge. by rewrite bool_decide_eq_false_2. Qed.

Lemma set_counter_other aid n b :
  Authenticator.id b ≠ aid → Prisma.set_counter aid n b = b.
Proof. intros Hne. unfold Prisma.set_counter. by rewrite bool_decide_eq_false_2. Qed.

Lemma find_user_with_challenge_other db username other u c :
  schema_constraints db →
  Prisma.find_user db username = Some u →
  other ≠ username →
  Prisma.find_user (with_challenge (User.id u) c db) other = Prisma.find_user db other.
Proof.
  intros Hs Hu Hne. rewrite find_user_with_challenge.
  destruct (Prisma.find_user db other) as [v|] eqn:Hv; [|done]. simpl. f_equal.
  apply set_currentChallenge_other. by eapply find_user_ids_differ.
Qed.

Lemma db_change_isolation `{lib : WebAuthnServer} env username db db' other :
  schema_constraints db →
  db_change env username db db' →
  other ≠ username →
  Prisma.find_user db' other = Prisma.find_user db other ∧
  ∀ v, Prisma.find_user db other = Some v →
       Prisma.include_authenticators db' v = Prisma.include_authenticators db v.
Proof.
  intros Hs [|c Hne Hu|u c Hu Ha|u response vr info Hu Hvr Ht Hi|u a response vr Hu Ha Hvr Ht]
    Hother.
  - done.
  - split; [|done]. rewrite find_user_with_user. simpl.
    rewrite bool_decide_eq_false_2 by done. by destruct (Prisma.find_user db other).
  - split; [by eapply find_user_with_challenge_other|done].
  - split.
    + rewrite find_user_with_challenge.
      change (Prisma.find_user (with_authenticator _ db) other)
        with (Prisma.find_user db other).
      rewrite <- find_user_with_challenge. by eapply find_user_with_challenge_other.
    + intros v Hv. rewrite include_authenticators_with_challenge,
        include_authenticators_with_authenticator. simpl.
      rewrite bool_decide_eq_false_2; [by rewrite app_nil_r|].
      intros Hid. by eapply (find_user_ids_differ db username other u v).
  - split.
    + rewrite find_user_with_challenge.
      change (Prisma.find_user (with_counter _ _ db) other)
        with (Prisma.find_user db other).
      rewrite <- find_user_with_challenge. by eapply find_user_with_challenge_other.
    + intros v Hv. rewrite include_authenticators_with_challenge,
        include_authenticators_with_counter.
      rewrite <- (list_fmap_id (Prisma.include_authenticators db v)) at 2.
      apply list_fmap_ext. intros i b Hb%list_elem_of_lookup_2. simpl.
      apply set_counter_other. intros Hid.
      apply find_authenticator_Some in Ha as [Ha _].
      apply include_authenticators_elem in Ha as [Ha Hau].
      apply include_authenticators_elem in Hb as [Hb Hbv].
      assert (b = a) as ->
        by (eapply NoDup_fmap_eq; [apply (Authenticator_pkey _ Hs)|done..]).
      eapply (find_user_ids_differ db username other u v); [done..|congruence].
Qed.

(** X3: in a database that satisfies the migration's constraints, a request
    naming one username leaves every other user as it was: the other user's
    row (pending challenge included) is found unchanged, and so are that
    user's Authenticators, counters included -- whatever the WebAuthn library
    answers. *)
Theorem request_leaves_other_users_alone `{lib : WebAuthnServer} env r db other :
  schema_constraints db →
  other ≠ request_username r →
  Prisma.find_user (Server.handle env r db).2 other = Prisma.find_user db other ∧
  ∀ v, Prisma.find_user db other = Some v →
       Prisma.include_authenticators (Server.handle env r db).2 v
       = Prisma.include_authenticators db v.
Proof.
  intros Hs Hne. eapply db_change_isolation; [done|apply handle_change|done].
Qed.

Lemma request_leaves_other_users_alone_witness :
  let r := Server.LoginVerify "alice" (Scenario.assertion "C1" Scenario.key1 "c-3" 1) 0 in
  let db' := (Server.handle (lib := SimpleWebAuthn.lib) Scenario.env r
                Scenario.alice_challenged).2 in
  db' ≠ Scenario.alice_challenged ∧
  Prisma.find_user db' "bob" = Some (User.mk 2 "bob" (Some "c-2")).
Proof.
  intros r db'. split; [by vm_compute|].
  assert ("bob" ≠ request_username r) as Hne by discriminate.
  assert (schema_constraints Scenario.alice_challenged) as Hs.
  { apply (serve_schema_constraints (lib := SimpleWebAuthn.lib)),
      (serve_schema_constraints (lib := SimpleWebAuthn.lib)), schema_constraints_empty. }
  exact (proj1 (request_leaves_other_users_alone (lib := SimpleWebAuthn.lib) Scenario.env r
                  Scenario.alice_challenged "bob" Hs Hne)).
Defined.

(** ** Nothing is deleted, and only two columns ever change *)





(** ** What a verified login writes *)

Lemma elem_of_fmap_at_key {A K} (key : A → K) (g : A → A) (l : list A) x y :
  (∀ z, {key z = key x} + {key z ≠ key x}) →
  NoDup (key <$> l) →
  x ∈ l →
  (∀ z, key z ≠ key x → g z = z) →
  y ∈ g <$> l ↔ (y ∈ l ∧ y ≠ x) ∨ y = g x.
Proof.
  intros Hdec Hnd Hx Hg. split.
  - intros [z [-> Hz]]%list_elem_of_fmap. destruct (Hdec z) as [Hk|Hk].
    + right. f_equal. by eapply NoDup_fmap_eq.
    + left. rewrite Hg by done. split; [done|]. by intros ->.
  - intros [[Hy Hne]| ->]; [|by apply list_elem_of_fmap_2].
    apply list_elem_of_fmap. exists y. split; [|done]. symmetry. apply Hg.
    intros Hk. apply Hne. by eapply NoDup_fmap_eq.
Qed.

(** X5: in a database that satisfies the migration's constraints, a login
    the library reports as verified writes exactly two cells: the counter of
    the presented Authenticator becomes the reported [newCounter], and the
    challenge of the user becomes null.  Every other user and every other
    Authenticator, the user's own other credentials included, stays as it
    was, and no sequence moves. *)
Theorem verified_login_writes_two_cells `{lib : WebAuthnServer} env db username response
    now u a v :
  schema_constraints db →
  Prisma.find_user db username = Some u →
  Server.find_authenticator (AuthenticationResponse.id response)
    (Prisma.include_authenticators db u) = Some a →
  verifyAuthenticationResponse response (User.currentChallenge u)
    (Server.origin env) (Server.rpID env) (Server.stored_credential a) = Normal v →
  auth_verified v = true →
  let db' := (Server.login_verify env username response now db).2 in
  (∀ w, w ∈ users db' ↔
        (w ∈ users db ∧ w ≠ u) ∨ w = User.mk (User.id u) (User.username u) None) ∧
  (∀ b, b ∈ authenticators db' ↔
        (b ∈ authenticators db ∧ b ≠ a)
        ∨ b = Authenticator.mk (Authenticator.id a) (Authenticator.credentialID a)
                (Authenticator.credentialPublicKey a) (newCounter (authenticationInfo v))
                (Authenticator.transports a) (Authenticator.userId a)) ∧
  User_id_seq db' = User_id_seq db ∧
  Authenticator_id_seq db' = Authenticator_id_seq db.
Proof.
  intros Hs Hu Ha Hv Ht db'. subst db'.
  erewrite login_verify_verified by done. simpl.
  pose proof (find_user_elem _ _ _ Hu) as Hin.
  pose proof (find_authenticator_Some _ _ _ Ha) as [[Hain _]%include_authenticators_elem _].
  split; [|split; [|done]].
  - intros w.
    rewrite (elem_of_fmap_at_key User.id _ (users db) u w);
      [|intros; apply N.eq_dec|apply (User_pkey _ Hs)|done
       |intros z Hz; by apply set_currentChallenge_other].
    unfold Prisma.set_currentChallenge. by rewrite bool_decide_eq_true_2.
  - intros b.
    rewrite (elem_of_fmap_at_key Authenticator.id _ (authenticators db) a b);
      [|intros; apply N.eq_dec|apply (Authenticator_pkey _ Hs)|done
       |intros z Hz; by apply set_counter_other].
    unfold Prisma.set_counter, BigInt. by rewrite bool_decide_eq_true_2.
Qed.

Lemma verified_login_writes_two_cells_witness :
  let db' := (Scenario.login_verify "alice" (Scenario.assertion "C1" Scenario.key1 "c-3" 7) 0
                Scenario.alice_challenged).2 in
  (∀ w, w ∈ users db' ↔
        (w ∈ users Scenario.alice_challenged ∧ w ≠ User.mk 1 "alice" (Some "c-3"))
        ∨ w = User.mk 1 "alice" None) ∧
  (∀ b, b ∈ authenticators db' ↔
        (b ∈ authenticators Scenario.alice_challenged
         ∧ b ≠ Authenticator.mk 1 "C1" Scenario.key1 0 ["internal"] 1)
        ∨ b = Authenticator.mk 1 "C1" Scenario.key1 7 ["internal"] 1).
Proof.
  intros db'.
  assert (schema_constraints Scenario.alice_challenged) as Hs.
  { apply (serve_schema_constraints (lib := SimpleWebAuthn.lib)),
      (serve_schema_constraints (lib := SimpleWebAuthn.lib)), schema_constraints_empty. }
  pose proof (verified_login_writes_two_cells (lib := SimpleWebAuthn.lib) Scenario.env
                Scenario.alice_challenged "alice"
                (Scenario.assertion "C1" Scenario.key1 "c-3" 7) 0%Z
                (User.mk 1 "alice" (Some "c-3"))
                (Authenticator.mk 1 "C1" Scenario.key1 0 ["internal"] 1) _
                Hs eq_refl eq_refl eq_refl eq_refl) as (Hu & Ha & _).
  split; [exact Hu|exact Ha].
Defined.

(** ** Stored counters never go down *)

Lemma counter_ok_le stored reported :
  counter_ok stored reported = true → (stored ≤ reported)%Z.
Proof.
  unfold counter_ok. intros [H|[H1 H2]%andb_true_iff]%orb_true_iff.
  - apply bool_decide_eq_true in H. lia.
  - apply bool_decide_eq_true in H1, H2. lia.
Qed.

(** In the library model a verified authentication reports a counter the
    counter rule accepts. *)
Lemma verifyAuthenticationResponse_counter response c o p credential v :
  SimpleWebAuthn.verifyAuthenticationResponse response c o p credential = Normal v →
  auth_verified v = true →
  counter_ok (WebAuthnCredential.counter credential) (newCounter (authenticationInfo v)) = true.
Proof.
  unfold SimpleWebAuthn.verifyAuthenticationResponse.
  repeat (case_bool_decide; simpl; [|try done]); try (by intros [= <-]).
  destruct (counter_ok _ _) eqn:Hk; simpl; [|done]. by intros [= <-].
Qed.

Lemma set_counter_identity aid n a :
  authenticator_identity (Prisma.set_counter aid n a) = authenticator_identity a.
Proof. unfold Prisma.set_counter. by case_bool_decide. Qed.

Lemma db_change_counters env username db db' a :
  schema_constraints db →
  db_change (lib := SimpleWebAuthn.lib) env username db db' →
  a ∈ authenticators db →
  ∃ a', a' ∈ authenticators db' ∧
        authenticator_identity a' = authenticator_identity a ∧
        (Authenticator.counter a ≤ Authenticator.counter a')%Z.
Proof.
  intros Hs [|c Hne Hu|u c Hu Ha|u response v info Hu Hv Ht Hi|u a0 response v Hu Ha Hv Ht]
    Hin; simpl.
  - by exists a.
  - by exists a.
  - by exists a.
  - exists a. split; [|done]. apply elem_of_app. by left.
  - exists (Prisma.set_counter (Authenticator.id a0) (newCounter (authenticationInfo v)) a).
    split; [by apply list_elem_of_fmap_2|]. split; [apply set_counter_identity|].
    unfold Prisma.set_counter. case_bool_decide as Hid; [|done]. simpl.
    pose proof (find_authenticator_Some _ _ _ Ha) as [[Ha0 _]%include_authenticators_elem _].
    assert (a = a0) as ->
      by (eapply NoDup_fmap_eq; [apply (Authenticator_pkey _ Hs)|done..]).
    apply counter_ok_le.
    by apply (verifyAuthenticationResponse_counter _ _ _ _ _ _ Hv).
Qed.

(** X6: with the library enforcing the counter rule (the model of
    @simplewebauthn/server), no sequence of requests lowers a stored counter:
    an Authenticator present in a database that satisfies the migration's
    constraints is still there afterwards, the same in every other column,
    with a counter at least as large. *)
Theorem stored_counters_never_decrease env requests db a :
  schema_constraints db →
  a ∈ authenticators db →
  ∃ a', a' ∈ authenticators (Server.serve (lib := SimpleWebAuthn.lib) env requests db) ∧
        authenticator_identity a' = authenticator_identity a ∧
        (Authenticator.counter a ≤ Authenticator.counter a')%Z.
Proof.
  revert db a. induction requests as [|r requests IH]; intros db a Hs Hin; simpl.
  { by exists a. }
  pose proof (handle_change (lib := SimpleWebAuthn.lib) env r db) as Hc.
  destruct (db_change_counters _ _ _ _ a Hs Hc Hin) as (a1 & Hin1 & Hid1 & Hle1).
  destruct (IH _ a1 (db_change_schema_constraints _ _ _ _ Hc Hs) Hin1)
    as (a2 & Hin2 & Hid2 & Hle2).
  exists a2. split; [done|]. split; [congruence|lia].
Qed.

Lemma stored_counters_never_decrease_witness :
  ∃ a', a' ∈ authenticators
          (Scenario.serve
             [Server.LoginVerify "alice" (Scenario.assertion "C1" Scenario.key1 "c-3" 4) 0;
              Server.LoginChallenge "alice" "c-4";
              Server.LoginVerify "alice" (Scenario.assertion "C1" Scenario.key1 "c-4" 2) 0]
             Scenario.alice_challenged) ∧
        authenticator_identity a'
        = authenticator_identity (Authenticator.mk 1 "C1" Scenario.key1 0 ["internal"] 1) ∧
        (0 ≤ Authenticator.counter a')%Z.
Proof.
  assert (schema_constraints Scenario.alice_challenged) as Hs.
  { apply (serve_schema_constraints (lib := SimpleWebAuthn.lib)),
      (serve_schema_constraints (lib := SimpleWebAuthn.lib)), schema_constraints_empty. }
  assert (Authenticator.mk 1 "C1" Scenario.key1 0 ["internal"] 1
          ∈ authenticators Scenario.alice_challenged) as Hin by (by vm_compute; left).
  exact (stored_counters_never_decrease Scenario.env _ Scenario.alice_challenged _ Hs Hin).
Defined.

(** ** The two ceremonies, end to end *)

(** No Authenticator points at an id the sequence has not handed out. *)
Lemma include_authenticators_fresh db u :
  schema_constraints db →
  User.id u = User_id_seq db →
  Prisma.include_authenticators db u = [].
Proof.
  intros Hs Hid. destruct (Prisma.include_authenticators db u) as [|b l] eqn:E; [done|].
  assert (b ∈ Prisma.include_authenticators db u) as Hb by (rewrite E; left).
  apply include_authenticators_elem in Hb as [Hb Hu].
  apply (Authenticator_userId_fkey _ Hs) in Hb.
  apply list_elem_of_fmap in Hb as (w & Hw & Hin).
  pose proof (User_id_below_seq _ Hs w Hin). lia.
Qed.

Lemma find_user_created db username c :
  Prisma.find_user db username = None →
  Prisma.find_user (with_user (User.mk (User_id_seq db) username c) db) username
  = Some (User.mk (User_id_seq db) username c).
Proof.
  intros Hu. rewrite find_user_with_user, Hu. simpl. by rewrite bool_decide_eq_true_2.
Qed.









(** ** The protected route *)

Lemma verify_Normal token secret now payload :
  Jwt.verify token secret now = Normal payload ↔
  secret = Some (Jwt.key token) ∧ Jwt.key token ≠ "" ∧
  (now `div` 1000 < Jwt.exp (Jwt.payload token))%Z ∧ payload = Jwt.payload token.
Proof.
  unfold Jwt.verify. destruct secret as [k|]; [|split; [intros [=]|intros [[=] _]]].
  destruct k as [|c k].
  { split; [intros [=]|]. intros (Hs & Hk & _). injection Hs as Hs. by rewrite <- Hs in Hk. }
  case_bool_decide as Hk.
  - case_bool_decide as He.
    + split; [intros [=]|]. intros (_ & _ & ? & _). lia.
    + split.
      * intros [= <-]. rewrite Hk. repeat split; [done|lia].
      * by intros (_ & _ & _ & ->).
  - split; [intros [=]|]. intros (Hs & _). injection Hs as Hs. done.
Qed.

(** X10: who gets through [verifyToken].  /profile answers 200 exactly when
    the second space-separated piece of the Authorization header is a token
    signed with the configured [JWT_SECRET] whose expiry lies ahead of the
    clock, and then it greets the username of the token; it answers 401
    exactly when the header is absent or has no (or an empty) second piece;
    every other request gets 403.  The first piece (the scheme) and any
    further pieces are never looked at. *)
Theorem profile_access env authorization now :
  let response := Server.profile env authorization now in
  (status response = 200 ↔
   ∃ pieces token,
     authorization = Some pieces ∧ pieces !! 1%nat = Some (Server.Compact token) ∧
     JWT_SECRET env = Some (Jwt.key token) ∧ Jwt.key token ≠ "" ∧
     (now `div` 1000 < Jwt.exp (Jwt.payload token))%Z ∧
     response = json (JsonMessage ("Welcome, " +:+ Jwt.username (Jwt.payload token)
                                   +:+ "! This is a protected resource."))) ∧
  (status response = 401 ↔
   authorization = None
   ∨ ∃ pieces, authorization = Some pieces
               ∧ (pieces !! 1%nat = None ∨ pieces !! 1%nat = Some (Server.Word ""))) ∧
  (status response ≠ 200 → status response ≠ 401 → response = sendStatus 403).
Proof.
  intros response. subst response. unfold Server.profile, Server.verifyToken.
  destruct authorization as [pieces|].
  2:{ simpl. split; [|split; [|done]].
    - split; [done|]. by intros (? & ? & ? & _).
    - split; [by left|done]. }
  destruct (pieces !! 1%nat) as [[token|w]|] eqn:Hp.
  - assert (¬ (pieces !! 1%nat = None ∨ pieces !! 1%nat = Some (Server.Word ""))) as Hno
      by (rewrite Hp; by intros [|]).
    destruct (Jwt.verify token (JWT_SECRET env) now) as [payload|e] eqn:Hv.
    + apply verify_Normal in Hv as (Hs & Hk & He & ->). simpl.
      split; [|split; [|done]].
      * split; [|done]. intros _. exists pieces, token. by repeat split.
      * split; [done|]. intros [|(pieces' & [= <-] & H)]; done.
    + simpl. split; [|split; [|done]].
      * split; [done|]. intros (pieces' & token' & [= <-] & Hp' & Hs & Hk & He & _).
        rewrite Hp in Hp'. injection Hp' as <-.
        assert (Jwt.verify token (JWT_SECRET env) now = Normal (Jwt.payload token)) as Hv'
          by by apply verify_Normal.
        congruence.
      * split; [done|]. intros [|(pieces' & [= <-] & H)]; done.
  - destruct w as [|c w]; simpl.
    + split; [|split; [|done]].
      * split; [done|]. intros (pieces' & token' & [= <-] & Hp' & _). congruence.
      * split; [|done]. intros _. right. exists pieces. split; [done|by right].
    + split; [|split; [|done]].
      * split; [done|]. intros (pieces' & token' & [= <-] & Hp' & _). congruence.
      * split; [done|]. intros [|(pieces' & [= <-] & [H|H])]; congruence.
  - simpl. split; [|split; [|done]].
    + split; [done|]. intros (pieces' & token' & [= <-] & Hp' & _). congruence.
    + split; [|done]. intros _. right. exists pieces. split; [done|by left].
Qed.

(** X11: the exact lifetime of a session token.  The token a successful
    login-verify hands out at clock [now] (milliseconds) is accepted by
    [verifyToken] at clock [t] exactly when [t], in whole seconds, is below
    the issue time in whole seconds plus 3600; from then on the answer is
    403.  Nothing but the clock decides: there is no lower bound on [t] and
    no lookup of the user. *)
Theorem session_token_lifetime `{lib : WebAuthnServer} env db username response now token t :
  (Server.login_verify env username response now db).1
    = Normal (json (JsonVerified true None (Some token))) →
  let bearer := Some [Server.Word "Bearer"; Server.Compact token] in
  ((t `div` 1000 < now `div` 1000 + 3600)%Z →
   Server.verifyToken env bearer t = inr (Jwt.payload token)) ∧
  ((now `div` 1000 + 3600 ≤ t `div` 1000)%Z →
   Server.verifyToken env bearer t = inl (sendStatus 403)).
Proof.
  intros Hr bearer.
  apply login_verify_succeeded_inv in Hr as (u & Hu & Ht); [|done].
  unfold token_response in Ht.
  destruct (Jwt.sign (User.username u) (JWT_SECRET env) Jwt.ms_1h now) as [tk|e] eqn:Hsign;
    [|done].
  injection Ht as <-.
  apply sign_Normal in Hsign as (Hsecret & Hkey & Hpayload).
  change (Jwt.ms_1h `div` 1000)%Z with 3600%Z in Hpayload.
  unfold bearer, Server.verifyToken. simpl. split.
  - intros Hlt.
    assert (Jwt.verify token (JWT_SECRET env) t = Normal (Jwt.payload token)) as ->; [|done].
    apply verify_Normal. repeat split; [done..|]. by rewrite Hpayload.
  - intros Hge. destruct (Jwt.verify token (JWT_SECRET env) t) as [p|e] eqn:Hv; [|done].
    apply verify_Normal in Hv as (_ & _ & Hlt & _). rewrite Hpayload in Hlt. simpl in Hlt. lia.
Qed.

Lemma session_token_lifetime_witness :
  let token := Jwt.mk (Jwt.mkPayload "alice" 1700000000 1700003600) "jwt-secret" in
  let bearer := Some [Server.Word "Bearer"; Server.Compact token] in
  Server.verifyToken Scenario.env bearer 1700003599999 = inr (Jwt.payload token) ∧
  Server.verifyToken Scenario.env bearer 1700003600000 = inl (sendStatus 403).
Proof.
  intros token bearer.
  assert ((Scenario.login_verify "alice" (Scenario.assertion "C1" Scenario.key1 "c-3" 1)
             1700000000999 Scenario.alice_challenged).1
          = Normal (json (JsonVerified true None (Some token)))) as Hlogin
    by (by vm_compute).
  split.
  - apply (proj1 (session_token_lifetime (lib := SimpleWebAuthn.lib) Scenario.env
                    Scenario.alice_challenged "alice" _ 1700000000999%Z token
                    1700003599999%Z Hlogin)).
    by vm_compute.
  - apply (proj2 (session_token_lifetime (lib := SimpleWebAuthn.lib) Scenario.env
                    Scenario.alice_challenged "alice" _ 1700000000999%Z token
                    1700003600000%Z Hlogin)).
    by vm_compute.
Defined.

(** ** What login-challenge offers *)

(** X12: a login-challenge answered with 200 carries the challenge it stored
    for the user, and its [allowCredentials] lists the credentialIDs of
    exactly the Authenticators whose [userId] is the id of the user found,
    one entry for each row -- at least one, and none of another user.  The
    query asks for no order, so the list is that of the rows up to their
    order. *)
Theorem login_challenge_offers_own_credentials db username challenge response :
  (Server.login_challenge username challenge db).1 = Normal response →
  status response = 200 →
  ∃ u options,
    Prisma.find_user db username = Some u ∧
    body response = JsonAuthenticationOptions options ∧
    auth_challenge options = challenge ∧
    User.currentChallenge
      <$> Prisma.find_user (Server.login_challenge username challenge db).2 username
      = Some (Some challenge) ∧
    auth_allowCredentials options ≠ [] ∧
    descriptor_id <$> auth_allowCredentials options
    ≡ₚ Authenticator.credentialID
         <$> List.filter (λ a, bool_decide (Authenticator.userId a = User.id u))
                         (authenticators db).
Proof.
  intros Hr Hs.
  destruct (Prisma.find_user db username) as [u|] eqn:Hu;
    [|rewrite login_challenge_absent in Hr by done; simpl in Hr; by injection Hr as <-].
  destruct (decide (Prisma.include_authenticators db u = [])) as [Ha|Ha];
    [erewrite login_challenge_no_authenticators in Hr by done; simpl in Hr;
     by injection Hr as <-|].
  rewrite (login_challenge_issued username challenge db u Hu Ha) in Hr |- *.
  simpl in Hr. injection Hr as <-. exists u. eexists. split; [done|]. split; [done|].
  split; [done|]. split.
  { simpl. rewrite find_user_with_challenge, Hu. simpl.
    unfold Prisma.set_currentChallenge. by rewrite bool_decide_eq_true_2. }
  simpl. split.
  - intros E. apply Ha. by apply fmap_nil_inv in E.
  - by rewrite <- list_fmap_compose.
Qed.

Lemma login_challenge_offers_own_credentials_witness :
  ∃ u options,
    Prisma.find_user Scenario.alice_registered "alice" = Some u ∧
    body (json (JsonAuthenticationOptions
            (generateAuthenticationOptions [mkDescriptor "C1" ["internal"]] "c-3")))
      = JsonAuthenticationOptions options ∧
    descriptor_id <$> auth_allowCredentials options
    ≡ₚ Authenticator.credentialID
         <$> List.filter (λ a, bool_decide (Authenticator.userId a = User.id u))
                         (authenticators Scenario.alice_registered).
Proof.
  destruct (login_challenge_offers_own_credentials Scenario.alice_registered "alice" "c-3"
              _ eq_refl eq_refl) as (u & options & H1 & H2 & _ & _ & _ & H6).
  exists u, options. split; [exact H1|]. split; [exact H2|exact H6].
Defined.

(** ** The Prisma server and the in-memory server *)

Lemma lookup_list_to_map_find {A B} (key : A → string) (g : A → B) (l : list A) name :
  (list_to_map ((λ x, (key x, g x)) <$> l) : gmap string B) !! name
  = g <$> List.find (λ x, bool_decide (key x = name)) l.
Proof.
  induction l as [|x l IH]; simpl; [done|].
  case_bool_decide as Hk.
  - by rewrite Hk, lookup_insert_eq.
  - by rewrite lookup_insert_ne.
Qed.

Lemma lookup_in_memory_view db name :
  in_memory_view db !! name = entry_of db <$> Prisma.find_user db name.
Proof. apply lookup_list_to_map_find. Qed.

Lemma get_in_memory_view db name :
  name ∉ InMemory.Object_prototype →
  InMemory.get (in_memory_view db) name
  = match Prisma.find_user db name with
    | Some u => InMemory.Own (entry_of db u)
    | None => InMemory.Undefined
    end.
Proof.
  intros Hp. unfold InMemory.get. rewrite lookup_in_memory_view.
  destruct (Prisma.find_user db name); simpl; [done|].
  by rewrite bool_decide_eq_false_2.
Qed.

Lemma truthy_in_memory_view db name :
  name ∉ InMemory.Object_prototype →
  InMemory.truthy (in_memory_view db) name
  = bool_decide (is_Some (Prisma.find_user db name)).
Proof.
  intros Hp. unfold InMemory.truthy. rewrite lookup_in_memory_view.
  rewrite (bool_decide_eq_false_2 (name ∈ _)) by done. rewrite orb_false_r.
  apply bool_decide_ext. by rewrite fmap_is_Some.
Qed.

(** A change made for [username] shows in the view as a write to the entry
    [users[username]] and nowhere else. *)
Lemma in_memory_view_change `{lib : WebAuthnServer} env username db db' u' :
  schema_constraints db →
  db_change env username db db' →
  Prisma.find_user db' username = Some u' →
  in_memory_view db' = <[username := entry_of db' u']> (in_memory_view db).
Proof.
  intros Hs Hc Hu'. apply map_eq. intros k.
  destruct (decide (k = username)) as [->|Hk].
  - by rewrite lookup_insert_eq, lookup_in_memory_view, Hu'.
  - rewrite lookup_insert_ne by done. rewrite !lookup_in_memory_view.
    destruct (db_change_isolation env username db db' k Hs Hc Hk) as [Hf Hi].
    rewrite Hf. destruct (Prisma.find_user db k) as [v|] eqn:Hv; [|done]. simpl.
    unfold entry_of. by rewrite (Hi v).
Qed.

Lemma find_fmap_to {A B} (P : A → bool) (Q : B → bool) (f : A → B) (l : list A) :
  (∀ x, Q (f x) = P x) → List.find Q (f <$> l) = f <$> List.find P l.
Proof.
  intros HP. induction l as [|x l IH]; simpl; [done|].
  rewrite HP. destruct (P x); [done|apply IH].
Qed.

Lemma find_authenticator_to_memory id (l : list Authenticator.t) :
  InMemory.find_authenticator id (to_memory <$> l)
  = to_memory <$> Server.find_authenticator id l.
Proof. by apply find_fmap_to. Qed.

Lemma NoDup_fmap_filter {A B} (f : A → B) (P : A → bool) (l : list A) :
  NoDup (f <$> l) → NoDup (f <$> List.filter P l).
Proof.
  induction l as [|x l IH]; [done|].
  rewrite fmap_cons. intros [Hx Hl]%NoDup_cons.
  change (List.filter P (x :: l)) with (if P x then x :: List.filter P l else List.filter P l).
  destruct (P x); [|by apply IH].
  rewrite fmap_cons. apply NoDup_cons. split; [|by apply IH].
  intros [y [Hy Hin]]%list_elem_of_fmap. apply Hx. rewrite Hy.
  apply list_elem_of_fmap_2. apply list_elem_of_In in Hin. apply filter_In in Hin as [Hin _].
  by apply list_elem_of_In.
Qed.

(** Writing the counter of the row [find] returned, by its id, is what
    assigning to the found object does to the array. *)
Lemma assign_counter_to_memory id n l a :
  NoDup (Authenticator.id <$> l) →
  Server.find_authenticator id l = Some a →
  to_memory <$> (Prisma.set_counter (Authenticator.id a) n <$> l)
  = InMemory.assign_counter id n (to_memory <$> l).
Proof.
  unfold Server.find_authenticator.
  induction l as [|x l IH]; [done|].
  rewrite fmap_cons. intros [Hx Hl]%NoDup_cons. simpl.
  case_bool_decide as Hid.
  - intros [= <-]. unfold Prisma.set_counter at 1.
    rewrite bool_decide_eq_true_2 by done. simpl. f_equal. f_equal.
    rewrite <- (list_fmap_id l) at 2. apply list_fmap_ext.
    intros i b Hb%list_elem_of_lookup_2. simpl. apply set_counter_other.
    intros Heq. apply Hx. rewrite <- Heq. by apply list_elem_of_fmap_2.
  - intros Hf. rewrite set_counter_other.
    + f_equal. by apply IH.
    + intros Heq. apply Hx. rewrite Heq. apply list_elem_of_fmap_2.
      apply find_some in Hf as [Hin _]. by apply list_elem_of_In.
Qed.

Lemma descriptor_to_memory (l : list Authenticator.t) :
  InMemory.descriptor <$> (to_memory <$> l) = Server.descriptor <$> l.
Proof. rewrite <- list_fmap_compose. by apply list_fmap_ext. Qed.

Lemma include_authenticators_id db u u' :
  User.id u' = User.id u →
  Prisma.include_authenticators db u' = Prisma.include_authenticators db u.
Proof. intros Hid. unfold Prisma.include_authenticators. by rewrite Hid. Qed.

Lemma find_user_after_challenge db username u c :
  Prisma.find_user db username = Some u →
  Prisma.find_user (with_challenge (User.id u) c db) username
  = Some (User.mk (User.id u) (User.username u) c).
Proof.
  intros Hu. rewrite find_user_with_challenge, Hu. simpl.
  unfold Prisma.set_currentChallenge. by rewrite bool_decide_eq_true_2.
Qed.

Section Agreement.

Context {lib : WebAuthnServer}.
Variable env : Env.

Lemma register_challenge_in_memory username c db :
  schema_constraints db →
  username ∉ InMemory.Object_prototype →
  InMemory.register_challenge env username c (in_memory_view db)
  = (match (Server.register_challenge env username c db).1 with
     | Normal r => r
     | Throw _ => Server.internal_server_error
     end, in_memory_view (Server.register_challenge env username c db).2).
Proof.
  intros Hs Hp. destruct (decide (username = "")) as [->|Hne]; [done|].
  destruct (Prisma.find_user db username) as [u|] eqn:Hu.
  - erewrite register_challenge_taken by done. simpl.
    unfold InMemory.register_challenge. rewrite bool_decide_eq_false_2 by done.
    rewrite truthy_in_memory_view by done. rewrite Hu.
    by rewrite bool_decide_eq_true_2.
  - rewrite register_challenge_new by done. simpl.
    rewrite in_memory_register_challenge_new; [|done|].
    2:{ rewrite truthy_in_memory_view by done. rewrite Hu.
        apply bool_decide_eq_false_2. by intros [? ?]. }
    f_equal. symmetry.
    set (row := User.mk (User_id_seq db) username (Some c)).
    rewrite (in_memory_view_change env username db (with_user row db) row Hs);
      [|by constructor|by apply find_user_created].
    f_equal. unfold entry_of. simpl.
    change (Prisma.include_authenticators (with_user row db) row)
      with (Prisma.include_authenticators db row).
    by rewrite (include_authenticators_fresh db row Hs eq_refl).
Qed.

Lemma register_verify_in_memory username response db :
  schema_constraints db →
  username ∉ InMemory.Object_prototype →
  InMemory.register_verify env username response (in_memory_view db)
  = ((Server.register_verify env username response db).1,
     in_memory_view (Server.register_verify env username response db).2).
Proof.
  intros Hs Hp. unfold InMemory.register_verify. rewrite get_in_memory_view by done.
  destruct (Prisma.find_user db username) as [u|] eqn:Hu;
    [|by rewrite register_verify_absent].
  change (InMemory.challenge (entry_of db u)) with (User.currentChallenge u).
  change (ORIGIN env) with (Server.origin env). change (RP_ID env) with (Server.rpID env).
  destruct (verifyRegistrationResponse response (User.currentChallenge u)
              (Server.origin env) (Server.rpID env)) as [v|e] eqn:Hv;
    [|by erewrite register_verify_throws].
  destruct (reg_verified v) eqn:Ht; [|by erewrite register_verify_not_verified].
  destruct (registrationInfo v) as [info|] eqn:Hi; [|by erewrite register_verify_no_info].
  erewrite register_verify_verified by done. simpl. f_equal. symmetry.
  set (row := new_authenticator db u (credential info)).
  erewrite (in_memory_view_change env username db _ _ Hs);
    [|by eapply change_registered
     |rewrite find_user_with_challenge;
      change (Prisma.find_user (with_authenticator row db) username)
        with (Prisma.find_user db username); by rewrite Hu].
  f_equal. unfold entry_of.
  rewrite set_currentChallenge_username.
  rewrite include_authenticators_with_challenge, include_authenticators_with_authenticator.
  rewrite (include_authenticators_id db u) by apply set_currentChallenge_id.
  rewrite set_currentChallenge_id. simpl. rewrite bool_decide_eq_true_2 by done.
  rewrite fmap_app. unfold Prisma.set_currentChallenge.
  by rewrite bool_decide_eq_true_2.
Qed.

Lemma login_challenge_in_memory username c db :
  schema_constraints db →
  username ∉ InMemory.Object_prototype →
  InMemory.login_challenge username c (in_memory_view db)
  = ((Server.login_challenge username c db).1,
     in_memory_view (Server.login_challenge username c db).2).
Proof.
  intros Hs Hp. unfold InMemory.login_challenge. rewrite get_in_memory_view by done.
  destruct (Prisma.find_user db username) as [u|] eqn:Hu;
    [|by rewrite login_challenge_absent].
  simpl. rewrite length_fmap.
  destruct (decide (Prisma.include_authenticators db u = [])) as [Ha|Ha].
  - erewrite login_challenge_no_authenticators by done. by rewrite Ha.
  - rewrite bool_decide_eq_false_2
      by (by destruct (Prisma.include_authenticators db u)).
    rewrite (login_challenge_issued username c db u Hu Ha). simpl.
    rewrite descriptor_to_memory. f_equal. symmetry.
    erewrite (in_memory_view_change env username db _ _ Hs);
      [|by constructor|by apply find_user_after_challenge].
    done.
Qed.

Lemma login_verify_in_memory username response now db :
  schema_constraints db →
  username ∉ InMemory.Object_prototype →
  InMemory.login_verify env username response now (in_memory_view db)
  = ((Server.login_verify env username response now db).1,
     in_memory_view (Server.login_verify env username response now db).2).
Proof.
  intros Hs Hp. unfold InMemory.login_verify. rewrite get_in_memory_view by done.
  destruct (Prisma.find_user db username) as [u|] eqn:Hu;
    [|by rewrite login_verify_absent].
  change (InMemory.authenticators (entry_of db u))
    with (to_memory <$> Prisma.include_authenticators db u).
  rewrite find_authenticator_to_memory.
  destruct (Server.find_authenticator (AuthenticationResponse.id response)
              (Prisma.include_authenticators db u)) as [a|] eqn:Ha;
    [|by erewrite login_verify_unrecognized]. simpl.
  change (InMemory.stored_credential (to_memory a)) with (Server.stored_credential a).
  change (ORIGIN env) with (Server.origin env). change (RP_ID env) with (Server.rpID env).
  destruct (verifyAuthenticationResponse response (User.currentChallenge u)
              (Server.origin env) (Server.rpID env) (Server.stored_credential a))
    as [v|e] eqn:Hv; [|by erewrite login_verify_throws].
  destruct (auth_verified v) eqn:Ht; [|by erewrite login_verify_not_verified].
  erewrite login_verify_verified by done. simpl.
  set (n := newCounter (authenticationInfo v)).
  assert (in_memory_view
            (with_challenge (User.id u) None (with_counter (Authenticator.id a) n db))
          = <[username := InMemory.mkUser (User.username u)
                            (InMemory.assign_counter (AuthenticationResponse.id response) n
                               (to_memory <$> Prisma.include_authenticators db u))
                            None]> (in_memory_view db)) as ->.
  { erewrite (in_memory_view_change env username db _ _ Hs);
      [|by eapply change_logged_in
       |rewrite find_user_with_challenge;
        change (Prisma.find_user (with_counter (Authenticator.id a) n db) username)
          with (Prisma.find_user db username); by rewrite Hu].
    f_equal. unfold entry_of.
    rewrite set_currentChallenge_username.
    rewrite include_authenticators_with_challenge, include_authenticators_with_counter.
    rewrite (include_authenticators_id db u) by apply set_currentChallenge_id.
    rewrite (assign_counter_to_memory (AuthenticationResponse.id response)) ; [|
      apply NoDup_fmap_filter, (Authenticator_pkey _ Hs)|done].
    unfold Prisma.set_currentChallenge. by rewrite bool_decide_eq_true_2. }
  unfold token_response.
  by destruct (Jwt.sign (User.username u) (JWT_SECRET env) Jwt.ms_1h now).
Qed.

Lemma handle_in_memory r db :
  schema_constraints db →
  request_username r ∉ InMemory.Object_prototype →
  InMemory.handle env r (in_memory_view db)
  = ((Server.handle env r db).1, in_memory_view (Server.handle env r db).2).
Proof.
  intros Hs Hp. destruct r as [username c|username response|username c|username response now];
    simpl in *.
  - rewrite register_challenge_in_memory by done.
    by destruct (register_challenge_change env username c db) as (r & -> & _).
  - by apply register_verify_in_memory.
  - by apply login_challenge_in_memory.
  - by apply login_verify_in_memory.
Qed.

End Agreement.

(** ** Names the in-memory server cannot hold *)

Lemma in_memory_handle_prototype `{lib : WebAuthnServer} env r
    (users : gmap string InMemory.UserEntry) :
  (∀ k, k ∈ InMemory.Object_prototype → users !! k = None) →
  ∀ k, k ∈ InMemory.Object_prototype → (InMemory.handle env r users).2 !! k = None.
Proof.
  intros Hinv k Hk.
  assert (∀ username (e : InMemory.UserEntry) (m : gmap string InMemory.UserEntry),
            m = users → (∃ e0, InMemory.get users username = InMemory.Own e0) ∨
                        InMemory.truthy users username = false →
            <[username := e]> m !! k = None) as Hins.
  { intros username e m -> Hown. destruct (decide (username = k)) as [->|Hne].
    - exfalso. destruct Hown as [[e0 Hown]|Hown].
      + unfold InMemory.get in Hown. rewrite (Hinv k Hk) in Hown.
        by rewrite bool_decide_eq_true_2 in Hown.
      + unfold InMemory.truthy in Hown. rewrite (bool_decide_eq_true_2 (k ∈ _)) in Hown by done.
        by rewrite orb_true_r in Hown.
    - rewrite lookup_insert_ne by done. by apply Hinv. }
  destruct r as [username c|username response|username c|username response now]; simpl.
  - destruct (InMemory.register_challenge env username c users) as [r users'] eqn:E. simpl.
    destruct (decide (username = "")) as [->|Hne].
    { pose proof (in_memory_register_challenge_rejected env "" c users (or_introl eq_refl)) as H.
      rewrite E in H. simpl in H. subst users'. by apply Hinv. }
    destruct (InMemory.truthy users username) eqn:Ht.
    { pose proof (in_memory_register_challenge_rejected env username c users
                    (or_intror Ht)) as H.
      rewrite E in H. simpl in H. subst users'. by apply Hinv. }
    rewrite in_memory_register_challenge_new in E by done. injection E as <- <-.
    apply Hins; [done|by right].
  - unfold InMemory.register_verify.
    destruct (InMemory.get users username) as [e| |] eqn:Hg; [| |by apply Hinv].
    + destruct (verifyRegistrationResponse _ _ _ _) as [v|?]; [|by apply Hinv].
      destruct (reg_verified v); [|by apply Hinv].
      destruct (registrationInfo v); [|by apply Hinv]. simpl.
      apply Hins; [done|left; by eexists].
    + destruct (verifyRegistrationResponse _ _ _ _) as [v|?]; [|by apply Hinv].
      destruct (reg_verified v); by apply Hinv.
  - unfold InMemory.login_challenge.
    destruct (InMemory.get users username) as [e| |] eqn:Hg; [|by apply Hinv..].
    case_bool_decide; [by apply Hinv|]. simpl. apply Hins; [done|left; by eexists].
  - unfold InMemory.login_verify.
    destruct (InMemory.get users username) as [e| |] eqn:Hg; [|by apply Hinv..].
    destruct (InMemory.find_authenticator _ _) as [a|]; [|by apply Hinv].
    destruct (verifyAuthenticationResponse _ _ _ _ _) as [v|?]; [|by apply Hinv].
    destruct (auth_verified v); [|by apply Hinv].
    destruct (Jwt.sign _ _ _ _); simpl; (apply Hins; [done|left; by eexists]).
Qed.

Lemma in_memory_serve_prototype `{lib : WebAuthnServer} env requests
    (users : gmap string InMemory.UserEntry) :
  (∀ k, k ∈ InMemory.Object_prototype → users !! k = None) →
  ∀ k, k ∈ InMemory.Object_prototype → in_memory_serve env requests users !! k = None.
Proof.
  revert users. induction requests as [|r requests IH]; intros users Hinv; simpl; [done|].
  apply IH. by apply in_memory_handle_prototype.
Qed.

(** X14: the names of [Object.prototype] members ("constructor", "toString",
    "__proto__", ...) are out of reach of the in-memory server.  Whatever
    requests came before, for such a username no entry is ever stored,
    register-challenge answers "Username already taken", and login-challenge
    and login-verify raise a TypeError outside their [try] instead of
    answering. *)
Theorem in_memory_prototype_names `{lib : WebAuthnServer} env requests username :
  username ∈ InMemory.Object_prototype →
  let users := in_memory_serve env requests ∅ in
  users !! username = None ∧
  (∀ c, InMemory.register_challenge env username c users = (Server.username_taken, users)) ∧
  (∀ c, ∃ e, InMemory.login_challenge username c users = (Throw e, users)) ∧
  (∀ response now, ∃ e, InMemory.login_verify env username response now users
                        = (Throw e, users)).
Proof.
  intros Hp users.
  assert (users !! username = None) as Hnone
    by (apply in_memory_serve_prototype; [intros; apply lookup_empty|done]).
  assert (InMemory.get users username = InMemory.Inherited) as Hget.
  { unfold InMemory.get. rewrite Hnone. by rewrite bool_decide_eq_true_2. }
  split; [done|]. split; [|split].
  - intros c. unfold InMemory.register_challenge.
    rewrite bool_decide_eq_false_2.
    + unfold InMemory.truthy. rewrite (bool_decide_eq_true_2 (username ∈ _)) by done.
      by rewrite orb_true_r.
    + intros ->. revert Hp. by apply (bool_decide_unpack _).
  - intros c. unfold InMemory.login_challenge. rewrite Hget. by eexists.
  - intros response now. unfold InMemory.login_verify. rewrite Hget. by eexists.
Qed.

Lemma in_memory_prototype_names_witness :
  let users := in_memory_serve (lib := SimpleWebAuthn.lib) Scenario.env
                 [Server.RegisterChallenge "alice" "c-1";
                  Server.RegisterChallenge "constructor" "c-2"] ∅ in
  users !! "constructor" = None ∧
  InMemory.register_challenge Scenario.env "constructor" "c-3" users
  = (Server.username_taken, users).
Proof.
  intros users.
  assert ("constructor" ∈ InMemory.Object_prototype) as Hp by left.
  pose proof (in_memory_prototype_names (lib := SimpleWebAuthn.lib) Scenario.env
                [Server.RegisterChallenge "alice" "c-1";
                 Server.RegisterChallenge "constructor" "c-2"] "constructor" Hp)
    as (H1 & H2 & _).
  split; [exact H1|exact (H2 "c-3")].
Defined.

(** ** The client's API layer against the server *)

Lemma post_Normal `{http : HttpClient} (handler : Async Response) db b db' :
  resolves_on_2xx http →
  Client.post handler db = (Normal b, db') →
  ∃ r, handler db = (Normal r, db') ∧ (200 ≤ status r < 300) ∧ b = body r.
Proof.
  intros Hhttp. unfold Client.post. destruct (handler db) as [[r|e] db1]; [|done].
  intros [= Hs <-]. specialize (Hhttp r). case_bool_decide as H2xx.
  - exists r. split; [done|]. split; [done|]. congruence.
  - destruct Hhttp as [e He]. congruence.
Qed.

Lemma register_verify_succeeded_inv `{lib : WebAuthnServer} env username response db r :
  (Server.register_verify env username response db).1 = Normal r →
  status r = 200 →
  r = json (JsonVerified true None None).
Proof.
  intros Hr Hs.
  destruct (Prisma.find_user db username) as [u|] eqn:Hu;
    [|rewrite register_verify_absent in Hr by done; simpl in Hr; by injection Hr as <-].
  destruct (verifyRegistrationResponse response (User.currentChallenge u)
              (Server.origin env) (Server.rpID env)) as [v|e] eqn:Hv;
    [|erewrite register_verify_throws in Hr by done; simpl in Hr; by injection Hr as <-].
  destruct (reg_verified v) eqn:Ht;
    [|erewrite register_verify_not_verified in Hr by done; simpl in Hr; by injection Hr as <-].
  destruct (registrationInfo v) as [info|] eqn:Hi;
    [|erewrite register_verify_no_info in Hr by done; simpl in Hr; by injection Hr as <-].
  erewrite register_verify_verified in Hr by done. simpl in Hr. by injection Hr as <-.
Qed.

Lemma status_2xx_is_200 (s : N) :
  s ∈ [200; 400; 404; 500] → 200 ≤ s < 300 → s = 200.
Proof.
  intros Hs H2. repeat (apply elem_of_cons in Hs as [->|Hs]; [lia|]).
  by apply not_elem_of_nil in Hs.
Qed.

Lemma register_verify_2xx `{lib : WebAuthnServer} env username response db r db' :
  Server.register_verify env username response db = (Normal r, db') →
  200 ≤ status r < 300 →
  r = json (JsonVerified true None None).
Proof.
  intros Hr H2. apply (register_verify_succeeded_inv env username response db);
    [by rewrite Hr|].
  destruct (register_verify_change env username response db) as (r' & Hr' & Hs & _).
  rewrite Hr in Hr'. injection Hr' as <-. by apply status_2xx_is_200.
Qed.

Lemma login_verify_2xx `{lib : WebAuthnServer} env username response now db r db' :
  Server.login_verify env username response now db = (Normal r, db') →
  200 ≤ status r < 300 →
  ∃ token, r = json (JsonVerified true None (Some token)) ∧
           Jwt.username (Jwt.payload token) = username ∧
           Jwt.sign username (JWT_SECRET env) Jwt.ms_1h now = Normal token.
Proof.
  intros Hr H2.
  destruct (login_verify_change env username response now db) as (r' & Hr' & Hs & _).
  rewrite Hr in Hr'. injection Hr' as <-.
  pose proof (status_2xx_is_200 _ Hs H2) as H200.
  destruct (login_verify_succeeded_inv env username response now db r) as (u & Hu & ->);
    [by rewrite Hr|done|].
  apply find_user_Some in Hu as [_ Hname]. unfold token_response in *.
  destruct (Jwt.sign (User.username u) (JWT_SECRET env) Jwt.ms_1h now) as [token|e] eqn:Hsign;
    [|done].
  exists token. split; [done|]. rewrite <- Hname. split; [|done].
  by apply sign_Normal in Hsign as (_ & _ & ->).
Qed.

(** X15: what [registerUser] and [loginUser] can return.  With an HTTP client
    that resolves exactly on the statuses 200 to 299 (axios's default), and
    whatever the authenticator and the WebAuthn library do: every body the
    server lets through to [throwIfNotVerified] is verified, so that helper
    never throws in these calls; a [registerUser] that returns returns
    [{ verified: true }], and a [loginUser] that returns returns
    [{ verified: true, token }] with a token that names the username. *)
Theorem client_calls_return_verified_bodies `{lib : WebAuthnServer} `{http : HttpClient}
    `{browser : Browser} env username challenge now db :
  resolves_on_2xx http →
  (∀ attestation data db',
     Client.post (Server.register_verify env username attestation) db = (Normal data, db') →
     Client.throwIfNotVerified data = Normal data) ∧
  (∀ assertion data db',
     Client.post (Server.login_verify env username assertion now) db = (Normal data, db') →
     Client.throwIfNotVerified data = Normal data) ∧
  (∀ data db',
     Client.registerUser env username challenge db = (Normal data, db') →
     data = JsonVerified true None None) ∧
  (∀ data db',
     Client.loginUser env username challenge now db = (Normal data, db') →
     ∃ token, data = JsonVerified true None (Some token) ∧
              Jwt.username (Jwt.payload token) = username).
Proof.
  intros Hhttp.
  assert (∀ db0 attestation data db',
            Client.post (Server.register_verify env username attestation) db0
              = (Normal data, db') → data = JsonVerified true None None) as Hreg.
  { intros db0 attestation data db' (r & Hr & H2 & ->)%post_Normal; [|done].
    by rewrite (register_verify_2xx _ _ _ _ _ _ Hr H2). }
  assert (∀ db0 assertion data db',
            Client.post (Server.login_verify env username assertion now) db0
              = (Normal data, db') →
            ∃ token, data = JsonVerified true None (Some token) ∧
                     Jwt.username (Jwt.payload token) = username) as Hlog.
  { intros db0 assertion data db' (r & Hr & H2 & ->)%post_Normal; [|done].
    destruct (login_verify_2xx _ _ _ _ _ _ _ Hr H2) as (token & -> & Hname & _).
    by exists token. }
  split; [|split; [|split]].
  - intros attestation data db' Hp. by rewrite (Hreg _ _ _ _ Hp).
  - intros assertion data db' Hp. by destruct (Hlog _ _ _ _ Hp) as (token & -> & _).
  - intros data db'. unfold Client.registerUser, bind, await.
    destruct (Client.post (Server.register_challenge env username challenge) db)
      as [[options|e] db1]; [|done].
    destruct (startRegistration options) as [attestation|e]; [|done].
    destruct (Client.post (Server.register_verify env username attestation) db1)
      as [[data'|e] db2] eqn:Hp; [|done].
    rewrite (Hreg _ _ _ _ Hp). simpl. by intros [= <- _].
  - intros data db'. unfold Client.loginUser, bind, await.
    destruct (Client.post (Server.login_challenge username challenge) db)
      as [[options|e] db1]; [|done].
    destruct (startAuthentication options) as [assertion|e]; [|done].
    destruct (Client.post (Server.login_verify env username assertion now) db1)
      as [[data'|e] db2] eqn:Hp; [|done].
    destruct (Hlog _ _ _ _ Hp) as (token & -> & Hname). simpl. intros [= <- _].
    by exists token.
Qed.

Lemma axios_resolves_on_2xx : resolves_on_2xx axios.
Proof. intros r. simpl. case_bool_decide; [done|by eexists]. Qed.

Lemma client_calls_return_verified_bodies_witness :
  let db1 := (Client.registerUser (lib := SimpleWebAuthn.lib) (http := axios)
                (browser := authenticator_of "C9" Scenario.key2 0)
                Scenario.env "carol" "c-5" empty_db).2 in
  (Client.registerUser (lib := SimpleWebAuthn.lib) (http := axios)
     (browser := authenticator_of "C9" Scenario.key2 0)
     Scenario.env "carol" "c-5" empty_db).1 = Normal (JsonVerified true None None) ∧
  ∃ token,
    (Client.loginUser (lib := SimpleWebAuthn.lib) (http := axios)
       (browser := authenticator_of "C9" Scenario.key2 1)
       Scenario.env "carol" "c-6" 5000 db1).1 = Normal (JsonVerified true None (Some token)) ∧
    Jwt.username (Jwt.payload token) = "carol".
Proof.
  intros db1.
  pose proof (client_calls_return_verified_bodies (lib := SimpleWebAuthn.lib) (http := axios)
                (browser := authenticator_of "C9" Scenario.key2 1)
                Scenario.env "carol" "c-6" 5000%Z db1 axios_resolves_on_2xx)
    as (_ & _ & _ & Hlogin).
  split; [reflexivity|].
  destruct (Hlogin (JsonVerified true None
                      (Some (Jwt.mk (Jwt.mkPayload "carol" 5 3605) "jwt-secret")))
                   _ eq_refl) as (token & Heq & Hname).
  exists token. split; [|exact Hname]. rewrite <- Heq. reflexivity.
Defined.

Lemma loginUser_Normal `{lib : WebAuthnServer} `{http : HttpClient} `{browser : Browser}
    env username challenge now db data db' :
  resolves_on_2xx http →
  Client.loginUser env username challenge now db = (Normal data, db') →
  ∃ token, data = JsonVerified true None (Some token) ∧
           Jwt.sign username (JWT_SECRET env) Jwt.ms_1h now = Normal token.
Proof.
  intros Hhttp. unfold Client.loginUser, bind, await.
  destruct (Client.post (Server.login_challenge username challenge) db)
    as [[options|e] db1]; [|done].
  destruct (startAuthentication options) as [assertion|e]; [|done].
  destruct (Client.post (Server.login_verify env username assertion now) db1)
    as [[data'|e] db2] eqn:Hp; [|done].
  apply post_Normal in Hp as (r & Hr & H2 & ->); [|done].
  destruct (login_verify_2xx _ _ _ _ _ _ _ Hr H2) as (token & -> & _ & Hsign).
  simpl. intros [= <- _]. by exists token.
Qed.

(** X16: from [loginUser] to [getProfile].  With an HTTP client that resolves
    exactly on the statuses 200 to 299: the token a returning [loginUser]
    delivers, kept in [localStorage], makes [getProfile] return the greeting
    for the username as long as the server's clock, in whole seconds, is
    less than 3600 past the login; from then on [getProfile] rejects.
    Without a stored token (none, or the empty string) [getProfile] throws
    "No authentication token found". *)
Theorem getProfile_after_loginUser `{lib : WebAuthnServer} `{http : HttpClient}
    `{browser : Browser} env username challenge now db token db' t :
  resolves_on_2xx http →
  Client.loginUser env username challenge now db
    = (Normal (JsonVerified true None (Some token)), db') →
  let stored := Some (Server.Compact token, []) in
  ((t `div` 1000 < now `div` 1000 + 3600)%Z →
   Client.getProfile env stored t
   = Normal (Some ("Welcome, " +:+ username +:+ "! This is a protected resource."))) ∧
  ((now `div` 1000 + 3600 ≤ t `div` 1000)%Z →
   ∃ e, Client.getProfile env stored t = Throw e) ∧
  Client.getProfile env None t = Throw "No authentication token found" ∧
  Client.getProfile env (Some (Server.Word "", [])) t = Throw "No authentication token found".
Proof.
  intros Hhttp Hlogin stored.
  destruct (loginUser_Normal _ _ _ _ _ _ _ Hhttp Hlogin) as (token' & [= <-] & Hsign).
  apply sign_Normal in Hsign as (Hsecret & Hkey & Hpayload).
  change (Jwt.ms_1h `div` 1000)%Z with 3600%Z in Hpayload.
  split; [|split; [|done]].
  - intros Hlt. unfold Client.getProfile, stored, Server.profile, Server.verifyToken. simpl.
    assert (Jwt.verify token (JWT_SECRET env) t = Normal (Jwt.payload token)) as ->.
    { apply verify_Normal. repeat split; [done..|]. by rewrite Hpayload. }
    pose proof (Hhttp (json (JsonMessage ("Welcome, " +:+ Jwt.username (Jwt.payload token)
                                          +:+ "! This is a protected resource.")))) as Hs.
    rewrite bool_decide_eq_true_2 in Hs by (simpl; lia). rewrite Hs. simpl.
    by rewrite Hpayload.
  - intros Hge. unfold Client.getProfile, stored, Server.profile, Server.verifyToken. simpl.
    destruct (Jwt.verify token (JWT_SECRET env) t) as [p|e] eqn:Hv.
    { apply verify_Normal in Hv as (_ & _ & Hlt & _). rewrite Hpayload in Hlt.
      simpl in Hlt. lia. }
    pose proof (Hhttp (sendStatus 403)) as Hs.
    rewrite bool_decide_eq_false_2 in Hs by (simpl; lia).
    destruct Hs as [e' ->]. by exists e'.
Qed.

Lemma getProfile_after_loginUser_witness :
  let token := Jwt.mk (Jwt.mkPayload "alice" 5 3605) "jwt-secret" in
  Client.getProfile (http := axios) Scenario.env (Some (Server.Compact token, [])) 3604999
    = Normal (Some "Welcome, alice! This is a protected resource.") ∧
  ∃ e, Client.getProfile (http := axios) Scenario.env (Some (Server.Compact token, []))
         3605000 = Throw e.
Proof.
  intros token.
  assert (Client.loginUser (lib := SimpleWebAuthn.lib) (http := axios)
            (browser := authenticator_of "C1" Scenario.key1 1)
            Scenario.env "alice" "c-3" 5000 Scenario.alice_registered
          = (Normal (JsonVerified true None (Some token)),
             (Client.loginUser (lib := SimpleWebAuthn.lib) (http := axios)
                (browser := authenticator_of "C1" Scenario.key1 1)
                Scenario.env "alice" "c-3" 5000 Scenario.alice_registered).2)) as Hlogin
    by reflexivity.
  split.
  - apply (proj1 (getProfile_after_loginUser (lib := SimpleWebAuthn.lib) (http := axios)
                    (browser := authenticator_of "C1" Scenario.key1 1)
                    Scenario.env "alice" "c-3" 5000%Z Scenario.alice_registered token _
                    3604999%Z axios_resolves_on_2xx Hlogin)).
    by vm_compute.
  - apply (proj1 (proj2 (getProfile_after_loginUser (lib := SimpleWebAuthn.lib)
                    (http := axios) (browser := authenticator_of "C1" Scenario.key1 1)
                    Scenario.env "alice" "c-3" 5000%Z Scenario.alice_registered token _
                    3605000%Z axios_resolves_on_2xx Hlogin))).
    by vm_compute.
Defined.

(** ** Challenges carry no ceremony *)



(** ** A registration that was not finished *)

(** X18: a user who has no Authenticator keeps the challenge of the
    register-challenge that created the row.  In a database that satisfies
    the migration's constraints, whatever one request does, such a user's row
    stays exactly as it is and stays without Authenticators -- unless the
    request is a register-verify for that username which the WebAuthn library
    verifies against that very challenge.  No handler issues the user a new
    challenge, and none removes the row. *)
Theorem unfinished_registration_stays `{lib : WebAuthnServer} env db username u r :
  schema_constraints db →
  Prisma.find_user db username = Some u →
  Prisma.include_authenticators db u = [] →
  (Prisma.find_user (Server.handle env r db).2 username = Some u ∧
   Prisma.include_authenticators (Server.handle env r db).2 u = [])
  ∨ (∃ response v,
       r = Server.RegisterVerify username response ∧
       verifyRegistrationResponse response (User.currentChallenge u)
         (Server.origin env) (Server.rpID env) = Normal v ∧
       reg_verified v = true).
Proof.
  intros Hs Hu Ha.
  destruct (decide (username = request_username r)) as [Heq|Hne].
  2:{ left. destruct (db_change_isolation env (request_username r) db
                        (Server.handle env r db).2 username Hs (handle_change env r db) Hne)
        as [Hf Hi].
      rewrite Hf. split; [done|]. by rewrite (Hi u Hu). }
  destruct r as [name c|name response|name c|name response now]; simpl in Heq; subst name;
    simpl.
  - left. destruct (decide (username = "")) as [->|Hne]; [done|].
    by erewrite register_challenge_taken.
  - destruct (verifyRegistrationResponse response (User.currentChallenge u)
                (Server.origin env) (Server.rpID env)) as [v|e] eqn:Hv;
      [|left; by erewrite register_verify_throws].
    destruct (reg_verified v) eqn:Ht;
      [|left; by erewrite register_verify_not_verified].
    right. by exists response, v.
  - left. by erewrite login_challenge_no_authenticators.
  - left. erewrite login_verify_unrecognized; [done..|]. by rewrite Ha.
Qed.

Lemma unfinished_registration_stays_witness :
  Prisma.find_user
    (Server.handle (lib := SimpleWebAuthn.lib) Scenario.env
       (Server.RegisterVerify "bob" (Scenario.attestation "C2" Scenario.key2 "stale"))
       Scenario.alice_registered).2 "bob"
  = Some (User.mk 2 "bob" (Some "c-2")).
Proof.
  assert (schema_constraints Scenario.alice_registered) as Hs
    by apply (serve_schema_constraints (lib := SimpleWebAuthn.lib)), schema_constraints_empty.
  destruct (unfinished_registration_stays (lib := SimpleWebAuthn.lib) Scenario.env
              Scenario.alice_registered "bob" (User.mk 2 "bob" (Some "c-2"))
              (Server.RegisterVerify "bob" (Scenario.attestation "C2" Scenario.key2 "stale"))
              Hs eq_refl eq_refl) as [[H _]|(response & v & Hr & Hv & Ht)].
  - exact H.
  - injection Hr as <-. vm_compute in Hv. discriminate.
Defined.

(** ** A login that cannot be signed *)

(** X19: the token is signed after the database is written.  When
    [JWT_SECRET] is not set (or empty) and the library reports the login as
    verified, login-verify answers 500 "Internal server error" and yet has
    written the reported counter and cleared the challenge: the ceremony is
    spent although no token was handed out. *)
Theorem unsigned_login_is_spent `{lib : WebAuthnServer} env db username response now u a v :
  JWT_SECRET env = None ∨ JWT_SECRET env = Some "" →
  Prisma.find_user db username = Some u →
  Server.find_authenticator (AuthenticationResponse.id response)
    (Prisma.include_authenticators db u) = Some a →
  verifyAuthenticationResponse response (User.currentChallenge u)
    (Server.origin env) (Server.rpID env) (Server.stored_credential a) = Normal v →
  auth_verified v = true →
  let result := Server.login_verify env username response now db in
  result.1 = Normal Server.internal_server_error ∧
  User.currentChallenge <$> Prisma.find_user result.2 username = Some None ∧
  Authenticator.counter
    <$> Server.find_authenticator (AuthenticationResponse.id response)
          (Prisma.include_authenticators result.2 u)
  = Some (newCounter (authenticationInfo v)).
Proof.
  intros Hkey Hu Ha Hv Ht result. subst result.
  erewrite login_verify_verified by done. cbn [fst snd].
  split; [|split].
  - unfold token_response, Jwt.sign. by destruct Hkey as [-> | ->].
  - rewrite find_user_with_challenge.
    change (Prisma.find_user (with_counter _ _ db) username)
      with (Prisma.find_user db username). rewrite Hu. simpl.
    unfold Prisma.set_currentChallenge. by rewrite bool_decide_eq_true_2.
  - erewrite find_authenticator_after_login by done. simpl.
    unfold Prisma.set_counter. by rewrite bool_decide_eq_true_2.
Qed.

Lemma unsigned_login_is_spent_witness :
  let env := mkEnv (Some "Passkey Demo") (Some "localhost") (Some "http://localhost:5173")
                   None in
  let result := Server.login_verify (lib := SimpleWebAuthn.lib) env "alice"
                  (Scenario.assertion "C1" Scenario.key1 "c-3" 1) 0
                  Scenario.alice_challenged in
  result.1 = Normal Server.internal_server_error ∧
  User.currentChallenge <$> Prisma.find_user result.2 "alice" = Some None.
Proof.
  intros env result.
  pose proof (unsigned_login_is_spent (lib := SimpleWebAuthn.lib) env
                Scenario.alice_challenged "alice"
                (Scenario.assertion "C1" Scenario.key1 "c-3" 1) 0%Z
                (User.mk 1 "alice" (Some "c-3"))
                (Authenticator.mk 1 "C1" Scenario.key1 0 ["internal"] 1) _
                (or_introl eq_refl) eq_refl eq_refl eq_refl eq_refl) as (H1 & H2 & _).
  split; [exact H1|exact H2].
Defined.

(** ** Requests a handler does not answer *)

#[local] Arguments storable : simpl never.
#[local] Arguments Postgres.where_username : simpl never.
#[local] Arguments Postgres.text_parameters : simpl never.

Ltac run_endpoint :=
  unfold Endpoint.register_challenge, Endpoint.register_verify, Endpoint.login_challenge,
    Endpoint.login_verify, Postgres.user_findUnique, Postgres.user_findUnique_include,
    bind, try_catch, await, ret, throw,
    Prisma.user_findUnique, Prisma.user_findUnique_include; simpl.

Section Unanswered.

Context {lib : WebAuthnServer}.
Variable env : Env.

Lemma user_id_seq_fresh db :
  schema_constraints db → User_id_seq db ∉ User.id <$> users db.
Proof.
  intros Hs [u [Hid Hu]]%list_elem_of_fmap.
  pose proof (User_id_below_seq _ Hs u Hu). lia.
Qed.

Lemma text_parameters_storable values db :
  forallb storable values = true → Postgres.text_parameters values db = (Normal (), db).
Proof. intros H. unfold Postgres.text_parameters. by rewrite H. Qed.

Lemma where_username_storable name db :
  storable name = true → Postgres.where_username (Some name) db = (Normal name, db).
Proof.
  intros Hn. unfold Postgres.where_username, bind.
  rewrite text_parameters_storable; [done|]. simpl. by rewrite Hn.
Qed.

Lemma findUnique_rejects username db :
  rejected_by_findUnique username →
  ∃ e, Postgres.where_username username db = (Throw e, db).
Proof.
  destruct username as [name|]; simpl; [|by eexists].
  intros Hn. unfold Postgres.where_username, Postgres.text_parameters, bind, throw. simpl.
  rewrite Hn. by eexists.
Qed.

Lemma findUnique_accepts username :
  ¬ rejected_by_findUnique username → ∃ name, username = Some name ∧ storable name = true.
Proof.
  destruct username as [name|]; simpl; [|done].
  intros Hn. exists name. split; [done|]. by destruct (storable name).
Qed.

(** With all its fields and a username PostgreSQL takes, a request is
    handled as [Server] has it. *)
Lemma register_challenge_complete name challenge db :
  schema_constraints db →
  storable name = true →
  Endpoint.register_challenge env (Some name) challenge db
  = Server.register_challenge env name challenge db.
Proof.
  intros Hs Hn. destruct name as [|a name]; [done|].
  run_endpoint. run_handler. rewrite where_username_storable by done.
  destruct (Prisma.find_user db (String a name)); [done|].
  unfold Postgres.user_create, bind.
  rewrite text_parameters_storable by (simpl; by rewrite Hn).
  by rewrite (bool_decide_eq_false_2 _ (user_id_seq_fresh db Hs)).
Qed.

Lemma login_challenge_complete name challenge db :
  storable name = true →
  Endpoint.login_challenge (Some name) challenge db = Server.login_challenge name challenge db.
Proof. intros Hn. run_endpoint. run_handler. by rewrite where_username_storable. Qed.

Lemma login_verify_complete name response now db :
  storable name = true →
  Endpoint.login_verify env (Some name) (Some response) now db
  = Server.login_verify env name response now db.
Proof. intros Hn. run_endpoint. run_handler. by rewrite where_username_storable. Qed.

Lemma authenticator_id_seq_fresh db :
  schema_constraints db → Authenticator_id_seq db ∉ Authenticator.id <$> authenticators db.
Proof.
  intros Hs [a [Hid Ha]]%list_elem_of_fmap.
  pose proof (Authenticator_id_below_seq _ Hs a Ha). lia.
Qed.

Lemma register_verify_complete name response db :
  schema_constraints db →
  storable name = true →
  storable_registration (Server.RegisterVerify name response) →
  Endpoint.register_verify env (Some name) (Some response) db
  = Server.register_verify env name response db.
Proof.
  intros Hs Hn Hr. run_endpoint. run_handler. rewrite where_username_storable by done.
  destruct (Prisma.find_user db name) as [u|]; [|done]. simpl.
  destruct (verifyRegistrationResponse _ _ _ _) as [v|e] eqn:Hv; [|done].
  destruct (reg_verified v); [|done].
  destruct (registrationInfo v) as [info|] eqn:Hi; [|done].
  unfold Postgres.authenticator_create, bind.
  rewrite text_parameters_storable by (by eapply Hr).
  by rewrite (bool_decide_eq_false_2 _ (authenticator_id_seq_fresh db Hs)).
Qed.

Lemma handle_complete r db :
  schema_constraints db →
  storable (request_username r) = true →
  storable_registration r →
  Endpoint.handle env (Endpoint.complete r) db = Server.handle env r db.
Proof.
  intros Hs Hn Hr.
  destruct r as [username c|username response|username c|username response now]; simpl in *.
  - by apply register_challenge_complete.
  - by apply register_verify_complete.
  - by apply login_challenge_complete.
  - by apply login_verify_complete.
Qed.

Lemma register_verify_answered name response db :
  storable name = true →
  ∃ r, (Endpoint.register_verify env (Some name) response db).1 = Normal r
       ∧ status r ∈ [200; 400; 404; 500].
Proof.
  intros Hn. run_endpoint. rewrite where_username_storable by done.
  destruct (Prisma.find_user db name) as [u|]; [|eexists; split; [done|set_solver]].
  simpl.
  destruct (match response with Some _ => _ | None => _ end) as [v|e];
    [|eexists; split; [done|set_solver]].
  destruct (reg_verified v); [|eexists; split; [done|set_solver]].
  destruct (registrationInfo v) as [info|]; [|eexists; split; [done|set_solver]].
  unfold Postgres.authenticator_create, Postgres.text_parameters, bind, ret, throw.
  destruct (forallb storable _);
    [|eexists; split; [done|set_solver]].
  destruct (bool_decide (Authenticator_id_seq db ∈ _));
    [eexists; split; [done|set_solver]|].
  unfold Prisma.authenticator_create.
  destruct (bool_decide (User.id u ∈ _)); [|eexists; split; [done|set_solver]]. simpl.
  unfold Prisma.user_update. simpl.
  destruct (bool_decide (User.id u ∈ _)); eexists; (split; [done|set_solver]).
Qed.

End Unanswered.

(** X1: which requests the handlers of the Prisma server do not answer.
    Take a body whose [username] and [response] are each missing or of the
    right type, a database that satisfies the migration's constraints, and
    requests served one at a time.  A handler's promise then rejects, with
    nothing sent by the handler, in exactly these cases, all of them a
    statement before its [try] raising and none of them changing the
    database: the first query rejects the [username] (missing, except in
    register-challenge which tests it first; or with a NUL byte, which
    PostgreSQL does not take as TEXT), or login-verify reads [response.id]
    of a missing [response] for a user who has an authenticator.  In every
    other case the handler answers: register-challenge 200 or 400,
    login-challenge 200 or 404, the verify handlers 200, 400, 404 or 500 --
    the insert of register-challenge meets neither unique index, the update
    of login-challenge finds its row -- whatever the WebAuthn library
    does. *)
Theorem answered_unless_rejected `{lib : WebAuthnServer} env r db :
  schema_constraints db →
  (unanswered r db → ∃ e, Endpoint.handle env r db = (Throw e, db)) ∧
  (¬ unanswered r db →
   ∃ response,
     (Endpoint.handle env r db).1 = Normal response ∧
     match r with
     | Endpoint.RegisterChallenge _ _ => status response ∈ [200; 400]
     | Endpoint.LoginChallenge _ _ => status response ∈ [200; 404]
     | Endpoint.RegisterVerify _ _ | Endpoint.LoginVerify _ _ _ =>
         status response ∈ [200; 400; 404; 500]
     end).
Proof.
  intros Hs.
  destruct r as [username c|username response|username c|username response now]; simpl.
  - split.
    + intros (name & -> & Hne & Hn). destruct name as [|a name]; [done|].
      destruct (findUnique_rejects (Some (String a name)) db Hn) as [e He].
      run_endpoint. rewrite He. by eexists.
    + intros Hun. destruct username as [name|]; [|eexists; split; [done|set_solver]].
      destruct (decide (name = "")) as [->|Hne]; [eexists; split; [done|set_solver]|].
      destruct (storable name) eqn:Hn; [|destruct Hun; by exists name].
      rewrite register_challenge_complete by done.
      destruct (register_challenge_change env name c db) as (r & -> & [Hr|Hr] & _);
        exists r; (split; [done|]); rewrite Hr; set_solver.
  - split.
    + intros [e He]%(findUnique_rejects _ db). run_endpoint. rewrite He. by eexists.
    + intros (name & -> & Hn)%findUnique_accepts.
      by apply register_verify_answered.
  - split.
    + intros [e He]%(findUnique_rejects _ db). run_endpoint. rewrite He. by eexists.
    + intros (name & -> & Hn)%findUnique_accepts.
      rewrite login_challenge_complete by done.
      destruct (login_challenge_change env name c db) as (r & -> & [Hr|Hr] & _);
        exists r; (split; [done|]); rewrite Hr; set_solver.
  - split.
    + intros [[e He]%(findUnique_rejects _ db)|(-> & name & u & -> & Hu & Ha)].
      * run_endpoint. rewrite He. by eexists.
      * destruct (storable name) eqn:Hn.
        -- run_endpoint. rewrite where_username_storable by done. rewrite Hu. simpl.
           destruct (Prisma.include_authenticators db u); [done|by eexists].
        -- destruct (findUnique_rejects (Some name) db Hn) as [e He].
           run_endpoint. rewrite He. by eexists.
    + intros Hun.
      destruct (findUnique_accepts username) as (name & -> & Hn); [tauto|].
      destruct response as [response|].
      * rewrite login_verify_complete by done.
        destruct (login_verify_change env name response now db) as (r & -> & Hr & _).
        by exists r.
      * run_endpoint. rewrite where_username_storable by done.
        destruct (Prisma.find_user db name) as [u|] eqn:Hu;
          [|eexists; split; [done|set_solver]]. simpl.
        destruct (Prisma.include_authenticators db u) as [|a l] eqn:Ha;
          [eexists; split; [done|set_solver]|].
        destruct Hun. right. split; [done|]. exists name, u. by rewrite Ha.
Qed.

Lemma answered_unless_rejected_witness :
  (∃ e, Endpoint.handle (lib := SimpleWebAuthn.lib) Scenario.env
          (Endpoint.LoginVerify (Some "alice") None 0) Scenario.alice_challenged
        = (Throw e, Scenario.alice_challenged)) ∧
  (∃ e, Endpoint.handle (lib := SimpleWebAuthn.lib) Scenario.env
          (Endpoint.RegisterVerify (Some (String Ascii.zero "alice")) None)
          Scenario.alice_challenged
        = (Throw e, Scenario.alice_challenged)) ∧
  (∃ response,
     (Endpoint.handle (lib := SimpleWebAuthn.lib) Scenario.env
        (Endpoint.LoginVerify (Some "bob") None 0) Scenario.alice_challenged).1
     = Normal response ∧ status response ∈ [200; 400; 404; 500]).
Proof.
  assert (schema_constraints Scenario.alice_challenged) as Hs
    by (do 2 apply serve_schema_constraints; apply schema_constraints_empty).
  split; [|split].
  - apply (proj1 (answered_unless_rejected (lib := SimpleWebAuthn.lib) Scenario.env
                    (Endpoint.LoginVerify (Some "alice") None 0) _ Hs)).
    right. split; [done|]. by exists "alice", (User.mk 1 "alice" (Some "c-3")).
  - apply (proj1 (answered_unless_rejected (lib := SimpleWebAuthn.lib) Scenario.env
                    (Endpoint.RegisterVerify (Some (String Ascii.zero "alice")) None) _ Hs)).
    done.
  - apply (proj2 (answered_unless_rejected (lib := SimpleWebAuthn.lib) Scenario.env
                    (Endpoint.LoginVerify (Some "bob") None 0) _ Hs)).
    intros [Hr|(_ & name & u & [= <-] & Hu & Ha)]; [done|].
    vm_compute in Hu. injection Hu as <-. by apply Ha.
Defined.

(** ** The two servers and the order of the rows *)

(** A lookup by a key held once finds the same row in any order. *)
Lemma find_unique_Permutation {A} (key : A → string) (k : string) (l l' : list A) :
  NoDup (key <$> l) → l ≡ₚ l' →
  List.find (λ x, bool_decide (key x = k)) l'
  = List.find (λ x, bool_decide (key x = k)) l.
Proof.
  intros Hnd Hp.
  destruct (List.find _ l) as [a|] eqn:Ha; destruct (List.find _ l') as [a'|] eqn:Ha';
    [| | |done].
  - apply find_some in Ha as [Hin Hk], Ha' as [Hin' Hk'].
    apply bool_decide_eq_true_1 in Hk, Hk'. f_equal.
    apply (NoDup_fmap_eq key l); [done| |by apply list_elem_of_In|congruence].
    apply list_elem_of_In. eapply Permutation_in; [symmetry; exact Hp|done].
  - apply find_some in Ha as [Hin Hk].
    eapply find_none in Ha'; [|eapply Permutation_in; [exact Hp|exact Hin]].
    simpl in Ha'. congruence.
  - apply find_some in Ha' as [Hin Hk].
    eapply find_none in Ha; [|eapply Permutation_in; [symmetry; exact Hp|exact Hin]].
    simpl in Ha. congruence.
Qed.

Lemma reordered_refl db : reordered db db.
Proof. by repeat split. Qed.

Lemma schema_constraints_reordered db db1 :
  schema_constraints db → reordered db db1 → schema_constraints db1.
Proof.
  intros [H1 H2 H3 H4 H5 H6] (Hu & Ha & Hsu & Hsa). split.
  - by rewrite Hu.
  - intros u Hin. rewrite Hsu. apply H2. by rewrite <- Hu.
  - by rewrite Hu.
  - by rewrite Ha.
  - intros a Hin. rewrite Hsa. apply H5. by rewrite <- Ha.
  - intros a Hin. rewrite Hu. apply H6. by rewrite <- Ha.
Qed.

#[local] Instance same_entry_equivalence : Equivalence same_entry.
Proof.
  split.
  - by intros e.
  - intros e1 e2 (? & ? & ?). by repeat split.
  - intros e1 e2 e3 (? & ? & ?) (? & ? & ?). repeat split; by etrans.
Qed.

Lemma same_store_refl users : same_store users users.
Proof. intros k. by destruct (users !! k); constructor. Qed.

Lemma same_store_trans users1 users2 users3 :
  same_store users1 users2 → same_store users2 users3 → same_store users1 users3.
Proof.
  intros H12 H23 k. specialize (H12 k). specialize (H23 k).
  destruct H12 as [e1 e2 H12|]; inversion H23 as [e2' e3 H23' E1 E2|]; subst;
    constructor. by etrans.
Qed.

Lemma same_store_insert k e e' users users' :
  same_store users users' → same_entry e e' →
  same_store (<[k := e]> users) (<[k := e']> users').
Proof.
  intros Hs He j. destruct (decide (j = k)) as [->|Hj].
  - rewrite !lookup_insert_eq. by constructor.
  - rewrite !lookup_insert_ne by done. apply Hs.
Qed.

Lemma same_store_get k users users' :
  same_store users users' →
  match InMemory.get users k, InMemory.get users' k with
  | InMemory.Own e, InMemory.Own e' => same_entry e e'
  | InMemory.Inherited, InMemory.Inherited => True
  | InMemory.Undefined, InMemory.Undefined => True
  | _, _ => False
  end.
Proof.
  intros Hs. unfold InMemory.get. destruct (Hs k) as [e e' He|]; [done|].
  by case_bool_decide.
Qed.

Lemma same_store_truthy k users users' :
  same_store users users' → InMemory.truthy users k = InMemory.truthy users' k.
Proof.
  intros Hs. unfold InMemory.truthy. f_equal. apply bool_decide_ext.
  destruct (Hs k); split; intros [? ?]; try done; by eexists.
Qed.

Lemma same_answer_refl a : same_answer a a.
Proof. by left. Qed.

(** The database seen as the [users] object is the same up to order however
    its rows are stored. *)
Lemma in_memory_view_reordered db db1 :
  schema_constraints db → reordered db db1 →
  same_store (in_memory_view db) (in_memory_view db1).
Proof.
  intros Hs (Hu & Ha & _ & _) k. rewrite !lookup_in_memory_view.
  unfold Prisma.find_user.
  rewrite (find_unique_Permutation User.username k (users db) (users db1));
    [|apply (User_username_key _ Hs)|by symmetry].
  destruct (List.find _ (users db)) as [u|]; constructor.
  split; [done|]. split; [done|]. simpl.
  apply fmap_Permutation, List_filter_Permutation. by symmetry.
Qed.

Lemma assign_counter_fmap id n (l : list InMemory.Authenticator) :
  NoDup (InMemory.credentialID <$> l) →
  InMemory.assign_counter id n l
  = (λ auth, if bool_decide (InMemory.credentialID auth = id)
             then InMemory.mkAuthenticator (InMemory.credentialID auth)
                    (InMemory.credentialPublicKey auth) n (InMemory.transports auth)
             else auth) <$> l.
Proof.
  induction l as [|x l IH]; [done|].
  rewrite fmap_cons. intros [Hx Hl]%NoDup_cons. simpl.
  case_bool_decide as Hid.
  - f_equal. rewrite <- (list_fmap_id l) at 1. apply list_fmap_ext.
    intros i y Hy%list_elem_of_lookup_2. simpl.
    rewrite bool_decide_eq_false_2; [done|].
    intros Hy'. apply Hx. rewrite Hid, <- Hy'. by apply list_elem_of_fmap_2.
  - f_equal. by apply IH.
Qed.

Section Order.

Context {lib : WebAuthnServer}.
Variable env : Env.

(** The in-memory handlers do not tell two stores apart that differ in the
    order of the authenticators only, as long as no entry holds one
    credentialID twice. *)
Lemma in_memory_handle_same_store r users users' :
  same_store users users' →
  credentials_distinct users →
  same_answer (InMemory.handle env r users).1 (InMemory.handle env r users').1 ∧
  same_store (InMemory.handle env r users).2 (InMemory.handle env r users').2.
Proof.
  intros Hs Hd.
  destruct r as [username c|username response|username c|username response now]; simpl.
  - destruct (decide (username = "")) as [->|Hne]; [by split; [left|]|].
    pose proof (same_store_truthy username _ _ Hs) as Ht.
    destruct (InMemory.truthy users username) eqn:Ht1.
    + unfold InMemory.register_challenge. rewrite bool_decide_eq_false_2 by done.
      rewrite <- Ht, Ht1. simpl. by split; [left|].
    + rewrite !in_memory_register_challenge_new by done. simpl.
      split; [by left|]. by apply same_store_insert.
  - unfold InMemory.register_verify.
    pose proof (same_store_get username _ _ Hs) as Hg.
    destruct (InMemory.get users username) as [e| |],
             (InMemory.get users' username) as [e'| |]; try done.
    + destruct Hg as (Hn & Hc & Ha). rewrite <- Hc.
      destruct (verifyRegistrationResponse _ _ _ _) as [v|?]; [|by split; [left|]].
      destruct (reg_verified v); [|by split; [left|]].
      destruct (registrationInfo v); [|by split; [left|]]. simpl.
      split; [by left|]. apply same_store_insert; [done|].
      split; [done|]. split; [done|]. simpl. by rewrite Ha.
    + destruct (verifyRegistrationResponse _ _ _ _) as [v|?]; [|by split; [left|]].
      by destruct (reg_verified v); (split; [left|]).
    + by split; [left|].
  - unfold InMemory.login_challenge.
    pose proof (same_store_get username _ _ Hs) as Hg.
    destruct (InMemory.get users username) as [e| |],
             (InMemory.get users' username) as [e'| |]; try done;
      [|by split; [left|]..].
    destruct Hg as (Hn & Hc & Ha).
    rewrite <- (Permutation_length Ha).
    case_bool_decide; [by split; [left|]|]. simpl. split.
    + right. do 2 eexists. split; [done|]. split; [done|]. split; [done|].
      simpl. by rewrite Ha.
    + apply same_store_insert; [done|]. by repeat split.
  - unfold InMemory.login_verify.
    assert (∀ e, InMemory.get users username = InMemory.Own e →
                 NoDup (InMemory.credentialID <$> InMemory.authenticators e)) as Hnd.
    { intros e. unfold InMemory.get.
      destruct (users !! username) as [e0|] eqn:He0; [|by case_bool_decide].
      intros [= <-]. exact (Hd username e0 He0). }
    pose proof (same_store_get username _ _ Hs) as Hg.
    destruct (InMemory.get users username) as [e| |],
             (InMemory.get users' username) as [e'| |]; try done;
      [|by split; [left|]..].
    destruct Hg as (Hn & Hc & Ha). specialize (Hnd e eq_refl).
    unfold InMemory.find_authenticator.
    rewrite (find_unique_Permutation InMemory.credentialID
               (AuthenticationResponse.id response)
               (InMemory.authenticators e) (InMemory.authenticators e')) by done.
    destruct (List.find _ (InMemory.authenticators e)) as [a|]; [|by split; [left|]].
    rewrite <- Hc.
    destruct (verifyAuthenticationResponse _ _ _ _ _) as [v|?]; [|by split; [left|]].
    destruct (auth_verified v); [|by split; [left|]].
    rewrite <- Hn.
    assert (same_store
              (<[username := InMemory.mkUser (InMemory.username e)
                   (InMemory.assign_counter (AuthenticationResponse.id response)
                      (newCounter (authenticationInfo v)) (InMemory.authenticators e))
                   None]> users)
              (<[username := InMemory.mkUser (InMemory.username e)
                   (InMemory.assign_counter (AuthenticationResponse.id response)
                      (newCounter (authenticationInfo v)) (InMemory.authenticators e'))
                   None]> users')) as Hs'.
    { apply same_store_insert; [done|]. split; [done|]. split; [done|]. simpl.
      rewrite !assign_counter_fmap; [by rewrite Ha|by rewrite <- Ha|done]. }
    by destruct (Jwt.sign _ _ _ _); (split; [left|]).
Qed.

(** One request, served by the in-memory server from a store that holds what
    the database holds, and by the Prisma server from the rows in any
    order. *)
Lemma handle_in_any_order r users db db1 :
  schema_constraints db →
  same_store users (in_memory_view db) →
  credentials_distinct users →
  request_username r ∉ InMemory.Object_prototype →
  storable (request_username r) = true →
  storable_registration r →
  reordered db db1 →
  same_answer (InMemory.handle env r users).1
              (Endpoint.handle env (Endpoint.complete r) db1).1 ∧
  same_store (InMemory.handle env r users).2
             (in_memory_view (Endpoint.handle env (Endpoint.complete r) db1).2) ∧
  schema_constraints (Endpoint.handle env (Endpoint.complete r) db1).2.
Proof.
  intros Hs Hv Hd Hp Hn Hreg Hr.
  pose proof (schema_constraints_reordered _ _ Hs Hr) as Hs1.
  assert (same_store users (in_memory_view db1)) as Hv1
    by (eapply same_store_trans; [done|by apply in_memory_view_reordered]).
  destruct (in_memory_handle_same_store r _ _ Hv1 Hd) as [Ha Hst].
  rewrite (handle_in_memory env r db1 Hs1 Hp) in Ha, Hst. simpl in Ha, Hst.
  rewrite (handle_complete env r db1 Hs1 Hn Hreg).
  split; [done|]. split; [done|].
  eapply db_change_schema_constraints; [apply handle_change|done].
Qed.

Lemma served_in_any_order_same requests users db rs db' :
  schema_constraints db →
  same_store users (in_memory_view db) →
  Forall (λ r, (request_username r ∉ InMemory.Object_prototype)
               ∧ storable (request_username r) = true
               ∧ storable_registration r) requests →
  (∀ n, credentials_distinct (in_memory_serve env (take n requests) users)) →
  served_in_any_order env requests db rs db' →
  Forall2 same_answer (in_memory_answers env requests users) rs ∧
  same_store (in_memory_serve env requests users) (in_memory_view db').
Proof.
  intros Hs Hv Hall Hd Hrun. revert users Hs Hv Hall Hd.
  induction Hrun as [db db1 Hr|r rest db db1 rs db' Hr Hrun IH];
    intros users Hs Hv Hall Hd; simpl.
  - split; [constructor|].
    eapply same_store_trans; [done|by apply in_memory_view_reordered].
  - apply Forall_cons in Hall as [(Hp & Hn & Hreg) Hall].
    destruct (handle_in_any_order r users db db1 Hs Hv (Hd 0%nat) Hp Hn Hreg Hr)
      as (Ha & Hst & Hs').
    destruct (IH _ Hs' Hst Hall) as [Hrs Hfin]; [exact (λ n, Hd (S n))|].
    split; [by constructor|done].
Qed.

(** The rows in the order of the tables are one of the orders. *)
Lemma served_in_table_order requests db :
  served_in_any_order env requests db
    (Endpoint.answers env (Endpoint.complete <$> requests) db)
    (Endpoint.serve env (Endpoint.complete <$> requests) db).
Proof.
  revert db. induction requests as [|r rest IH]; intros db; simpl.
  - constructor. apply reordered_refl.
  - econstructor; [apply reordered_refl|apply IH].
Qed.

End Order.

(** X13: the Prisma server answers as the in-memory server did, up to the
    order of [allowCredentials].  Start the in-memory server from the
    [users] object that holds what a database satisfying the migration's
    constraints holds, and let the Prisma server find its rows in any order
    at each request.  Take a sequence of requests, each with all its fields,
    whose usernames are text PostgreSQL takes and not names of
    [Object.prototype] members, whose registrations yield credentials
    PostgreSQL can store, and during which the in-memory server never holds
    one credentialID twice under one user.  Served one at a time, the two
    give the same answers request by request, but for the order in which a
    login-challenge lists the credentials, and end holding the same users,
    challenges and authenticators -- whatever the WebAuthn library does. *)
Theorem servers_agree `{lib : WebAuthnServer} env requests db rs db' :
  schema_constraints db →
  Forall (λ r, (request_username r ∉ InMemory.Object_prototype)
               ∧ storable (request_username r) = true
               ∧ storable_registration r) requests →
  (∀ n, credentials_distinct (in_memory_serve env (take n requests) (in_memory_view db))) →
  served_in_any_order env requests db rs db' →
  Forall2 same_answer (in_memory_answers env requests (in_memory_view db)) rs ∧
  same_store (in_memory_serve env requests (in_memory_view db)) (in_memory_view db').
Proof.
  intros Hs Hall Hd Hrun.
  by apply (served_in_any_order_same env requests _ db rs db');
    [|apply same_store_refl|..].
Qed.

Lemma servers_agree_witness :
  let requests :=
    [Server.RegisterChallenge "alice" "c-1";
     Server.RegisterVerify "alice" (Scenario.attestation "C1" Scenario.key1 "c-1");
     Server.LoginChallenge "alice" "c-3";
     Server.LoginVerify "alice" (Scenario.assertion "C1" Scenario.key1 "c-3" 1) 1000;
     Server.LoginVerify "alice" (Scenario.assertion "C1" Scenario.key1 "c-3" 1) 2000] in
  Forall2 same_answer
    (in_memory_answers (lib := SimpleWebAuthn.lib) Scenario.env requests ∅)
    (Endpoint.answers (lib := SimpleWebAuthn.lib) Scenario.env
       (Endpoint.complete <$> requests) empty_db).
Proof.
  intros requests.
  assert (Forall (λ r, (request_username r ∉ InMemory.Object_prototype)
                       ∧ storable (request_username r) = true
                       ∧ storable_registration (lib := SimpleWebAuthn.lib) r) requests)
    as Hall.
  { repeat (apply Forall_cons; split;
            [split; [by apply (bool_decide_unpack _)|split; [done|]]|]);
      [done| |done..|apply Forall_nil_2].
    intros c o rp v info Hv Hi. simpl in Hv.
    unfold SimpleWebAuthn.verifyRegistrationResponse in Hv. simpl in Hv.
    repeat (destruct (negb _); [done|]).
    injection Hv as <-. by injection Hi as <-. }
  assert (∀ n, credentials_distinct
                 (in_memory_serve (lib := SimpleWebAuthn.lib) Scenario.env
                    (take n requests) (in_memory_view empty_db))) as Hd.
  { intros n.
    do 5 (destruct n as [|n]; [apply (bool_decide_unpack _); by vm_compute|]).
    unfold requests. cbn [take]. rewrite take_nil.
    apply (bool_decide_unpack _). by vm_compute. }
  exact (proj1 (servers_agree (lib := SimpleWebAuthn.lib) Scenario.env requests empty_db _ _
                  schema_constraints_empty Hall Hd
                  (served_in_table_order Scenario.env requests empty_db))).
Defined.

